(** * tradewin-algo: decision and position-management engine

    A shallow embedding of the engine of [hsatam/tradewin-algo]
    (indicator computation, strategy levels, signal evaluators, the
    filter chain, the trailing stop-loss manager and the trade executor),
    followed by the properties established about it.

    Modelling conventions.
    - A Python/NumPy float is a value of [fl]: a finite number, idealised
      as an exact rational, one of the two infinities, or NaN.  Arithmetic
      is exact (binary rounding and overflow are outside the model);
      NaN and the infinities propagate as in IEEE 754; every comparison
      with NaN is false.  Signed zeros are not distinguished.
    - A function that can raise returns a [result]; code that mutates the
      shared [TradeState] before raising returns the state it leaves
      behind together with the outcome.
    - A pandas frame is column oriented: an index and a finite map from
      column names to typed columns. *)

From Stdlib Require Import ZArith QArith Qabs Qminmax Qround Lqa String Sorted.
From stdpp Require Import gmap strings list fin_maps.

Set Default Proof Using "Type".

(* ===================================================================== *)
(** * Floats *)
(* ===================================================================== *)

Module Float.

Inductive fl : Type :=
| NaN
| NInf
| Fin (q : Q)
| PInf.

Definition Qlt_bool (x y : Q) : bool := negb (Qle_bool y x).

Definition Qsgn_pos (q : Q) : bool := Qlt_bool 0 q.
Definition Qsgn_zero (q : Q) : bool := Qeq_bool q 0.

Definition fneg (a : fl) : fl :=
  match a with
  | NaN => NaN
  | NInf => PInf
  | PInf => NInf
  | Fin q => Fin (- q)
  end.

Definition fadd (a b : fl) : fl :=
  match a, b with
  | NaN, _ | _, NaN => NaN
  | PInf, NInf | NInf, PInf => NaN
  | PInf, _ | _, PInf => PInf
  | NInf, _ | _, NInf => NInf
  | Fin x, Fin y => Fin (x + y)
  end.

Definition fsub (a b : fl) : fl := fadd a (fneg b).

(** An infinity scaled by a finite factor: NaN at zero, otherwise the
    sign of the product. *)
Definition inf_scaled (positive : bool) (q : Q) : fl :=
  if Qsgn_zero q then NaN
  else if Bool.eqb positive (Qsgn_pos q) then PInf else NInf.

Definition fmul (a b : fl) : fl :=
  match a, b with
  | NaN, _ | _, NaN => NaN
  | PInf, PInf | NInf, NInf => PInf
  | PInf, NInf | NInf, PInf => NInf
  | PInf, Fin q | Fin q, PInf => inf_scaled true q
  | NInf, Fin q | Fin q, NInf => inf_scaled false q
  | Fin x, Fin y => Fin (x * y)
  end.

(** NumPy division: a finite value over zero is an infinity (or NaN for
    0/0) with a warning, never an exception. *)
Definition fdiv (a b : fl) : fl :=
  match a, b with
  | NaN, _ | _, NaN => NaN
  | (PInf | NInf), (PInf | NInf) => NaN
  | Fin _, (PInf | NInf) => Fin 0
  | PInf, Fin q => if Qlt_bool q 0 then NInf else PInf
  | NInf, Fin q => if Qlt_bool q 0 then PInf else NInf
  | Fin x, Fin y =>
      if Qsgn_zero y then
        (if Qsgn_zero x then NaN else if Qsgn_pos x then PInf else NInf)
      else Fin (x / y)
  end.

Definition fabs (a : fl) : fl :=
  match a with
  | NaN => NaN
  | NInf | PInf => PInf
  | Fin q => Fin (Qabs q)
  end.

Definition flt (a b : fl) : bool :=
  match a, b with
  | NaN, _ | _, NaN => false
  | _, NInf => false
  | NInf, _ => true
  | PInf, _ => false
  | Fin _, PInf => true
  | Fin x, Fin y => Qlt_bool x y
  end.

Definition fle (a b : fl) : bool :=
  match a, b with
  | NaN, _ | _, NaN => false
  | NInf, _ => true
  | _, PInf => true
  | _, NInf => false
  | PInf, _ => false
  | Fin x, Fin y => Qle_bool x y
  end.

Definition fgt (a b : fl) : bool := flt b a.
Definition fge (a b : fl) : bool := fle b a.

(** [pd.isna] on a float. *)
Definition isna (a : fl) : bool :=
  match a with NaN => true | _ => false end.

(** Truth value of a float in a Python condition: everything but zero. *)
Definition truthy (a : fl) : bool :=
  match a with Fin q => negb (Qsgn_zero q) | _ => true end.

(** Python's builtin [min(a, b)]: the first argument unless the second
    is strictly smaller. *)
Definition py_min (a b : fl) : fl := if flt b a then b else a.

(** [np.maximum(a, b)]: NaN if either is NaN. *)
Definition np_maximum (a b : fl) : fl :=
  if isna a || isna b then NaN else if flt a b then b else a.

(** Round half to even at two decimals, on the exact value. *)
Definition round_half_even (q : Q) : Z :=
  let f := Qfloor q in
  match (q - inject_Z f ?= 1 # 2)%Q with
  | Lt => f
  | Gt => (f + 1)%Z
  | Eq => if Z.even f then f else (f + 1)%Z
  end.

Definition round2Q (q : Q) : Q := Qmake (round_half_even (q * 100)%Q) 100.

(** [round(x, 2)]. *)
Definition round2 (a : fl) : fl :=
  match a with Fin q => Fin (round2Q q) | _ => a end.

Definition round1Q (q : Q) : Q := Qmake (round_half_even (q * 10)%Q) 10.

(** [round(x, 1)]. *)
Definition round1 (a : fl) : fl :=
  match a with Fin q => Fin (round1Q q) | _ => a end.

Definition of_Z (z : Z) : fl := Fin (inject_Z z).

(** Same float up to the representation of the rational. *)
Definition feq (a b : fl) : Prop :=
  match a, b with
  | NaN, NaN | NInf, NInf | PInf, PInf => True
  | Fin x, Fin y => (x == y)%Q
  | _, _ => False
  end.

End Float.
Export Float.

Declare Scope fl_scope.
Delimit Scope fl_scope with fl.
Bind Scope fl_scope with fl.
Infix "+" := fadd : fl_scope.
Infix "-" := fsub : fl_scope.
Infix "*" := fmul : fl_scope.
Infix "/" := fdiv : fl_scope.
Infix "<?" := flt : fl_scope.
Infix "<=?" := fle : fl_scope.
Infix ">?" := fgt : fl_scope.
Infix ">=?" := fge : fl_scope.

(* ===================================================================== *)
(** * Exceptions and results *)
(* ===================================================================== *)

(** The exceptions the modelled code can raise.  A [KeyError] carries
    the key that was looked up and an [AttributeError] the name of the
    attribute the object does not have; a [TypeError] carries a short
    description of the operation that failed and a [ValueError] its
    message.  The text of [str(e)] is composed by the runtime from the
    exception and the types of the operands and is not represented:
    where the source formats an exception into a string, the model
    keeps the exception. *)
Inductive exn : Type :=
| KeyError (key : string)
| TypeError (what : string)
| AttributeError (attribute : string)
| ValueError (what : string).

Inductive result (A : Type) : Type :=
| Ok (a : A)
| Raise (e : exn).
Arguments Ok {A} a.
Arguments Raise {A} e.

Definition rbind {A B} (m : result A) (k : A -> result B) : result B :=
  match m with
  | Ok a => k a
  | Raise e => Raise e
  end.

Declare Scope result_scope.
Delimit Scope result_scope with result.
Notation "x <- m ;; k" := (rbind m (fun x => k))
  (at level 100, m at next level, right associativity) : result_scope.
Open Scope result_scope.

Fixpoint mapM {A B} (f : A -> result B) (l : list A) : result (list B) :=
  match l with
  | [] => Ok []
  | a :: l' => b <- f a ;; bs <- mapM f l' ;; Ok (b :: bs)
  end.

(* ===================================================================== *)
(** * Timestamps *)
(* ===================================================================== *)

(** A [datetime]/[pd.Timestamp]: wall-clock seconds since the epoch and
    the UTC offset of its time zone, [None] for a naive timestamp. *)
Record Timestamp : Type := mkTS { wall : Z; tzoff : option Z }.

Definition day_seconds : Z := 86400.

(** [.date()]: the calendar day, as a day number. *)
Definition date_of (t : Timestamp) : Z := (wall t / day_seconds)%Z.

(** [.time()]: the wall-clock time of day, in seconds after midnight. *)
Definition time_of (t : Timestamp) : Z := (wall t mod day_seconds)%Z.

(** [dt_time(h, m)]. *)
Definition dt_time (h m : Z) : Z := (h * 3600 + m * 60)%Z.

Definition ORB_WINDOW_START : Z := dt_time 9 15.
Definition ORB_WINDOW_END : Z := dt_time 9 30.

(** Offset of [ZoneInfo("Asia/Kolkata")]: +05:30. *)
Definition kolkata : Z := 19800.

(** [t.replace(tzinfo=ZoneInfo("Asia/Kolkata"))] when [t.tzinfo is None]. *)
Definition localize (t : Timestamp) : Timestamp :=
  match tzoff t with
  | None => mkTS (wall t) (Some kolkata)
  | Some _ => t
  end.

(** [(a - b).total_seconds()]; mixing a naive and an aware timestamp
    raises. *)
Definition total_seconds_between (a b : Timestamp) : result Z :=
  match tzoff a, tzoff b with
  | None, None => Ok (wall a - wall b)%Z
  | Some oa, Some ob => Ok ((wall a - oa) - (wall b - ob))%Z
  | _, _ => Raise (TypeError "can't subtract offset-naive and offset-aware datetimes")
  end.

(* ===================================================================== *)
(** * Frames and rows *)
(* ===================================================================== *)

(** A value stored in a frame: a float, a timestamp or a calendar day. *)
Inductive cell : Type :=
| Num (x : fl)
| TS (t : Timestamp)
| Day (d : Z).

Abbreviation column := (list cell).

Record DataFrame : Type := mkDF {
  index : list Timestamp;
  columns : gmap string column
}.

(** A row ([pd.Series]) taken out of a frame: its label and its cells. *)
Record Row : Type := mkRow {
  name : Timestamp;
  cells : gmap string cell
}.

Definition nrows (df : DataFrame) : nat := length (index df).

(** [df[c]]. *)
Definition getcol (df : DataFrame) (c : string) : result column :=
  match columns df !! c with
  | Some col => Ok col
  | None => Raise (KeyError c)
  end.

(** [df[c] = col]. *)
Definition setcol (df : DataFrame) (c : string) (col : column) : DataFrame :=
  mkDF (index df) (<[c := col]> (columns df)).

(** [df.drop(columns=[c])]. *)
Definition dropcol (df : DataFrame) (c : string) : DataFrame :=
  mkDF (index df) (delete c (columns df)).

(** [row[c]]. *)
Definition getcell (r : Row) (c : string) : result cell :=
  match cells r !! c with
  | Some v => Ok v
  | None => Raise (KeyError c)
  end.

(** A cell used as a number.  The price, indicator and level columns of
    a frame hold floats.  A timestamp or a day met where the code
    computes with a number is modelled as the [TypeError] of that
    operation; the [Timedelta] that Python forms from the difference of
    two timestamps, which fails only at the next comparison with a
    number, is not modelled. *)
Definition as_num (v : cell) : result fl :=
  match v with
  | Num x => Ok x
  | _ => Raise (TypeError "unsupported operand type(s)")
  end.

(** A cell whose attribute [attribute] is read ([.time()], [.date()],
    [.tzinfo], the [.dt] accessor): timestamps have it, a float or a
    calendar day does not. *)
Definition as_ts (attribute : string) (v : cell) : result Timestamp :=
  match v with
  | TS t => Ok t
  | _ => Raise (AttributeError attribute)
  end.

Definition getnum (r : Row) (c : string) : result fl :=
  v <- getcell r c ;; as_num v.

(** A numeric column. *)
Definition floats (col : column) : result (list fl) := mapM as_num col.

(** The [.dt] accessor of a column. *)
Definition datetimes (col : column) : result (list Timestamp) :=
  mapM (as_ts "dt") col.

(** [df.iloc[i]]. *)
Definition iloc (df : DataFrame) (i : nat) : result Row :=
  match index df !! i with
  | Some t => Ok (mkRow t (omap (fun col : column => col !! i) (columns df)))
  | None => Raise (KeyError "single positional indexer is out-of-bounds")
  end.

(** The point in time of a timestamp: seconds since the epoch in UTC
    for an aware timestamp, the wall-clock reading for a naive one. *)
Definition instant (t : Timestamp) : Z :=
  match tzoff t with
  | Some off => (wall t - off)%Z
  | None => wall t
  end.

(** A label matching an index entry: two aware timestamps match when
    they are the same instant, whatever their zones; two naive ones when
    they read the same; an aware and a naive one never match. *)
Definition ts_eqb (a b : Timestamp) : bool :=
  match tzoff a, tzoff b with
  | None, None | Some _, Some _ => Z.eqb (instant a) (instant b)
  | _, _ => false
  end.

(** [index.is_monotonic_increasing]. *)
Fixpoint is_monotonic_increasing (l : list Timestamp) : bool :=
  match l with
  | x :: (y :: _) as l' => (instant x <=? instant y)%Z && is_monotonic_increasing l'
  | _ => true
  end.

Fixpoint find_index (t : Timestamp) (l : list Timestamp) : option nat :=
  match l with
  | [] => None
  | x :: l' => if ts_eqb t x then Some 0%nat else S <$> find_index t l'
  end.

(** [df.index.get_loc(label)] followed by [loc.start if isinstance(loc,
    slice) else loc]: the first position of the label. *)
Definition get_loc (df : DataFrame) (label : Timestamp) : result nat :=
  match find_index label (index df) with
  | Some i => Ok i
  | None => Raise (KeyError "index label")
  end.

(** [df.loc[mask, c] = values]: the cells of column [c] selected by
    [mask] are replaced, position by position. *)
Fixpoint set_where (mask : list bool) (values : list cell) (col : column) : column :=
  match mask, values, col with
  | m :: mask', v :: values', x :: col' =>
      (if m then v else x) :: set_where mask' values' col'
  | _, _, _ => col
  end.

(* ===================================================================== *)
(** * pandas series operations *)
(* ===================================================================== *)

Definition fl_sum (l : list fl) : fl := foldr fadd (Fin 0) l.

Definition of_nat (n : nat) : fl := of_Z (Z.of_nat n).

(** [s.shift(n)]: values move down by [n], the head is filled with NaN. *)
Definition shift (n : nat) (l : list fl) : list fl :=
  take (length l) (replicate n NaN ++ l).

(** [s.rolling(window=w).mean()] at position [i]: the mean of the [w]
    values ending at [i], NaN unless the window holds [w] observations. *)
Definition rolling_mean_at (w : nat) (l : list fl) (i : nat) : fl :=
  if (i + 1 <? w)%nat then NaN
  else
    let window := take w (drop (i + 1 - w) l) in
    if (length window =? w)%nat && forallb (fun x => negb (isna x)) window
    then (fl_sum window / of_nat w)%fl
    else NaN.

Definition rolling_mean (w : nat) (l : list fl) : list fl :=
  map (rolling_mean_at w l) (seq 0 (length l)).

(** [s.max()] and [s.min()]: NaN is skipped; NaN for no observation. *)
Definition fl_max (l : list fl) : fl :=
  foldr (fun x acc => if isna x then acc else if isna acc then x
                      else if flt acc x then x else acc) NaN l.

Definition fl_min (l : list fl) : fl :=
  foldr (fun x acc => if isna x then acc else if isna acc then x
                      else if flt x acc then x else acc) NaN l.

(** [s.mean()]: NaN is skipped; NaN for no observation. *)
Definition fl_mean (l : list fl) : fl :=
  let obs := filter (fun x => isna x = false) l in
  match obs with
  | [] => NaN
  | _ => (fl_sum obs / of_nat (length obs))%fl
  end.

(** [s.fillna(v)]. *)
Definition fillna (v : fl) (l : list fl) : list fl :=
  map (fun x => if isna x then v else x) l.

(** [s.ffill()]: a NaN takes the last observation before it. *)
Fixpoint ffill_from (last : fl) (l : list fl) : list fl :=
  match l with
  | [] => []
  | x :: l' =>
      let x' := if isna x then last else x in
      x' :: ffill_from x' l'
  end.

(** [s.pct_change()]: relative change from the previous value, NaN
    values padded forward first. *)
Definition pct_change (l : list fl) : list fl :=
  let data := ffill_from NaN l in
  zip_with (fun x p => (x / p - Fin 1)%fl) data (shift 1 data).

Definition fl_eqb (a b : fl) : bool := fle a b && fle b a.

(** One step of the exponentially weighted mean with [adjust=False],
    [ignore_na=False]: the state is the running mean and the weight of
    the history. *)
Definition ewm_step (alpha : fl) (st : fl * fl) (cur : fl) : fl * fl :=
  let '(weighted, old_wt) := st in
  if isna weighted then
    ((if isna cur then weighted else cur), old_wt)
  else
    let old_wt := (old_wt * (Fin 1 - alpha))%fl in
    if isna cur then (weighted, old_wt)
    else
      let weighted :=
        if fl_eqb weighted cur then weighted
        else ((old_wt * weighted + alpha * cur) / (old_wt + alpha))%fl in
      (weighted, Fin 1).

Fixpoint ewm_run (alpha : fl) (st : fl * fl) (l : list fl) : list fl :=
  match l with
  | [] => []
  | cur :: l' =>
      let st' := ewm_step alpha st cur in
      fst st' :: ewm_run alpha st' l'
  end.

(** [s.ewm(span=span, adjust=False).mean()], with
    [alpha = 2 / (span + 1)]. *)
Definition ewm_mean (span : Z) (l : list fl) : list fl :=
  let alpha := Fin (2 # Z.to_pos (span + 1)) in
  match l with
  | [] => []
  | x :: l' => x :: ewm_run alpha (x, Fin 1) l'
  end.

(* ===================================================================== *)
(** * Decisions, trade state and configuration (tradewin_config.py) *)
(* ===================================================================== *)

Inductive Side : Type := BUY | SELL.

Definition Side_eqb (a b : Side) : bool :=
  match a, b with
  | BUY, BUY | SELL, SELL => true
  | _, _ => false
  end.

(** [x == s] for an attribute that is [None] or a side. *)
Definition is_side (x : option Side) (s : Side) : bool :=
  match x with
  | Some y => Side_eqb y s
  | None => false
  end.

(** The reason of a decision.  A formatted string of the source is a
    constructor holding the values interpolated into it. *)
Inductive Reason : Type :=
| NoReason                                (* "" *)
| WeakCandle (close : fl)                 (* f"Weak candle {entry}" *)
| MissingEntryOrATR                       (* "Missing entry or ATR" *)
| MissingIndicators                       (* "Missing indicator value(s)" *)
| ATRTooLow (atr : fl)                    (* f"ATR too low {atr} < 5" *)
| RiskRewardTooLow (reward risk : fl)     (* f"Risk/reward too low {..} < {..}" *)
| NoVWAPSignal                            (* "No VWAP_REV signal conditions met" *)
| OutsideTradingWindow                    (* "Outside trading window" *)
| ATRBelow10 (atr : fl)                   (* f"ATR {round(atr, 2)} < 10 or missing" *)
| MissingORBLevels                        (* "Missing ORB levels" *)
| NoORBConditions                         (* "No ORB conditions met" *)
| ExceptionReason (e : exn)               (* f"Exception: {e}" *)
| VolumeTooLow (volume avg : fl)          (* f"Volume too low: {..} < 1.2x avg ({..})" *)
| WeakMomentum                            (* "Weak momentum across last 3 candles" *)
| WeakPostCooldownCandle                  (* "Weak post-cooldown candle" *)
| SameZoneReentry                         (* "Same-zone reentry" *)
| NoPullback.                             (* "No pullback for re-entry" *)

Record TradeDecision : Type := mkDecision {
  d_date : option cell;
  d_signal : option Side;
  d_entry : option fl;
  d_sl : option fl;
  d_target : option fl;
  d_valid : bool;
  d_strategy : option string;
  d_reason : Reason
}.

(** [TradeDecision(date=None, signal=None, entry=None, sl=None,
    target=None, valid=v, strategy=None, reason=r)]. *)
Definition rejection (v : bool) (r : Reason) : TradeDecision :=
  mkDecision None None None None None v None r.

(** [result.valid = False; result.reason = r]. *)
Definition invalidate (d : TradeDecision) (r : Reason) : TradeDecision :=
  mkDecision (d_date d) (d_signal d) (d_entry d) (d_sl d) (d_target d)
             false (d_strategy d) r.

(** The single mutable trade record.  An attribute holding [None] is
    [None] here. *)
Record TradeState : Type := mkState {
  stop_loss : option fl;
  trade_direction : option Side;
  last_sl_update_time : option Timestamp;
  last_exit_time : option Timestamp;
  last_exit_price : option fl;
  trade_id : option string;
  strategy : option string;
  open_trade : option bool;
  entry_time : option Timestamp;
  target_price : option fl;
  entry_price : option fl;
  position : option Side;
  date : option Timestamp;
  qty : Z;
  trade_type : option Side;
  checked_post_entry : bool
}.

(** [TradeState()]. *)
Definition TradeState_init : TradeState :=
  mkState None None None None None None None None None None None None None 0 None false.

(** [TradeState.reset]. *)
Definition reset (st : TradeState) : TradeState :=
  mkState (Some (Fin 0)) None None None None None None (Some false) None
          (Some (Fin 0)) (Some (Fin 0)) None None 0 None false.

(** The options of [TradewinConfig] read by the engine. *)
Record Config : Type := mkConfig {
  strategy_mode : string;
  strategy_name : string;
  entry_buffer : fl;
  orb_sl_factor : fl;
  orb_target_factor : fl;
  COOLDOWN_MINUTES : Z;
  TRADE_QTY : Z;
  PAPER_TRADING : bool;
  SYMBOL : string
}.

(* ===================================================================== *)
(** * Indicators (tradewin_strategy.py, IndicatorCalculator) *)
(* ===================================================================== *)

(** [df[c]] as a numeric series. *)
Definition numcol (df : DataFrame) (c : string) : result (list fl) :=
  col <- getcol df c ;; floats col.

Definition setnum (df : DataFrame) (c : string) (l : list fl) : DataFrame :=
  setcol df c (Num <$> l).

Definition RSI14_of (close : list fl) : list fl :=
  map (fun m => (Fin 100 - Fin 100 / (Fin 1 + m))%fl)
      (rolling_mean 14 (map (fun x => (x + Fin 1)%fl) (pct_change close))).

Definition ATR_of (high low : list fl) : list fl :=
  rolling_mean 14 (zip_with fsub high low).

Definition MACD_of (close : list fl) : list fl :=
  zip_with fsub (ewm_mean 12 close) (ewm_mean 26 close).

Definition VWAP_REV_of (high low close : list fl) : list fl :=
  zip_with (fun hl c => ((hl + c) / Fin 3)%fl) (zip_with fadd high low) close.

(** [IndicatorCalculator.add_technical_indicators]. *)
Definition add_technical_indicators (df : DataFrame) : result DataFrame :=
  open <- numcol df "open" ;;
  let df := setnum df "open_prev_1" (shift 1 open) in
  close <- numcol df "close" ;;
  let df := setnum df "close_prev_1" (shift 1 close) in
  open <- numcol df "open" ;;
  let df := setnum df "open_prev_2" (shift 2 open) in
  close <- numcol df "close" ;;
  let df := setnum df "close_prev_2" (shift 2 close) in
  close <- numcol df "close" ;;
  let df := setnum df "EMA5" (ewm_mean 5 close) in
  close <- numcol df "close" ;;
  let df := setnum df "EMA20" (ewm_mean 20 close) in
  close <- numcol df "close" ;;
  let df := setnum df "RSI14" (RSI14_of close) in
  high <- numcol df "high" ;;
  low <- numcol df "low" ;;
  let df := setnum df "ATR" (ATR_of high low) in
  close <- numcol df "close" ;;
  let df := setnum df "MACD" (MACD_of close) in
  high <- numcol df "high" ;;
  low <- numcol df "low" ;;
  close <- numcol df "close" ;;
  let df := setnum df "VWAP_REV" (VWAP_REV_of high low close) in
  close <- numcol df "close" ;;
  let df := setnum df "prev_close" (shift 1 close) in
  Ok df.

(* ===================================================================== *)
(** * Strategy levels (tradewin_strategy.py, StrategyApplier) *)
(* ===================================================================== *)

Definition ORB_COLS : list string :=
  ["orb_long_entry"; "orb_short_entry"; "orb_sl"; "orb_target"].

(** [if col not in df.columns: df[col] = float('nan')]. *)
Definition default_col (df : DataFrame) (c : string) : DataFrame :=
  match columns df !! c with
  | Some _ => df
  | None => setcol df c (replicate (nrows df) (Num NaN))
  end.

Definition with_default_cols (df : DataFrame) : DataFrame :=
  foldl default_col df ORB_COLS.

(** [(t >= ORB_WINDOW_START) & (t <= ORB_WINDOW_END)] on the time of day. *)
Definition in_orb_window (t : Timestamp) : bool :=
  (ORB_WINDOW_START <=? time_of t)%Z && (time_of t <=? ORB_WINDOW_END)%Z.

Definition day_mask (d : Z) (dates : list Timestamp) : list bool :=
  map (fun t => (date_of t =? d)%Z) dates.

Definition morning_mask (d : Z) (dates : list Timestamp) : list bool :=
  map (fun t => (date_of t =? d)%Z && in_orb_window t) dates.

(** [s[mask]]. *)
Fixpoint select {A} (mask : list bool) (l : list A) : list A :=
  match mask, l with
  | m :: mask', x :: l' => if m then x :: select mask' l' else select mask' l'
  | _, _ => []
  end.

Fixpoint insert_day (d : Z) (l : list Z) : list Z :=
  match l with
  | [] => [d]
  | x :: l' =>
      if (d <? x)%Z then d :: l
      else if (d =? x)%Z then l
      else x :: insert_day d l'
  end.

(** The keys of [df.groupby('date_only')], in the order of iteration:
    the distinct days, ascending. *)
Definition group_keys (dates : list Timestamp) : list Z :=
  foldr insert_day [] (map date_of dates).

(** [morning_range['high'].max() - morning_range['low'].min()]. *)
Definition morning_span (d : Z) (dates : list Timestamp) (high low : list fl) : fl :=
  (fl_max (select (morning_mask d dates) high)
   - fl_min (select (morning_mask d dates) low))%fl.

(** [StrategyApplier.choose_strategy] on the bars of day [d]. *)
Definition choose_strategy (d : Z) (dates : list Timestamp) (high low : list fl)
    (adaptive_mode : bool) (active_strategy : string) : string :=
  if negb adaptive_mode then active_strategy
  else
    let m := morning_mask d dates in
    let atr_morning := fl_mean (zip_with fsub (select m high) (select m low)) in
    if truthy atr_morning && fgt atr_morning (Fin 15) then "ORB" else "VWAP_REV".

(** [df.loc[mask, c] = values]. *)
Definition loc_set (df : DataFrame) (mask : list bool) (c : string)
    (values : list cell) : DataFrame :=
  let col := default (replicate (nrows df) (Num NaN)) (columns df !! c) in
  setcol df c (set_where mask values col).

Definition loc_set_scalar (df : DataFrame) (mask : list bool) (c : string)
    (v : fl) : DataFrame :=
  loc_set df mask c (replicate (nrows df) (Num v)).

(** The body of the per-day loop for the group of day [d].  The group is
    a view of the frame as it was when the loop started ([src]); [df] is
    the frame being written.  The strategy map is the caller's object:
    what was written to it stays written when a later statement raises. *)
Definition day_body (entry_buffer sl_factor target_factor : fl)
    (adaptive_mode : bool) (active_strategy : string)
    (src : DataFrame) (dates : list Timestamp) (d : Z)
    (df : DataFrame) (strategy_map : gmap Z string)
    : gmap Z string * result DataFrame :=
  match (high <- numcol src "high" ;; low <- numcol src "low" ;; Ok (high, low)) with
  | Raise e => (strategy_map, Raise e)
  | Ok (high, low) =>
      if flt (morning_span d dates high low) (Fin 25) then (strategy_map, Ok df)
      else
        let strategy := choose_strategy d dates high low adaptive_mode active_strategy in
        let strategy_map := <[d := strategy]> strategy_map in
        let mask := day_mask d dates in
        if String.eqb strategy "ORB" then
          let m := morning_mask d dates in
          let hi := fl_max (select m high) in
          let lo := fl_min (select m low) in
          let df := loc_set_scalar df mask "orb_long_entry" (hi + entry_buffer)%fl in
          let df := loc_set_scalar df mask "orb_short_entry" (lo - entry_buffer)%fl in
          (strategy_map,
           atr <- numcol df "ATR" ;;
           let orb_sl := map (fun a => np_maximum (Fin 20) (a * sl_factor)%fl)
                             (fillna (Fin 20) atr) in
           let df := loc_set df mask "orb_sl" (Num <$> orb_sl) in
           let df := loc_set df mask "orb_target"
                             (Num <$> map (fun s => (s * target_factor)%fl) orb_sl) in
           Ok df)
        else
          (strategy_map,
           Ok (foldl (fun df c => loc_set_scalar df mask c (Fin 0)) df ORB_COLS))
  end.

Fixpoint day_loop (body : Z -> DataFrame -> gmap Z string -> gmap Z string * result DataFrame)
    (days : list Z) (df : DataFrame) (strategy_map : gmap Z string)
    : gmap Z string * result DataFrame :=
  match days with
  | [] => (strategy_map, Ok df)
  | d :: days' =>
      match body d df strategy_map with
      | (strategy_map, Ok df) => day_loop body days' df strategy_map
      | (strategy_map, Raise e) => (strategy_map, Raise e)
      end
  end.

(** [df[['orb_long_entry', 'orb_short_entry', 'orb_sl', 'orb_target']] = 0]. *)
Definition zero_orb_cols (df : DataFrame) : DataFrame :=
  foldl (fun df c => setcol df c (replicate (nrows df) (Num (Fin 0)))) df ORB_COLS.

(** [StrategyApplier.assign_strategy_levels].  [adaptive_mode] is the
    truth value of the argument.  The result is the strategy map as the
    call leaves it and the returned frame (a modified copy of [df]). *)
Definition assign_strategy_levels (df : DataFrame)
    (entry_buffer sl_factor target_factor : fl)
    (adaptive_mode : bool) (active_strategy : string)
    (strategy_map : gmap Z string) : gmap Z string * result DataFrame :=
  let df := with_default_cols df in
  let looped :=
    if adaptive_mode || String.eqb active_strategy "ORB" then
      match (col <- getcol df "date" ;; datetimes col) with
      | Raise e => (strategy_map, Raise e)
      | Ok dates =>
          let df := setcol df "date_only" (Day <$> map date_of dates) in
          match day_loop (day_body entry_buffer sl_factor target_factor
                                   adaptive_mode active_strategy df dates)
                         (group_keys dates) df strategy_map with
          | (strategy_map, Ok df) => (strategy_map, Ok (dropcol df "date_only"))
          | failed => failed
          end
      end
    else (strategy_map, Ok df) in
  match looped with
  | (strategy_map, Ok df) =>
      (strategy_map,
       Ok (if String.eqb active_strategy "VWAP_REV" then zero_orb_cols df else df))
  | failed => failed
  end.

(* ===================================================================== *)
(** * Signal evaluators (tradewin_strategy.py, VWAPStrategy, ORBStrategy) *)
(* ===================================================================== *)

(** [pd.isna] on a cell read from a row. *)
Definition cell_isna (v : cell) : bool :=
  match v with
  | Num x => isna x
  | _ => false
  end.

(** [candle_range < 5 or body < 0.25 * candle_range]. *)
Definition weak_candle (body candle_range : fl) : bool :=
  flt candle_range (Fin 5) || flt body (Fin (25 # 100) * candle_range)%fl.

Record VWAPStrategy : Type := mkVWAP {
  dev : fl;
  sl_mult : fl;
  target_mult : fl;
  rr_threshold : fl
}.

(** [entry > threshold_above >= prev_close and entry > ema20]: operands
    are evaluated left to right and only as far as needed. *)
Definition vwap_long_cond (entry threshold_above : fl) (prev_close ema20 : cell)
    : result bool :=
  if fgt entry threshold_above then
    prev <- as_num prev_close ;;
    if fge threshold_above prev then
      ema <- as_num ema20 ;; Ok (fgt entry ema)
    else Ok false
  else Ok false.

(** [entry < threshold_below <= prev_close and entry < ema20]. *)
Definition vwap_short_cond (entry threshold_below : fl) (prev_close ema20 : cell)
    : result bool :=
  if flt entry threshold_below then
    prev <- as_num prev_close ;;
    if fle threshold_below prev then
      ema <- as_num ema20 ;; Ok (flt entry ema)
    else Ok false
  else Ok false.

(** The long branch of the reversion evaluator, once its condition holds. *)
Definition vwap_long (s : VWAPStrategy) (row : Row) (entry : fl) : result TradeDecision :=
  dt <- getcell row "date" ;;
  sl <- getnum row "orb_sl" ;;
  target <- getnum row "orb_target" ;;
  let ok := fge (target - entry) (rr_threshold s * (entry - sl))%fl in
  if flt (target - entry) (rr_threshold s * (entry - sl))%fl then
    Ok (rejection ok (RiskRewardTooLow (target - entry)
                                       (rr_threshold s * (entry - sl))%fl))
  else
    Ok (mkDecision (Some dt) (Some BUY) (Some entry) (Some sl) (Some target)
                   ok (Some "VWAP_REV") NoReason).

(** The short branch of the reversion evaluator. *)
Definition vwap_short (s : VWAPStrategy) (row : Row) (entry : fl) : result TradeDecision :=
  dt <- getcell row "date" ;;
  sl <- getnum row "orb_sl" ;;
  target <- getnum row "orb_target" ;;
  let ok := flt (target - entry) (rr_threshold s * (entry - sl))%fl in
  if flt (entry - target) (rr_threshold s * (sl - entry))%fl then
    Ok (rejection ok (RiskRewardTooLow (entry - target)
                                       (rr_threshold s * (sl - entry))%fl))
  else
    Ok (mkDecision (Some dt) (Some SELL) (Some entry) (Some sl) (Some target)
                   ok (Some "VWAP_REV") NoReason).

(** [VWAPStrategy.evaluate] up to the choice of a direction: the checks
    that reject the bar, then the band-cross and trend conditions.  The
    outcome is a rejection or the direction with the entry price. *)
Definition vwap_signal (s : VWAPStrategy) (row : Row)
    : result (TradeDecision + Side * fl) :=
  c_entry <- getcell row "close" ;;
  c_vwap <- getcell row "VWAP_REV" ;;
  c_atr <- getcell row "ATR" ;;
  c_ema20 <- getcell row "EMA20" ;;
  c_prev_close <- getcell row "prev_close" ;;
  close <- getnum row "close" ;;
  open <- getnum row "open" ;;
  let body := fabs (close - open) in
  high <- getnum row "high" ;;
  low <- getnum row "low" ;;
  let candle_range := (high - low)%fl in
  if weak_candle body candle_range then
    Ok (inl (rejection false (WeakCandle close)))
  else if cell_isna c_entry || cell_isna c_atr then
    Ok (inl (rejection false MissingEntryOrATR))
  else
    c_rsi <- getcell row "RSI14" ;;
    if existsb cell_isna [c_vwap; c_atr; c_rsi; c_ema20; c_prev_close] then
      Ok (inl (rejection false MissingIndicators))
    else
      atr <- as_num c_atr ;;
      let entry := close in
      if flt (atr / entry) (Fin (1 # 10000)) || flt atr (Fin 5) then
        Ok (inl (rejection false (ATRTooLow atr)))
      else
        vwap <- as_num c_vwap ;;
        let threshold_above := (vwap + dev s * entry)%fl in
        let threshold_below := (vwap - dev s * entry)%fl in
        long <- vwap_long_cond entry threshold_above c_prev_close c_ema20 ;;
        if long then Ok (inr (BUY, entry))
        else
          short <- vwap_short_cond entry threshold_below c_prev_close c_ema20 ;;
          if short then Ok (inr (SELL, entry))
          else Ok (inl (rejection false NoVWAPSignal)).

(** The body of [VWAPStrategy.evaluate], inside its [try]. *)
Definition VWAP_body (s : VWAPStrategy) (row : Row) : result TradeDecision :=
  outcome <- vwap_signal s row ;;
  match outcome with
  | inl rejected => Ok rejected
  | inr (BUY, entry) => vwap_long s row entry
  | inr (SELL, entry) => vwap_short s row entry
  end.

(** [except Exception as e]: the handler of both evaluators. *)
Definition on_exception (r : result TradeDecision) : TradeDecision :=
  match r with
  | Ok d => d
  | Raise e => rejection false (ExceptionReason e)
  end.

(** [VWAPStrategy.evaluate]. *)
Definition VWAP_evaluate (s : VWAPStrategy) (row : Row) : TradeDecision :=
  on_exception (VWAP_body s row).

(** The body of [ORBStrategy.evaluate], inside its [try]. *)
Definition ORB_body (row : Row) : result TradeDecision :=
  close <- getnum row "close" ;;
  open <- getnum row "open" ;;
  let body := fabs (close - open) in
  high <- getnum row "high" ;;
  low <- getnum row "low" ;;
  let candle_range := (high - low)%fl in
  c_date <- getcell row "date" ;;
  t <- as_ts "time" c_date ;;
  let current_time := time_of t in
  if negb ((dt_time 9 30 <=? current_time)%Z && (current_time <=? dt_time 15 25)%Z) then
    Ok (rejection false OutsideTradingWindow)
  else if weak_candle body candle_range then
    Ok (rejection false (WeakCandle close))
  else
    c_atr <- getcell row "ATR" ;;
    low_atr <- (if cell_isna c_atr then Ok true
                else atr <- as_num c_atr ;; Ok (flt atr (Fin 10))) ;;
    if low_atr then
      atr <- as_num c_atr ;;
      Ok (rejection false (ATRBelow10 (round2 atr)))
    else
      close_prev_1 <- getnum row "close_prev_1" ;;
      open_prev_1 <- getnum row "open_prev_1" ;;
      let bullish := fgt close_prev_1 open_prev_1 in
      let bearish := flt close_prev_1 open_prev_1 in
      c_long <- getcell row "orb_long_entry" ;;
      c_short <- getcell row "orb_short_entry" ;;
      if cell_isna c_long || cell_isna c_short then
        Ok (rejection false MissingORBLevels)
      else
        long_entry <- as_num c_long ;;
        if fge high long_entry && bullish then
          orb_sl <- getnum row "orb_sl" ;;
          orb_target <- getnum row "orb_target" ;;
          Ok (mkDecision (Some c_date) (Some BUY) (Some close)
                         (Some (close - orb_sl)%fl) (Some (close + orb_target)%fl)
                         true (Some "ORB") NoReason)
        else
          short_entry <- as_num c_short ;;
          if fle low short_entry && bearish then
            orb_sl <- getnum row "orb_sl" ;;
            orb_target <- getnum row "orb_target" ;;
            Ok (mkDecision (Some c_date) (Some SELL) (Some close)
                           (Some (close + orb_sl)%fl) (Some (close - orb_target)%fl)
                           true (Some "ORB") NoReason)
          else Ok (rejection false NoORBConditions).

(** [ORBStrategy.evaluate]. *)
Definition ORB_evaluate (row : Row) : TradeDecision :=
  on_exception (ORB_body row).

(* ===================================================================== *)
(** * Filter chain (tradewin_marketdata.py, MarketData) *)
(* ===================================================================== *)

(** The attributes of a [MarketData] object the decision reads.  The
    four reversion parameters are not assigned by [__init__]: they are
    [None] here unless some caller attached them to the object. *)
Record MarketData : Type := mkMD {
  config : Config;
  state : TradeState;
  sl_factor : fl;
  target_factor : fl;
  recent_df : option DataFrame;
  daily_strategy_map : gmap Z string;
  attr_vwap_dev : option fl;
  attr_sl_mult : option fl;
  attr_target_mult : option fl;
  attr_rr_threshold : option fl
}.

(** Reading an attribute that may not exist. *)
Definition getattr {A} (a : option A) (attr_name : string) : result A :=
  match a with
  | Some x => Ok x
  | None => Raise (AttributeError attr_name)
  end.

(** A value that must be a number, not [None]. *)
Definition need_num (o : option fl) : result fl :=
  match o with
  | Some x => Ok x
  | None => Raise (TypeError "unsupported operand type(s): NoneType")
  end.

(** Truth value of an attribute holding [None] or a float. *)
Definition truthy_opt (o : option fl) : bool :=
  match o with
  | Some x => truthy x
  | None => false
  end.

(** [VWAPStrategy(parent)]. *)
Definition VWAPStrategy_init (parent : MarketData) : result VWAPStrategy :=
  dev <- getattr (attr_vwap_dev parent) "vwap_dev" ;;
  sl_mult <- getattr (attr_sl_mult parent) "sl_mult" ;;
  target_mult <- getattr (attr_target_mult parent) "target_mult" ;;
  rr_threshold <- getattr (attr_rr_threshold parent) "rr_threshold" ;;
  Ok (mkVWAP dev sl_mult target_mult rr_threshold).

Definition cooldown_secs (c : Config) : fl := of_Z (COOLDOWN_MINUTES c * 60).

(** [MarketData.is_momentum_confirmed]. *)
Definition is_momentum_confirmed (df : DataFrame) (current_index : nat)
    (direction : option Side) : result bool :=
  if (current_index <? 3)%nat then Ok false
  else
    dir <- getattr direction "upper" ;;
    close <- numcol df "close" ;;
    open <- numcol df "open" ;;
    let prev_close := take 3 (drop (current_index - 3) close) in
    let prev_open := take 3 (drop (current_index - 3) open) in
    match dir with
    | SELL => Ok (forallb id (zip_with flt prev_close prev_open))
    | BUY => Ok (forallb id (zip_with fgt prev_close prev_open))
    end.

(** [MarketData.is_reentry_in_same_zone]. *)
Definition is_reentry_in_same_zone (c : Config) (price last_exit_price : option fl)
    (last_exit_time : option Timestamp) (atr current_time : cell) : result bool :=
  match last_exit_time with
  | Some last_exit_time =>
      if negb (truthy_opt last_exit_price) then Ok false
      else
        let last_exit_time := localize last_exit_time in
        current_time <- as_ts "tzinfo" current_time ;;
        let current_time := localize current_time in
        time_diff <- total_seconds_between current_time last_exit_time ;;
        price <- need_num price ;;
        last_exit_price <- need_num last_exit_price ;;
        let price_diff := fabs (price - last_exit_price) in
        atr <- as_num atr ;;
        Ok (flt price_diff (Fin (1 # 2) * atr)%fl
            && flt (of_Z time_diff) (cooldown_secs c))
  | None => Ok false
  end.

(** [MarketData.is_post_trade_candle_weak]. *)
Definition is_post_trade_candle_weak (c : Config) (row : Row)
    (trade_time : cell) (entry_time : Timestamp) : result bool :=
  trade_time <- as_ts "tzinfo" trade_time ;;
  let trade_time := localize trade_time in
  let entry_time := localize entry_time in
  age <- total_seconds_between trade_time entry_time ;;
  close <- getnum row "close" ;;
  open <- getnum row "open" ;;
  let body := fabs (close - open) in
  high <- getnum row "high" ;;
  low <- getnum row "low" ;;
  let candle_range := (high - low)%fl in
  Ok (flt (of_Z age) (cooldown_secs c) && weak_candle body candle_range).

(** [MarketData.has_price_moved_enough_after_pullback]. *)
Definition has_price_moved_enough_after_pullback (price last_exit_price : option fl)
    (direction : option Side) (atr : cell) : result bool :=
  if negb (truthy_opt last_exit_price) then Ok false
  else
    sell <- (if is_side direction SELL then
               price <- need_num price ;;
               last_exit_price <- need_num last_exit_price ;;
               atr <- as_num atr ;;
               Ok (flt price (last_exit_price - Fin (1 # 2) * atr)%fl)
             else Ok false) ;;
    if sell then Ok true
    else
      buy <- (if is_side direction BUY then
                price <- need_num price ;;
                last_exit_price <- need_num last_exit_price ;;
                atr <- as_num atr ;;
                Ok (fgt price (last_exit_price + Fin (1 # 2) * atr)%fl)
              else Ok false) ;;
      Ok buy.

(** [row_date.replace(tzinfo=...)] for a naive timestamp; any other value
    is left alone. *)
Definition localize_cell (v : cell) : cell :=
  match v with
  | TS t => TS (localize t)
  | _ => v
  end.

(** The guards of [decide_trade_from_row] that follow the volume guard. *)
Definition later_guards (md : MarketData) (row : Row) (decision : TradeDecision)
    (parent_df : DataFrame) (current_index : nat) (atr row_date : cell)
    : result TradeDecision :=
  let last_exit_time := last_exit_time (state md) in
  let last_exit_price := last_exit_price (state md) in
  momentum <- is_momentum_confirmed parent_df current_index (d_signal decision) ;;
  if negb momentum then Ok (invalidate decision WeakMomentum)
  else
    weak <- match last_exit_time with
            | Some t => is_post_trade_candle_weak (config md) row row_date t
            | None => Ok false
            end ;;
    if weak then Ok (invalidate decision WeakPostCooldownCandle)
    else
      let row_date := localize_cell row_date in
      same_zone <- is_reentry_in_same_zone (config md) (d_entry decision)
                     last_exit_price last_exit_time atr row_date ;;
      if same_zone then Ok (invalidate decision SameZoneReentry)
      else
        moved <- (if truthy_opt last_exit_price then
                    has_price_moved_enough_after_pullback
                      (d_entry decision) last_exit_price (d_signal decision) atr
                  else Ok true) ;;
        if negb moved then Ok (invalidate decision NoPullback)
        else Ok decision.

(** [pd.isna(avg_vol) or volume < 1.2 * avg_vol]. *)
Definition volume_too_low (volume avg_vol : fl) : bool :=
  isna avg_vol || flt volume (Fin (12 # 10) * avg_vol)%fl.

(** The guards of [decide_trade_from_row], applied to a decision the
    evaluator returned as valid. *)
Definition apply_filters (md : MarketData) (row : Row) (decision : TradeDecision)
    : result TradeDecision :=
  let index := name row in
  parent_df <- getattr (recent_df md) "index" ;;
  current_index <- get_loc parent_df index ;;
  current_row <- iloc parent_df current_index ;;
  c_volume <- getcell current_row "volume" ;;
  volumes <- numcol parent_df "volume" ;;
  let avg_vol := rolling_mean_at 14 volumes current_index in
  atr <- getcell row "ATR" ;;
  row_date <- getcell row "date" ;;
  volume <- as_num c_volume ;;
  if volume_too_low volume avg_vol then
    Ok (invalidate decision (VolumeTooLow volume avg_vol))
  else later_guards md row decision parent_df current_index atr row_date.

(** [MarketData.decide_trade_from_row]. *)
Definition decide_trade_from_row (md : MarketData) (row : Row) : result TradeDecision :=
  strategy <- (if String.eqb (strategy_mode (config md)) "adaptive" then
                 c_date <- getcell row "date" ;;
                 t <- as_ts "date" c_date ;;
                 Ok (default "VWAP_REV" (daily_strategy_map md !! date_of t))
               else Ok (strategy_name (config md))) ;;
  decision <- (if String.eqb strategy "VWAP_REV" then
               s <- VWAPStrategy_init md ;; Ok (VWAP_evaluate s row)
             else Ok (ORB_evaluate row)) ;;
  if negb (d_valid decision) then Ok decision
  else apply_filters md row decision.

(* ===================================================================== *)
(** * Trailing stop-loss (tradewin_sl_manager.py) *)
(* ===================================================================== *)

Module SLManager.

(** Update of single fields of the shared trade record. *)
Definition set_stop_loss (st : TradeState) (v : option fl) : TradeState :=
  mkState v (trade_direction st) (last_sl_update_time st) (last_exit_time st)
          (last_exit_price st) (trade_id st) (strategy st) (open_trade st)
          (entry_time st) (target_price st) (entry_price st) (position st)
          (date st) (qty st) (trade_type st) (checked_post_entry st).

Definition set_last_sl_update_time (st : TradeState) (v : option Timestamp)
    : TradeState :=
  mkState (stop_loss st) (trade_direction st) v (last_exit_time st)
          (last_exit_price st) (trade_id st) (strategy st) (open_trade st)
          (entry_time st) (target_price st) (entry_price st) (position st)
          (date st) (qty st) (trade_type st) (checked_post_entry st).

(** [SLManager._age_seconds].  [trade_date] is [None] when the argument
    is not a [datetime]. *)
Definition _age_seconds (st : TradeState) (trade_date : option Timestamp)
    : result Z :=
  match entry_time st, trade_date with
  | Some entry, Some now => total_seconds_between now entry
  | _, _ => Ok 0%Z
  end.

(** [TradeWinUtils()] is called without the configuration its
    constructor requires. *)
Definition TradeWinUtils_no_config : exn :=
  TypeError "__init__() missing 1 required positional argument: 'tradewin_config'".

(** [SLManager._maybe_update_sl]: the trade record it leaves and how the
    call ends.  An accepted update is written to the record before the
    call that prepares the persistence data raises. *)
Definition _maybe_update_sl (st : TradeState) (trade_date : option Timestamp)
    (new_sl : fl) : TradeState * result unit :=
  let new_sl := round2 new_sl in
  match need_num (stop_loss st) with
  | Raise e => (st, Raise e)
  | Ok current =>
      if flt (fabs (new_sl - current)) (Fin (1 # 100)) then (st, Ok tt)
      else if is_side (position st) BUY && fle new_sl current then (st, Ok tt)
      else if is_side (position st) SELL && fge new_sl current then (st, Ok tt)
      else
        let st := set_stop_loss st (Some new_sl) in
        let st := set_last_sl_update_time st trade_date in
        (st, Raise TradeWinUtils_no_config)
  end.

(** The distance of the fallback stop:
    [min(50, atr) if age > 1800 else atr]. *)
Definition fallback_distance (age : Z) (atr : fl) : fl :=
  if (1800 <? age)%Z then py_min (Fin 50) atr else atr.

(** [new_sl if new_sl > stop else (fallback_sl if fallback_sl > stop
    else None)], with [better] the comparison of the direction. *)
Definition pick_candidate (better : fl -> fl -> bool) (new_sl fallback_sl stop : fl)
    : option fl :=
  if better new_sl stop then Some new_sl
  else if better fallback_sl stop then Some fallback_sl
  else None.

(** [SLManager._handle_buy_sl]. *)
Definition _handle_buy_sl (st : TradeState) (trade_date : option Timestamp)
    (price atr : fl) : TradeState * result unit :=
  match (entry <- need_num (entry_price st) ;;
         age <- _age_seconds st trade_date ;;
         Ok (entry, age)) with
  | Raise e => (st, Raise e)
  | Ok (entry, age) =>
      let move := (price - entry)%fl in
      let fallback_sl := (price - fallback_distance age atr)%fl in
      let new_sl := (price - atr * Fin (6 # 10))%fl in
      if fge move atr then
        match need_num (stop_loss st) with
        | Raise e => (st, Raise e)
        | Ok stop =>
            match pick_candidate fgt new_sl fallback_sl stop with
            | Some candidate_sl =>
                if truthy candidate_sl
                then _maybe_update_sl st trade_date candidate_sl
                else (st, Ok tt)
            | None => (st, Ok tt)
            end
        end
      else (st, Ok tt)
  end.

(** [SLManager._handle_sell_sl]. *)
Definition _handle_sell_sl (st : TradeState) (trade_date : option Timestamp)
    (price atr : fl) : TradeState * result unit :=
  match (entry <- need_num (entry_price st) ;;
         age <- _age_seconds st trade_date ;;
         Ok (entry, age)) with
  | Raise e => (st, Raise e)
  | Ok (entry, age) =>
      let move := (entry - price)%fl in
      let fallback_sl := (price + fallback_distance age atr)%fl in
      let new_sl := (price + atr * Fin (6 # 10))%fl in
      if fge move atr then
        match need_num (stop_loss st) with
        | Raise e => (st, Raise e)
        | Ok stop =>
            match pick_candidate flt new_sl fallback_sl stop with
            | Some candidate_sl =>
                if truthy candidate_sl
                then _maybe_update_sl st trade_date candidate_sl
                else (st, Ok tt)
            | None => (st, Ok tt)
            end
        end
      else (st, Ok tt)
  end.

(** [SLManager.check_and_update_sl]. *)
Definition check_and_update_sl (st : TradeState) (trade_date : option Timestamp)
    (current_price atr : fl) : TradeState * result unit :=
  match _age_seconds st trade_date with
  | Raise e => (st, Raise e)
  | Ok age_seconds =>
      if (age_seconds <? 120)%Z then (st, Ok tt)
      else
        match need_num (target_price st) with
        | Raise e => (st, Raise e)
        | Ok target =>
            let near_target :=
              fle (fabs (current_price - target)) (Fin (25 # 100) * atr)%fl in
            if near_target then
              let new_sl := if is_side (position st) BUY
                            then (current_price - Fin 30)%fl
                            else (current_price + Fin 30)%fl in
              _maybe_update_sl st trade_date new_sl
            else if is_side (position st) BUY then
              _handle_buy_sl st trade_date current_price atr
            else if is_side (position st) SELL then
              _handle_sell_sl st trade_date current_price atr
            else (st, Ok tt)
        end
  end.

(** One monitoring tick: the time of the last bar, its close and the
    tracked ATR. *)
Record Tick : Type := mkTick {
  tick_time : option Timestamp;
  tick_price : fl;
  tick_atr : fl
}.

(** The trade record after a tick of the trailing stop-loss manager,
    whether or not the call returned normally. *)
Definition after_tick (st : TradeState) (t : Tick) : TradeState :=
  fst (check_and_update_sl st (tick_time t) (tick_price t) (tick_atr t)).

(** The trade records met along a sequence of ticks, the first one
    included. *)
Fixpoint trajectory (st : TradeState) (ticks : list Tick) : list TradeState :=
  match ticks with
  | [] => [st]
  | t :: ticks' => st :: trajectory (after_tick st t) ticks'
  end.

End SLManager.

(* ===================================================================== *)
(** * Trade executor (tradewin_trade_manager.py) *)
(* ===================================================================== *)

Module TradeExecutor.

(** What the executor sends to its collaborators. *)
Inductive Event : Type :=
| Warning (message : string)
| RecordTrade (id : option string) (type : option Side) (price sl : fl)
              (exited : bool) (strategy : option string)
| KiteOrder (side : Side) (quantity : Z) (trigger_price : fl).

Record t : Type := mk {
  config : Config;
  state : TradeState;
  atr : fl;
  atr_history : list fl;
  margins : fl;
  lots : Z;
  events : list Event
}.

Definition with_state (ex : t) (st : TradeState) : t :=
  mk (config ex) st (atr ex) (atr_history ex) (margins ex) (lots ex) (events ex).

Definition emit (ex : t) (e : Event) : t :=
  mk (config ex) (state ex) (atr ex) (atr_history ex) (margins ex) (lots ex)
     (events ex ++ [e]).

Fixpoint insert_sorted (x : fl) (l : list fl) : list fl :=
  match l with
  | [] => [x]
  | y :: l' => if flt x y then x :: l else y :: insert_sorted x l'
  end.

(** [sorted(l)], for a list without NaN. *)
Definition sorted (l : list fl) : list fl := foldr insert_sorted [] l.

(** [TradeExecutor._adjust_target_price]: the executor with the ATR
    appended to its history, and the target. *)
Definition _adjust_target_price (ex : t) (action : Side) : t * result fl :=
  let atr := if truthy (atr ex) then atr ex else Fin 20 in
  let history := atr_history ex ++ [atr] in
  let ex := mk (config ex) (state ex) (TradeExecutor.atr ex) history
               (margins ex) (lots ex) (events ex) in
  let median_atr := default atr (sorted history !! (length history / 2)%nat) in
  let multiplier := if flt atr median_atr then Fin (18 # 10) else Fin (25 # 10) in
  (ex,
   entry <- need_num (entry_price (state ex)) ;;
   Ok (match action with
       | BUY => (entry + multiplier * atr)%fl
       | SELL => (entry - multiplier * atr)%fl
       end)).

(** [TradeExecutor._update_trade_state]; [now] is the clock reading and
    [new_id] the identifier drawn by [generate_id]. *)
Definition _update_trade_state (ex : t) (now : Timestamp) (new_id : string)
    (trade_date : option Timestamp) (action : Side) (price stoploss : fl)
    (new_strategy : option string) (lots : Z) : t * result unit :=
  let st := state ex in
  let st := mkState (Some (round2 stoploss)) (trade_direction st) None
                    (last_exit_time st) (last_exit_price st) (Some new_id)
                    new_strategy (Some true) (Some now) (target_price st)
                    (Some (round2 price)) (Some action) (date st)
                    (qty st) (trade_type st) (checked_post_entry st) in
  match _adjust_target_price (with_state ex st) action with
  | (ex, Raise e) => (ex, Raise e)
  | (ex, Ok target) =>
      let st := state ex in
      let st := mkState (stop_loss st) (trade_direction st)
                        (last_sl_update_time st) (last_exit_time st)
                        (last_exit_price st) (trade_id st) (strategy st)
                        (open_trade st) (entry_time st) (Some target)
                        (entry_price st) (position st) trade_date
                        (TRADE_QTY (config ex) * lots) (Some action)
                        (checked_post_entry st) in
      (mk (config ex) st (atr ex) (atr_history ex) (margins ex) lots (events ex),
       Ok tt)
  end.

(** [db.record_trade(TradeWinUtils(config).prepare_trade_data(state,
    exited=False))]: a failure of the store is caught inside
    [record_trade]. *)
Definition record_entry (ex : t) : t * result unit :=
  let st := state ex in
  match (price <- need_num (entry_price st) ;;
         sl <- need_num (stop_loss st) ;;
         Ok (price, sl)) with
  | Raise e => (ex, Raise e)
  | Ok (price, sl) =>
      (emit ex (RecordTrade (trade_id st) (position st) (round2 price) (round2 sl)
                            false (strategy st)),
       Ok tt)
  end.

(** [TradeExecutor._place_kite_order]. *)
Definition _place_kite_order (ex : t) (action : Side) : t * result unit :=
  match need_num (stop_loss (state ex)) with
  | Raise e => (ex, Raise e)
  | Ok sl =>
      (emit ex (KiteOrder action (TRADE_QTY (config ex) * lots ex) (round1 sl)),
       Ok tt)
  end.

Definition set_open_trade (st : TradeState) (v : option bool) : TradeState :=
  mkState (stop_loss st) (trade_direction st) (last_sl_update_time st)
          (last_exit_time st) (last_exit_price st) (trade_id st)
          (strategy st) v (entry_time st) (target_price st)
          (entry_price st) (position st) (date st) (qty st)
          (trade_type st) (checked_post_entry st).

(** [TradeExecutor.place_order]. *)
Definition place_order (ex : t) (now : Timestamp) (new_id : string)
    (trade_date : option Timestamp) (action : Side) (price stoploss : fl)
    (new_strategy : option string) (lots : Z) : t * result unit :=
  let st := state ex in
  (* self.state.trade_direction = action; self.state.entry_price = price
     self.state.stop_loss = stoploss;     self.state.strategy = strategy *)
  let st := mkState (Some stoploss) (Some action) (last_sl_update_time st)
                    (last_exit_time st) (last_exit_price st) (trade_id st)
                    new_strategy (open_trade st) (entry_time st) (target_price st)
                    (Some price) (position st) (date st) (qty st)
                    (trade_type st) (checked_post_entry st) in
  let ex := with_state ex st in
  if default false (open_trade st) then
    (emit ex (Warning "Trade already open. Skipping."), Ok tt)
  else
    match _update_trade_state ex now new_id trade_date action price stoploss
                              new_strategy lots with
    | (ex, Raise e) => (ex, Raise e)
    | (ex, Ok _) =>
        match record_entry ex with
        | (ex, Raise e) => (ex, Raise e)
        | (ex, Ok _) =>
            match (if PAPER_TRADING (config ex) then (ex, Ok tt)
                   else _place_kite_order ex action) with
            | (ex, Raise e) => (ex, Raise e)
            | (ex, Ok _) => (with_state ex (set_open_trade (state ex) (Some true)), Ok tt)
            end
        end
    end.

(** [TradeExecutor._calculate_pnl], on exact numbers: the source works in
    binary floating point, so when the exact net value sits at half a
    cent (or within the rounding error of the doubles from it) the
    source may return the neighbouring cent. *)
Definition _calculate_pnl (ex : t) (exit_price : fl) : result fl :=
  let st := state ex in
  entry <- need_num (entry_price st) ;;
  let qty := of_Z (qty st) in
  let trade_type := trade_type st in
  let direction := trade_direction st in
  let gross_pnl := if is_side direction SELL
                   then ((entry - exit_price) * qty)%fl
                   else ((exit_price - entry) * qty)%fl in
  let turnover := ((entry + exit_price) * qty)%fl in
  let brokerage := (py_min (Fin 20) (Fin (3 # 10000) * turnover) * Fin 2)%fl in
  let stt := if is_side trade_type SELL
             then (Fin (25 # 100000) * exit_price * qty)%fl else Fin 0 in
  let gst := (Fin (18 # 100) * brokerage)%fl in
  let sebi := (Fin (1 # 1000000) * turnover)%fl in
  let stamp := if is_side trade_type BUY
               then (Fin (3 # 100000) * entry * qty)%fl else Fin 0 in
  let total_charges := (brokerage + stt + gst + sebi + stamp)%fl in
  let net_pnl := (gross_pnl - total_charges)%fl in
  Ok (round2 net_pnl).

End TradeExecutor.


(* ===================================================================== *)
(** * Concrete inputs *)
(* ===================================================================== *)

(** A timestamp in the exchange's time zone. *)
Definition ist (w : Z) : Timestamp := mkTS w (Some kolkata).

Definition example_config : Config :=
  mkConfig "adaptive" "ORB" (Fin 5) (Fin (15 # 10)) (Fin 4) 5 25 true "NIFTY".

Definition example_long_state : TradeState :=
  mkState (Some (Fin 21960)) (Some BUY) None None None (Some "t-1") (Some "ORB")
          (Some true) (Some (mkTS 0 (Some kolkata))) (Some (Fin 22100))
          (Some (Fin 22000)) (Some BUY) None 25 (Some BUY) false.

Definition example_executor : TradeExecutor.t :=
  TradeExecutor.mk example_config example_long_state (Fin 40) [] (Fin 250000) 1 [].


(** A second order arriving while [example_long_state] is open. *)
Definition order_while_open : TradeExecutor.t * result unit :=
  TradeExecutor.place_order example_executor (ist 600) "t-2" (Some (ist 600))
    SELL (Fin 22040) (Fin 22080) (Some "VWAP_REV") 1.

(** One bar of market data. *)
Record Bar : Type := mkBar {
  bar_time : Timestamp;
  bar_open : fl;
  bar_high : fl;
  bar_low : fl;
  bar_close : fl;
  bar_volume : fl
}.

(** The frame [get_data] builds from a list of bars; the index is the
    bar time. *)
Definition frame_of_bars (bars : list Bar) : DataFrame :=
  mkDF (map bar_time bars)
       (list_to_map
          [("date", TS <$> map bar_time bars);
           ("open", Num <$> map bar_open bars);
           ("high", Num <$> map bar_high bars);
           ("low", Num <$> map bar_low bars);
           ("close", Num <$> map bar_close bars);
           ("volume", Num <$> map bar_volume bars)]).

(** The [k]-th five-minute bar of a session that opens at 09:15 on day
    20000: a rising candle of the given range whose body leaves one
    unit at each end; each bar opens [step] above the previous one. *)
Definition trend_bar (range step : Q) (k : nat) (volume : Q) : Bar :=
  let base := (100 + step * inject_Z (Z.of_nat k))%Q in
  mkBar (ist (20000 * day_seconds + dt_time 9 15 + 300 * Z.of_nat k))
        (Fin base) (Fin (base + range - 1)) (Fin (base - 1))
        (Fin (base + range - 2)) (Fin volume).

Definition rising_bar : nat -> Q -> Bar := trend_bar 10 10.

(** Fifteen rising bars: a volume spike fourteen bars ago, then quiet
    volume, then 125 on the signal bar. *)
Definition spike_volumes : list Q :=
  10000%Q :: replicate 13 100%Q ++ [125%Q].

Definition spike_frame : DataFrame :=
  default (mkDF [] ∅)
    (match add_technical_indicators
             (frame_of_bars (imap rising_bar spike_volumes)) with
     | Ok df => Some df
     | Raise _ => None
     end).

Definition spike_row : Row :=
  default (mkRow (ist 0) ∅)
    (match iloc spike_frame 14 with Ok r => Some r | Raise _ => None end).

Definition market_data_of (df : DataFrame) (st : TradeState) : MarketData :=
  mkMD example_config st (Fin (15 # 10)) (Fin 4) (Some df) ∅
       None None None None.

(** A decision the breakout evaluator could have returned as valid. *)
Definition valid_long (entry : Q) : TradeDecision :=
  mkDecision (Some (TS (ist 0))) (Some BUY) (Some (Fin entry))
             (Some (Fin (entry - 20))) (Some (Fin (entry + 80))) true
             (Some "ORB") NoReason.

(** The trailing average in the words of the specification: the mean of
    the [w] bars strictly before position [i]. *)
Definition spec_trailing_average (w : nat) (l : list fl) (i : nat) : fl :=
  if (i <? w)%nat then NaN
  else (fl_sum (take w (drop (i - w) l)) / of_nat w)%fl.

(** A trade record with a previous exit at 100, a day before the
    session of [spike_frame]. *)
Definition state_after_exit : TradeState :=
  mkState (Some (Fin 0)) None None (Some (ist (19999 * day_seconds)))
          (Some (Fin 100)) None None (Some false) None (Some (Fin 0))
          (Some (Fin 0)) None None 0 None false.

(** A strong rising bar closing at 110 with an ATR of 20. *)
Definition reentry_row : Row :=
  mkRow (ist (20000 * day_seconds + dt_time 9 15 + 300 * 14))
        (list_to_map
           [("date", TS (ist (20000 * day_seconds + dt_time 9 15 + 300 * 14)));
            ("open", Num (Fin 102)); ("high", Num (Fin 111));
            ("low", Num (Fin 101)); ("close", Num (Fin 110));
            ("ATR", Num (Fin 20))]).

(** The risk/reward gate in the words of the specification: the reward
    is at least the threshold times the risk, mirrored for a short. *)
Definition rr_gate (side : Side) (threshold entry sl target : fl) : bool :=
  match side with
  | BUY => fge (target - entry) (threshold * (entry - sl))%fl
  | SELL => fge (entry - target) (threshold * (sl - entry))%fl
  end.

(** The two sides of the comparison, by direction. *)
Definition rr_reward (side : Side) (entry target : fl) : fl :=
  match side with
  | BUY => (target - entry)%fl
  | SELL => (entry - target)%fl
  end.

Definition rr_risk (side : Side) (threshold entry sl : fl) : fl :=
  match side with
  | BUY => (threshold * (entry - sl))%fl
  | SELL => (threshold * (sl - entry))%fl
  end.

Definition example_vwap : VWAPStrategy :=
  mkVWAP (Fin (1 # 100)) (Fin (8 # 10)) (Fin 4) (Fin (12 # 10)).

(** A bar that crosses the upper band above its long EMA, on a day for
    which no levels were assigned: stop and target hold the NaN default. *)
Definition nan_levels_row : Row :=
  mkRow (ist (20000 * day_seconds + dt_time 10 0))
        (list_to_map
           [("date", TS (ist (20000 * day_seconds + dt_time 10 0)));
            ("open", Num (Fin 110)); ("high", Num (Fin 121));
            ("low", Num (Fin 109)); ("close", Num (Fin 120));
            ("VWAP_REV", Num (Fin 115)); ("ATR", Num (Fin 10));
            ("EMA20", Num (Fin 112)); ("prev_close", Num (Fin 114));
            ("RSI14", Num (Fin 50));
            ("orb_sl", Num NaN); ("orb_target", Num NaN)]).

(** The same bar with numeric levels: stop 110 and target 150. *)
Definition numeric_levels_row : Row :=
  mkRow (name nan_levels_row)
        (<["orb_sl" := Num (Fin 110)]>
           (<["orb_target" := Num (Fin 150)]> (cells nan_levels_row))).

(** The same bar with a stop of 110 and a target of 125: a reward of 5
    against a risk of 10. *)
Definition low_reward_row : Row :=
  mkRow (name nan_levels_row)
        (<["orb_sl" := Num (Fin 110)]>
           (<["orb_target" := Num (Fin 125)]> (cells nan_levels_row))).

(** A row without any column. *)
Definition empty_row : Row := mkRow (ist 0) ∅.

(** A row whose cells have the types of the columns of a prepared
    frame: [date] holds a timestamp and every other column a float. *)
Definition typed_row (row : Row) : Prop :=
  forall c v, cells row !! c = Some v ->
    match v with
    | TS _ => c = "date"
    | Num _ => c <> "date"
    | Day _ => False
    end.

(** A stop that is strictly more favourable than another: higher for a
    long position, lower for a short one. *)
Definition strictly_better (side : Side) (new old : fl) : bool :=
  match side with
  | BUY => fgt new old
  | SELL => flt new old
  end.

(** A stop that has not regressed. *)
Definition no_worse (side : Side) (old new : fl) : Prop :=
  match side with
  | BUY => fle old new = true
  | SELL => fle new old = true
  end.

(** Ticks of a long trade entered at 22000: one inside the first two
    minutes, then a rise, a dip and a further rise. *)
Definition example_ticks : list SLManager.Tick :=
  [SLManager.mkTick (Some (ist 60)) (Fin 22010) (Fin 40);
   SLManager.mkTick (Some (ist 300)) (Fin 22060) (Fin 40);
   SLManager.mkTick (Some (ist 600)) (Fin 22045) (Fin 40);
   SLManager.mkTick (Some (ist 900)) (Fin 22090) (Fin 40)].

(** What [assign_strategy_levels] needs to run its per-day loop: a
    [date] column of timestamps and numeric [high], [low] and [ATR]
    columns. *)
Definition frame_ready (df : DataFrame) (dates : list Timestamp)
    (high low : list fl) : Prop :=
  columns df !! "date" = Some (TS <$> dates) /\
  numcol df "high" = Ok high /\
  numcol df "low" = Ok low /\
  (exists atr, numcol df "ATR" = Ok atr).

(** The cell of column [c] at position [i]. *)
Definition cell_at (df : DataFrame) (c : string) (i : nat) : option cell :=
  columns df !! c ≫= (fun col : list cell => col !! i).

(** [df'] has the rows of [df] and, outside the four level columns,
    its columns; the level columns exist in [df']. *)
Definition levels_only (df df' : DataFrame) : Prop :=
  index df' = index df /\
  (forall c, c ∉ ORB_COLS -> columns df' !! c = columns df !! c) /\
  (forall c, c ∈ ORB_COLS -> is_Some (columns df' !! c)).

(** [df'] is [df] with some cells of the level columns rewritten, none
    of them at a position outside [mask]. *)
Definition keeps (mask : list bool) (df df' : DataFrame) : Prop :=
  levels_only df df' /\
  (forall c i, mask !! i <> Some true -> cell_at df' c i = cell_at df c i).

(** A frame of bars with its indicators. *)
Definition prepared (bars : list Bar) : DataFrame :=
  default (mkDF [] ∅)
    (match add_technical_indicators (frame_of_bars bars) with
     | Ok df => Some df
     | Raise _ => None
     end).

(** A quiet session: fifteen bars of range 3 around 100, so the opening
    range spans 3 units. *)
Definition quiet_frame : DataFrame :=
  prepared (imap (trend_bar 3 0) (replicate 15 100%Q)).


(** A lively session: fifteen bars of range 20, each opening 10 higher,
    so the opening range spans 50 units and its bars average 20. *)
Definition lively_frame : DataFrame :=
  prepared (imap (trend_bar 20 10) (replicate 15 100%Q)).

Definition assigned (df : DataFrame) (adaptive_mode : bool)
    (active_strategy : string) : gmap Z string * result DataFrame :=
  assign_strategy_levels df (Fin 5) (Fin (15 # 10)) (Fin 4)
                         adaptive_mode active_strategy ∅.

(** The columns [add_technical_indicators] writes. *)
Definition DERIVED_COLS : list string :=
  ["open_prev_1"; "close_prev_1"; "open_prev_2"; "close_prev_2"; "EMA5";
   "EMA20"; "RSI14"; "ATR"; "MACD"; "VWAP_REV"; "prev_close"].

(** The frame with every derived column computed from the four price
    series. *)
Definition indicator_frame (df : DataFrame) (open high low close : list fl)
    : DataFrame :=
  let df := setnum df "open_prev_1" (shift 1 open) in
  let df := setnum df "close_prev_1" (shift 1 close) in
  let df := setnum df "open_prev_2" (shift 2 open) in
  let df := setnum df "close_prev_2" (shift 2 close) in
  let df := setnum df "EMA5" (ewm_mean 5 close) in
  let df := setnum df "EMA20" (ewm_mean 20 close) in
  let df := setnum df "RSI14" (RSI14_of close) in
  let df := setnum df "ATR" (ATR_of high low) in
  let df := setnum df "MACD" (MACD_of close) in
  let df := setnum df "VWAP_REV" (VWAP_REV_of high low close) in
  setnum df "prev_close" (shift 1 close).

(** The bars of [spike_frame] before the indicators are added. *)
Definition spike_bars_frame : DataFrame :=
  frame_of_bars (imap rising_bar spike_volumes).


(* ===================================================================== *)
(** * Leaving a trade and cooling down (tradewin_trade_manager.py) *)
(* ===================================================================== *)

Module Exit.

(** [datetime.now(tz=tz)], or [datetime.now()] for [tz = None]: [utc] is
    the reading of the clock in seconds since the epoch and
    [local_offset] the UTC offset of the machine's own time zone. *)
Definition clock_now (utc local_offset : Z) (tz : option Z) : Timestamp :=
  match tz with
  | Some off => mkTS (utc + off) (Some off)
  | None => mkTS (utc + local_offset) None
  end.

(** [TradeExecutor._update_exit_state]. *)
Definition _update_exit_state (st : TradeState) (now : Timestamp) (price : fl)
    : TradeState :=
  let st := reset st in
  mkState (stop_loss st) (trade_direction st) (last_sl_update_time st)
          (Some now) (Some price) (trade_id st) (strategy st) (open_trade st)
          (entry_time st) (target_price st) (entry_price st) (position st)
          (date st) (qty st) (trade_type st) (checked_post_entry st).

(** [db.record_trade(TradeWinUtils(config).prepare_trade_data(state,
    exit_price=price, pnl=pnl, exited=True))]: the payload rounds the
    entry price and the stop of the record, which must be numbers. *)
Definition record_exit (ex : TradeExecutor.t) : TradeExecutor.t * result unit :=
  let st := TradeExecutor.state ex in
  match (price <- need_num (entry_price st) ;;
         sl <- need_num (stop_loss st) ;;
         Ok (price, sl)) with
  | Raise e => (ex, Raise e)
  | Ok (price, sl) =>
      (TradeExecutor.emit ex
         (TradeExecutor.RecordTrade (trade_id st) (position st) (round2 price)
                                    (round2 sl) true (strategy st)),
       Ok tt)
  end.

Definition add_margin (ex : TradeExecutor.t) (pnl : fl) : TradeExecutor.t :=
  TradeExecutor.mk (TradeExecutor.config ex) (TradeExecutor.state ex)
                   (TradeExecutor.atr ex) (TradeExecutor.atr_history ex)
                   (TradeExecutor.margins ex + pnl)%fl (TradeExecutor.lots ex)
                   (TradeExecutor.events ex).

(** [TradeExecutor.exit_trade]; [now] is the reading of the clock that
    ends up in [last_exit_time]. *)
Definition exit_trade (ex : TradeExecutor.t) (now : Timestamp) (price : fl)
    : TradeExecutor.t * result unit :=
  if negb (default false (open_trade (TradeExecutor.state ex))) then
    (TradeExecutor.emit ex (TradeExecutor.Warning "No open trade to exit."), Ok tt)
  else
    match TradeExecutor._calculate_pnl ex price with
    | Raise e => (ex, Raise e)
    | Ok pnl =>
        let ex := add_margin ex pnl in
        match record_exit ex with
        | (ex, Raise e) => (ex, Raise e)
        | (ex, Ok _) =>
            let st := _update_exit_state (TradeExecutor.state ex) now price in
            (* open_trade = False; last_exit_time = now; entry_price = None;
               stop_loss = None; trade_direction = None; strategy = None *)
            let st := mkState None None (last_sl_update_time st) (Some now)
                              (last_exit_price st) (trade_id st) None (Some false)
                              (entry_time st) (target_price st) None (position st)
                              (date st) (qty st) (trade_type st)
                              (checked_post_entry st) in
            (TradeExecutor.with_state ex st, Ok tt)
        end
    end.

(** [TradeExecutor.in_cooldown]: the clock is read in the zone of the
    last exit time, so the two timestamps are always comparable. *)
Definition in_cooldown (ex : TradeExecutor.t) (utc local_offset : Z) : bool :=
  match last_exit_time (TradeExecutor.state ex) with
  | None => false
  | Some last =>
      let now := clock_now utc local_offset (tzoff last) in
      match total_seconds_between now last with
      | Ok elapsed =>
          (elapsed <? COOLDOWN_MINUTES (TradeExecutor.config ex) * 60)%Z
      | Raise _ => false
      end
  end.

(** The position multiplier of the polling loop,
    [max(1, int(margins // 250000)) * (TRADE_QTY // TRADE_QTY)]:
    [None] stands for the [ZeroDivisionError] of a zero [TRADE_QTY]. *)
Definition lot_multiplier (margins : Q) (trade_qty : Z) : option Z :=
  let by_margin := Z.max 1 (Qfloor (margins / 250000)) in
  if (trade_qty =? 0)%Z then None
  else Some (by_margin * (trade_qty / trade_qty))%Z.

(** The message of the [ValueError] that numpy raises when an array of
    more than one element is used as a condition. *)
Definition ambiguous_truth_value : string :=
  "The truth value of an array with more than one element is ambiguous. Use a.any() or a.all()".

(** [TradeExecutor.post_entry_health_check]: the verdict is the pair of
    the source, ["invalid"] or ["valid"] with the outcome.  A label that
    occurs once is located by [get_loc] as a position.  One that occurs
    several times is located as a slice when the index is sorted, and
    the check answers ["invalid"]; in an index that is not sorted it is
    located as a boolean mask, and the test [entry_idx + lookahead >=
    len(df)] on that array raises [ValueError]. *)
Definition post_entry_health_check (df : DataFrame) (entry_time : Timestamp)
    (lookahead : nat) (threshold_pct : fl) : result (string * bool) :=
  match find_index entry_time (index df) with
  | None => Ok ("invalid", false)
  | Some entry_idx =>
      if (1 <? length (filter (fun t => ts_eqb entry_time t = true) (index df)))%nat
      then
        if is_monotonic_increasing (index df) then Ok ("invalid", false)
        else Raise (ValueError ambiguous_truth_value)
      else if (length (index df) <=? entry_idx + lookahead)%nat
      then Ok ("invalid", false)
      else
        row <- iloc df entry_idx ;;
        c <- getnum row "close" ;;
        o <- getnum row "open" ;;
        let entry_price := c in
        close <- numcol df "close" ;;
        let future := take lookahead (drop (entry_idx + 1) close) in
        let max_move := if fgt c o then fl_max future else fl_min future in
        let move_pct := (fabs ((max_move - entry_price) / entry_price) * Fin 100)%fl in
        Ok ("valid", fge move_pct threshold_pct)
  end.

End Exit.

(* ===================================================================== *)
(** * Retrying a fetch (tradewin_marketdata.py) *)
(* ===================================================================== *)

Module Retry.

(** The loop of [MarketData.retry_with_backoff] from attempt number
    [attempt] on, with [remaining] attempts left.  [func k] is what the
    [k]-th call of the retried function does.  The result is the value
    returned ([None] when every attempt failed) and the sleeps made, in
    seconds. *)
Fixpoint retry_from {A} (func : nat -> result A) (backoff : Z)
    (attempt remaining : nat) : option A * list Z :=
  match remaining with
  | O => (None, [])
  | S remaining' =>
      match func attempt with
      | Ok a => (Some a, [])
      | Raise _ =>
          let rest := retry_from func backoff (S attempt) remaining' in
          (fst rest, (backoff ^ Z.of_nat attempt)%Z :: snd rest)
      end
  end.

(** [MarketData.retry_with_backoff]. *)
Definition retry_with_backoff {A} (retries : nat) (backoff : Z)
    (func : nat -> result A) : option A * list Z :=
  retry_from func backoff 0 retries.

End Retry.

(** A stop placed at a distance from the price, on the losing side of
    the position: below for a long, above for a short. *)
Definition stop_at (side : Side) (price distance : fl) : fl :=
  match side with
  | BUY => (price - distance)%fl
  | SELL => (price + distance)%fl
  end.

(** An executor in paper-trading mode with no trade yet and an ATR of
    40. *)
Definition flat_executor : TradeExecutor.t :=
  TradeExecutor.mk example_config TradeState_init (Fin 40) [] (Fin 250000) 1 [].

(** The record of a trade opened by an accepted order. *)
Definition opened_state (old : TradeState) (now : Timestamp) (new_id : string)
    (trade_date : option Timestamp) (action : Side) (price stoploss target : fl)
    (new_strategy : option string) (quantity : Z) : TradeState :=
  mkState (Some (round2 stoploss)) (Some action) None (last_exit_time old)
          (last_exit_price old) (Some new_id) new_strategy (Some true) (Some now)
          (Some target) (Some (round2 price)) (Some action) trade_date quantity
          (Some action) (checked_post_entry old).

(** The record left by a completed exit. *)
Definition exited_state (now : Timestamp) (price : fl) : TradeState :=
  mkState None None None (Some now) (Some price) None None (Some false) None
          (Some (Fin 0)) None None None 0 None false.

(** The ATR a new trade is sized with: [self.atr or 20]. *)
Definition sizing_atr (ex : TradeExecutor.t) : fl :=
  if truthy (TradeExecutor.atr ex) then TradeExecutor.atr ex else Fin 20.

(** A falling session: fifteen rising candles, each opening 10 lower
    than the one before. *)
Definition falling_frame : DataFrame :=
  prepared (imap (trend_bar 10 (-10)) (replicate 15 100%Q)).

(** The gross profit of [_calculate_pnl], before costs. *)
Definition gross_pnl (direction : option Side) (entry exit : Q) (quantity : Z) : Q :=
  if is_side direction SELL
  then ((entry - exit) * inject_Z quantity)%Q
  else ((exit - entry) * inject_Z quantity)%Q.

(** The frame of the lively session with the levels of breakout mode,
    and two of its rows: the bar of 10:20, on which the breakout
    evaluator proposes a long trade, and the bar of 09:40 of the quiet
    session, a candle of range 3. *)
Definition lively_levels : DataFrame :=
  default (mkDF [] ∅)
    (match snd (assigned lively_frame false "ORB") with
     | Ok df => Some df
     | Raise _ => None
     end).

Definition row_of (df : DataFrame) (i : nat) : Row :=
  default (mkRow (ist 0) ∅)
    (match iloc df i with Ok r => Some r | Raise _ => None end).

Definition breakout_row : Row := row_of lively_levels 13.

Definition quiet_row : Row := row_of quiet_frame 5.

(** A bar that falls through the lower band below its long EMA, with
    zeroed levels. *)
Definition short_zero_row : Row :=
  mkRow (ist (20000 * day_seconds + dt_time 10 0))
        (list_to_map
           [("date", TS (ist (20000 * day_seconds + dt_time 10 0)));
            ("open", Num (Fin 120)); ("high", Num (Fin 121));
            ("low", Num (Fin 109)); ("close", Num (Fin 110));
            ("VWAP_REV", Num (Fin 115)); ("ATR", Num (Fin 10));
            ("EMA20", Num (Fin 118)); ("prev_close", Num (Fin 116));
            ("RSI14", Num (Fin 50));
            ("orb_sl", Num (Fin 0)); ("orb_target", Num (Fin 0))]).

(** The reasons the filter chain can give. *)
Definition filter_reason (r : Reason) : Prop :=
  match r with
  | VolumeTooLow _ _ | WeakMomentum | WeakPostCooldownCandle
  | SameZoneReentry | NoPullback => True
  | _ => False
  end.

(** A [MarketData] object as its constructor leaves it: the four
    reversion parameters are not attributes of the object. *)
Definition MarketData_init (c : Config) (st : TradeState) : MarketData :=
  mkMD c st (orb_sl_factor c) (orb_target_factor c) None ∅ None None None None.

(** A bar counted as moving in the direction of the signal. *)
Definition with_signal (side : Side) (close open : fl) : bool :=
  match side with
  | BUY => fgt close open
  | SELL => flt close open
  end.

(** The frame has [n] rows and each of its level columns has [n] cells. *)
Definition levels_present (n : nat) (df : DataFrame) : Prop :=
  nrows df = n /\
  forall c, c ∈ ORB_COLS -> exists col, columns df !! c = Some col /\ length col = n.

(** The frame has [n] rows and its level columns, where it has them,
    [n] cells. *)
Definition levels_fit (n : nat) (df : DataFrame) : Prop :=
  nrows df = n /\
  forall c col, c ∈ ORB_COLS -> columns df !! c = Some col -> length col = n.

(** The levels of bar [i] are those of a breakout day with opening
    range [lo, hi] and ATR [a] on the bar. *)
Definition has_breakout_levels (df : DataFrame) (i : nat)
    (hi lo a entry_buffer sl_factor target_factor : fl) : Prop :=
  let stop := np_maximum (Fin 20) ((if isna a then Fin 20 else a) * sl_factor)%fl in
  cell_at df "orb_long_entry" i = Some (Num (hi + entry_buffer)%fl) /\
  cell_at df "orb_short_entry" i = Some (Num (lo - entry_buffer)%fl) /\
  cell_at df "orb_sl" i = Some (Num stop) /\
  cell_at df "orb_target" i = Some (Num (stop * target_factor)%fl).

Definition has_zero_levels (df : DataFrame) (i : nat) : Prop :=
  forall c, c ∈ ORB_COLS -> cell_at df c i = Some (Num (Fin 0)).

(** The frame the per-day loop of [assign_strategy_levels] starts from. *)
Definition loop_frame (df : DataFrame) (dates : list Timestamp) : DataFrame :=
  setcol (with_default_cols df) "date_only" (Day <$> map date_of dates).

(** A numeric column of a frame, and the timestamps of its [date]
    column, as lists ([[]] when the column is missing or of another
    type). *)
Definition series (df : DataFrame) (c : string) : list fl :=
  match numcol df c with Ok l => l | Raise _ => [] end.

Definition bar_dates (df : DataFrame) : list Timestamp :=
  match (col <- getcol df "date" ;; datetimes col) with
  | Ok l => l
  | Raise _ => []
  end.

(* ===================================================================== *)
(** * Watching an open trade (tradewin_trade_manager.py, monitor_trade) *)
(* ===================================================================== *)

Module Monitor.
Import TradeExecutor Exit.

(** How one iteration of the loop of [monitor_trade] ends. *)
Inductive Outcome : Type :=
| Continue             (* [time.sleep(interval)], then the next iteration *)
| Break                (* [break]: the loop is left *)
| Return (e : exn).    (* [except Exception]: logged, [monitor_trade] returns *)

(** [TradeExecutor.check_trailing_sl]. *)
Definition check_trailing_sl (ex : t) (trade_date : option Timestamp)
    (current_price : fl) : t * result unit :=
  if negb (default false (open_trade (state ex))) then (ex, Ok tt)
  else
    let r := SLManager.check_and_update_sl (state ex) trade_date current_price
                                           (atr ex) in
    (with_state ex (fst r), snd r).

Definition set_checked_post_entry (st : TradeState) (v : bool) : TradeState :=
  mkState (stop_loss st) (trade_direction st) (last_sl_update_time st)
          (last_exit_time st) (last_exit_price st) (trade_id st) (strategy st)
          (open_trade st) (entry_time st) (target_price st) (entry_price st)
          (position st) (date st) (qty st) (trade_type st) v.

(** The body of the two stop-hit branches: the P&L is booked, the exit
    recorded and the trade record reset. *)
Definition stop_hit_exit (ex : t) (now : Timestamp) (current_price : fl)
    : t * Outcome :=
  match _calculate_pnl ex current_price with
  | Raise e => (ex, Return e)
  | Ok pnl =>
      let ex := add_margin ex pnl in
      match record_exit ex with
      | (ex, Raise e) => (ex, Return e)
      | (ex, Ok _) =>
          (with_state ex (_update_exit_state (state ex) now current_price), Break)
      end
  end.

(** [self.exit_trade(price=self.state.entry_price, ...)] followed by
    [break]. *)
Definition early_exit (ex : t) (now : Timestamp) : t * Outcome :=
  match entry_price (state ex) with
  | Some price =>
      match exit_trade ex now price with
      | (ex, Raise e) => (ex, Return e)
      | (ex, Ok _) => (ex, Break)
      end
  | None =>
      (* [price] is [None]: fine for the warning, a [TypeError] in the
         arithmetic of [_calculate_pnl] *)
      if negb (default false (open_trade (state ex))) then
        (emit ex (Warning "No open trade to exit."), Break)
      else (ex, Return (TypeError "unsupported operand type(s): NoneType"))
  end.

(** One iteration of the loop of [monitor_trade], from the call of
    [check_trailing_sl] to its end.  The first half of the iteration has
    fetched and prepared the frame and read from its last bar
    [trade_date] (the index label) and [current_price] (the close);
    [now] is the reading of the clock at an exit and [refetched] what
    [prepare_func(get_data_func())] gives in the third branch. *)
Definition monitor_step (ex : t) (trade_date : option Timestamp)
    (current_price : fl) (now : Timestamp) (refetched : result (option DataFrame))
    : t * Outcome :=
  match check_trailing_sl ex trade_date current_price with
  | (ex, Raise e) => (ex, Return e)
  | (ex, Ok _) =>
      let st := state ex in
      match (if is_side (trade_direction st) SELL
             then sl <- need_num (stop_loss st) ;; Ok (fgt current_price sl)
             else Ok false) with
      | Raise e => (ex, Return e)
      | Ok true => stop_hit_exit ex now current_price
      | Ok false =>
          match (if is_side (trade_direction st) BUY
                 then sl <- need_num (stop_loss st) ;; Ok (flt current_price sl)
                 else Ok false) with
          | Raise e => (ex, Return e)
          | Ok true => stop_hit_exit ex now current_price
          | Ok false =>
              match entry_time st with
              | None => (ex, Continue)
              | Some entry =>
                  if checked_post_entry st then (ex, Continue)
                  else
                    match refetched with
                    | Raise e => (ex, Return e)
                    | Ok None => (ex, Continue)
                    | Ok (Some df) =>
                        if (5 <? nrows df)%nat then
                          match post_entry_health_check df entry 3
                                                        (Fin (15 # 100)) with
                          | Raise e => (ex, Return e)
                          | Ok (valid, passed) =>
                              let ex :=
                                with_state ex
                                  (set_checked_post_entry (state ex) true) in
                              if String.eqb valid "valid" && negb passed
                              then early_exit ex now
                              else (ex, Continue)
                          end
                        else (ex, Continue)
                    end
              end
          end
      end
  end.

End Monitor.

(** A tick ten minutes into the example long trade, fifty points in
    profit, and a tick below its stop one minute in. *)
Definition profit_tick_time : option Timestamp := Some (mkTS 600 (Some kolkata)).

Definition early_tick_time : option Timestamp := Some (mkTS 60 (Some kolkata)).

(** A long trade entered on the 09:40 bar of the quiet session at its
    close of 101, watched at the 10:05 bar. *)
Definition stalled_entry_time : Timestamp :=
  ist (20000 * day_seconds + dt_time 9 15 + 300 * 5).

Definition stalled_executor : TradeExecutor.t :=
  TradeExecutor.mk example_config
    (mkState (Some (Fin 90)) (Some BUY) None None None (Some "t-2") (Some "ORB")
             (Some true) (Some stalled_entry_time) (Some (Fin 181))
             (Some (Fin 101)) (Some BUY) None 25 (Some BUY) false)
    (Fin 3) [] (Fin 250000) 1 [].

Definition stalled_watch_time : option Timestamp :=
  Some (ist (20000 * day_seconds + dt_time 9 15 + 300 * 10)).

(** An index that is not sorted and holds the label of 09:20 twice. *)
Definition shuffled_frame : DataFrame :=
  mkDF [ist (20000 * day_seconds + dt_time 9 20);
        ist (20000 * day_seconds + dt_time 9 15);
        ist (20000 * day_seconds + dt_time 9 20);
        ist (20000 * day_seconds + dt_time 9 25)] ∅.


(* ===================================================================== *)
(** * Facts about floats *)
(* ===================================================================== *)

Lemma Qlt_bool_true (x y : Q) : Qlt_bool x y = true <-> (x < y)%Q.
Proof.
  unfold Qlt_bool. rewrite Bool.negb_true_iff. split.
  - intros H. apply Qnot_le_lt. intros Hle.
    apply Qle_bool_iff in Hle. congruence.
  - intros H. destruct (Qle_bool y x) eqn:E; [|reflexivity].
    apply Qle_bool_iff in E. lra.
Qed.

Lemma Qlt_bool_false (x y : Q) : Qlt_bool x y = false <-> (y <= x)%Q.
Proof.
  unfold Qlt_bool. rewrite Bool.negb_false_iff. apply Qle_bool_iff.
Qed.

Lemma Qle_bool_false (x y : Q) : Qle_bool x y = false <-> (y < x)%Q.
Proof.
  split.
  - intros H. apply Qnot_le_lt. intros Hle.
    apply Qle_bool_iff in Hle. congruence.
  - intros H. destruct (Qle_bool x y) eqn:E; [|reflexivity].
    apply Qle_bool_iff in E. lra.
Qed.

Lemma Qeq_bool_false (x y : Q) : Qeq_bool x y = false <-> ~ (x == y)%Q.
Proof.
  split.
  - intros H Heq. apply Qeq_bool_iff in Heq. congruence.
  - intros H. destruct (Qeq_bool x y) eqn:E; [|reflexivity].
    apply Qeq_bool_iff in E. contradiction.
Qed.

(** Turns the boolean tests on rationals found in the context and the
    goal into propositions that [lra] understands. *)
Ltac q_reflect :=
  unfold Qsgn_pos, Qsgn_zero in *;
  repeat match goal with
  | H : Qlt_bool _ _ = true |- _ => apply Qlt_bool_true in H
  | H : Qlt_bool _ _ = false |- _ => apply Qlt_bool_false in H
  | H : Qle_bool _ _ = true |- _ => apply Qle_bool_iff in H
  | H : Qle_bool _ _ = false |- _ => apply Qle_bool_false in H
  | H : Qeq_bool _ _ = true |- _ => apply Qeq_bool_iff in H
  | H : Qeq_bool _ _ = false |- _ => apply Qeq_bool_false in H
  | |- Qlt_bool _ _ = true => apply Qlt_bool_true
  | |- Qlt_bool _ _ = false => apply Qlt_bool_false
  | |- Qle_bool _ _ = true => apply Qle_bool_iff
  | |- Qle_bool _ _ = false => apply Qle_bool_false
  | |- Qeq_bool _ _ = true => apply Qeq_bool_iff
  | |- Qeq_bool _ _ = false => apply Qeq_bool_false
  end.

Lemma fle_trans (a b c : fl) : fle a b = true -> fle b c = true -> fle a c = true.
Proof.
  destruct a, b, c; simpl; try congruence.
  intros; q_reflect; lra.
Qed.

Lemma flt_fle (a b : fl) : flt a b = true -> fle a b = true.
Proof.
  destruct a, b; simpl; try congruence.
  intros; q_reflect; lra.
Qed.

(** Between two numbers, "not below or equal" is "strictly above". *)
Lemma fle_false_flt (a b : fl) :
  isna a = false -> isna b = false -> fle a b = false -> flt b a = true.
Proof.
  destruct a, b; simpl; try congruence.
  intros; q_reflect; lra.
Qed.

Lemma flt_asym (a b : fl) : flt a b = true -> flt b a = false.
Proof.
  destruct a, b; simpl; try congruence.
  intros; q_reflect; lra.
Qed.

Lemma fmul_not_nan (a b : fl) :
  isna (a * b)%fl = false -> isna a = false /\ isna b = false.
Proof. destruct a, b; simpl; intros; split; congruence. Qed.

Lemma fle_refl (a : fl) : isna a = false -> fle a a = true.
Proof.
  destruct a; simpl; try congruence. intros; q_reflect; lra.
Qed.

Lemma flt_not_nan (a b : fl) : flt a b = true -> isna a = false /\ isna b = false.
Proof. destruct a, b; simpl; intros; split; congruence. Qed.

Lemma fle_not_nan (a b : fl) : fle a b = true -> isna a = false /\ isna b = false.
Proof. destruct a, b; simpl; intros; split; congruence. Qed.

Lemma round2_not_nan (a : fl) : isna a = false -> isna (round2 a) = false.
Proof. destruct a; simpl; congruence. Qed.

(** Rounding sees the number, not the fraction that represents it. *)
Lemma round_half_even_comp (p q : Q) :
  (p == q)%Q -> round_half_even p = round_half_even q.
Proof.
  intros H. unfold round_half_even.
  rewrite (Qfloor_comp _ _ H).
  assert (Hc : ((p - inject_Z (Qfloor q))%Q ?= 1 # 2)%Q
               = ((q - inject_Z (Qfloor q))%Q ?= 1 # 2)%Q).
  { apply Qcompare_comp; [rewrite H|]; reflexivity. }
  rewrite Hc. reflexivity.
Qed.

Lemma round2Q_comp (p q : Q) : (p == q)%Q -> round2Q p = round2Q q.
Proof.
  intros H. unfold round2Q. f_equal.
  apply round_half_even_comp. rewrite H. reflexivity.
Qed.

(* ===================================================================== *)
(** * Net profit and loss *)
(* ===================================================================== *)

Module PnL.
Import TradeExecutor.

(** Python's [min(20, x)] on numbers is the smaller of the two. *)
Lemma py_min_Qmin (x : Q) :
  exists m, py_min (Fin 20) (Fin x) = Fin m /\ (m == Qmin 20 x)%Q.
Proof.
  unfold py_min. simpl. destruct (Qlt_bool x 20) eqn:E; q_reflect.
  - exists x. split; [reflexivity|]. symmetry. apply Q.min_r. lra.
  - exists 20%Q. split; [reflexivity|]. symmetry. apply Q.min_l. lra.
Qed.

End PnL.

(* ===================================================================== *)
(** * Orders while a trade is open *)
(* ===================================================================== *)

Module OpenGuard.
Import TradeExecutor.

(** What [place_order] does when a trade is open: the direction, entry
    price, stop and strategy of the record are replaced by those of the
    new order before the guard is reached; nothing else changes. *)
Lemma place_order_while_open (ex : TradeExecutor.t) now new_id trade_date action
    price stoploss new_strategy lots :
  open_trade (state ex) = Some true ->
  let st := state ex in
  place_order ex now new_id trade_date action price stoploss new_strategy lots
  = (emit (with_state ex
             (mkState (Some stoploss) (Some action) (last_sl_update_time st)
                      (last_exit_time st) (last_exit_price st) (trade_id st)
                      new_strategy (open_trade st) (entry_time st)
                      (target_price st) (Some price) (position st) (date st)
                      (qty st) (trade_type st) (checked_post_entry st)))
          (Warning "Trade already open. Skipping."),
     Ok tt).
Proof.
  intros Hopen st. unfold place_order. fold st. cbn.
  unfold st. rewrite Hopen. reflexivity.
Qed.

(** C1, at a failing input.  A long trade is open (entry 22000, stop
    21960, strategy ORB) and a SELL order at 22040 with stop 22080
    arrives.  The order is skipped, the trade stays open with its
    identifier, entry time, target, position and quantity, but the
    direction, entry price, stop and strategy of the open trade have
    been replaced by those of the refused order. *)
Theorem place_order_while_open_overwrites :
  let before := state example_executor in
  let after := state (fst order_while_open) in
  snd order_while_open = Ok tt /\
  open_trade before = Some true /\
  open_trade after = Some true /\
  trade_id after = trade_id before /\
  entry_time after = entry_time before /\
  target_price after = target_price before /\
  position after = position before /\
  qty after = qty before /\
  (trade_direction before = Some BUY /\ trade_direction after = Some SELL) /\
  (entry_price before = Some (Fin 22000) /\ entry_price after = Some (Fin 22040)) /\
  (stop_loss before = Some (Fin 21960) /\ stop_loss after = Some (Fin 22080)) /\
  (strategy before = Some "ORB" /\ strategy after = Some "VWAP_REV") /\
  after <> before.
Proof.
  cbv zeta. unfold order_while_open.
  rewrite place_order_while_open by reflexivity.
  cbn. repeat split; try reflexivity. discriminate.
Qed.

End OpenGuard.

(* ===================================================================== *)
(** * The pullback guard *)
(* ===================================================================== *)

(** What the guard computes on numbers: the move beyond the last exit
    must be strictly larger than half the ATR. *)
Lemma pullback_guard_strict (price last atr : Q) (side : Side) :
  ~ (last == 0)%Q ->
  has_price_moved_enough_after_pullback (Some (Fin price)) (Some (Fin last))
    (Some side) (Num (Fin atr))
  = Ok (match side with
        | BUY => Qlt_bool (last + (1 # 2) * atr) price
        | SELL => Qlt_bool price (last + - ((1 # 2) * atr))
        end).
Proof.
  intros Hz. unfold has_price_moved_enough_after_pullback.
  assert (Ht : truthy_opt (Some (Fin last)) = true).
  { cbn. unfold Qsgn_zero. apply Bool.negb_true_iff. q_reflect. exact Hz. }
  rewrite Ht. destruct side; cbn.
  - reflexivity.
  - destruct (Qlt_bool price (last + - ((1 # 2) * atr))); reflexivity.
Qed.

(** C7, at a failing input.  The last exit was at 100 and the ATR is 20;
    a BUY entry at 110 has moved exactly 0.5 x ATR above the exit, which
    the claim (and the docstring, "moved >= 0.5 ATR") permits.  The guard
    answers no. *)
Theorem pullback_guard_rejects_exact_half_atr :
  fge (Fin 110) (Fin 100 + Fin (1 # 2) * Fin 20)%fl = true /\
  has_price_moved_enough_after_pullback (Some (Fin 110)) (Some (Fin 100))
    (Some BUY) (Num (Fin 20)) = Ok false /\
  fle (Fin 90) (Fin 100 - Fin (1 # 2) * Fin 20)%fl = true /\
  has_price_moved_enough_after_pullback (Some (Fin 90)) (Some (Fin 100))
    (Some SELL) (Num (Fin 20)) = Ok false.
Proof. repeat split; reflexivity. Qed.

(** The same entry inside the filter chain: with a previous exit at 100 a
    day earlier, the guards before the pullback guard let the BUY at 110
    through and the pullback guard invalidates it. *)
Example pullback_guard_in_chain :
  later_guards (market_data_of spike_frame state_after_exit) reentry_row
    (valid_long 110) spike_frame 14 (Num (Fin 20))
    (TS (ist (20000 * day_seconds + dt_time 9 15 + 300 * 14)))
  = Ok (invalidate (valid_long 110) NoPullback).
Proof. vm_compute. reflexivity. Qed.

(* ===================================================================== *)
(** * Frames: reading columns and rows *)
(* ===================================================================== *)

Lemma floats_inv (col : column) (l : list fl) :
  floats col = Ok l -> col = Num <$> l.
Proof.
  unfold floats. revert l. induction col as [|v col IH]; intros l H.
  - cbn in H. injection H as <-. reflexivity.
  - cbn in H. destruct v as [x| |]; cbn in H; try discriminate.
    destruct (mapM as_num col) as [l'|e] eqn:E; cbn in H; try discriminate.
    injection H as <-. cbn. f_equal. apply IH. reflexivity.
Qed.

Lemma floats_fmap (l : list fl) : floats (Num <$> l) = Ok l.
Proof.
  unfold floats. induction l as [|x l IH]; cbn; [reflexivity|].
  rewrite IH. reflexivity.
Qed.

Lemma numcol_inv (df : DataFrame) (c : string) (l : list fl) :
  numcol df c = Ok l -> columns df !! c = Some (Num <$> l).
Proof.
  unfold numcol, getcol. destruct (columns df !! c) as [col|]; cbn; [|discriminate].
  intros H. apply floats_inv in H. rewrite H. reflexivity.
Qed.

Lemma find_index_lookup (t : Timestamp) (l : list Timestamp) (i : nat) :
  find_index t l = Some i -> is_Some (l !! i).
Proof.
  revert i. induction l as [|x l IH]; intros i; cbn; [discriminate|].
  destruct (ts_eqb t x).
  - intros [= <-]. eauto.
  - destruct (find_index t l) as [j|]; cbn; [|discriminate].
    intros [= <-]. cbn. apply IH. reflexivity.
Qed.

Lemma get_loc_lookup (df : DataFrame) (t : Timestamp) (i : nat) :
  get_loc df t = Ok i -> is_Some (index df !! i).
Proof.
  unfold get_loc. destruct (find_index t (index df)) eqn:E; [|discriminate].
  intros [= <-]. eapply find_index_lookup, E.
Qed.

(** The cell of a numeric column seen through the row at the same
    position. *)
Lemma iloc_numcol (df : DataFrame) (i : nat) (c : string) (l : list fl) (x : fl) :
  is_Some (index df !! i) -> numcol df c = Ok l -> l !! i = Some x ->
  exists r, iloc df i = Ok r /\ getcell r c = Ok (Num x).
Proof.
  intros [t Ht] Hc Hx. apply numcol_inv in Hc.
  unfold iloc. rewrite Ht. eexists. split; [reflexivity|].
  unfold getcell. cbn [cells]. rewrite lookup_omap, Hc. cbn.
  rewrite list_lookup_fmap, Hx. reflexivity.
Qed.

(* ===================================================================== *)
(** * The volume guard *)
(* ===================================================================== *)

(** The window of the rolling mean at [i] ends with the bar at [i]. *)
Lemma rolling_window_last (w : nat) (l : list fl) (i : nat) (x : fl) :
  (0 < w)%nat -> (w <= i + 1)%nat -> l !! i = Some x ->
  last (take w (drop (i + 1 - w) l)) = Some x.
Proof.
  intros Hw0 Hw Hx. rewrite last_lookup.
  assert (Hlen : length (take w (drop (i + 1 - w) l)) = w).
  { rewrite length_take, length_drop. apply lookup_lt_Some in Hx. lia. }
  rewrite Hlen. rewrite lookup_take_lt by lia. rewrite lookup_drop.
  replace (i + 1 - w + Nat.pred w)%nat with i by lia. exact Hx.
Qed.

(** A rolling mean that is a number is the mean of its window. *)
Lemma rolling_mean_at_window (w : nat) (l : list fl) (i : nat) :
  isna (rolling_mean_at w l i) = false ->
  (w <= i + 1)%nat /\
  rolling_mean_at w l i = (fl_sum (take w (drop (i + 1 - w) l)) / of_nat w)%fl.
Proof.
  unfold rolling_mean_at. destruct (i + 1 <? w)%nat eqn:E; [discriminate|].
  apply Nat.ltb_ge in E.
  destruct (_ && _); [|discriminate]. intros _. split; [exact E|reflexivity].
Qed.

(** C5, as the code has it.  For a decision that entered the filter
    chain, with [avg] the rolling mean of the volume over the fourteen
    bars that end at the signal bar (that bar included):
    - if [avg] is undefined or the volume is below 1.2 x [avg], the
      decision is invalidated with the volume reason, whatever the later
      guards would say;
    - if the volume is above 1.2 x [avg], the outcome is that of the
      later guards;
    - [avg], when defined, is the mean of a window whose last bar is the
      signal bar;
    - in particular a bar whose positive volume equals [avg] is rejected
      with the volume reason. *)
Theorem volume_guard (md : MarketData) (row : Row) (decision : TradeDecision)
    (parent_df : DataFrame) (i : nat) (volumes : list fl) (volume : fl)
    (atr row_date : cell) :
  recent_df md = Some parent_df ->
  get_loc parent_df (name row) = Ok i ->
  numcol parent_df "volume" = Ok volumes ->
  volumes !! i = Some volume ->
  getcell row "ATR" = Ok atr ->
  getcell row "date" = Ok row_date ->
  let avg := rolling_mean_at 14 volumes i in
  (isna avg = true \/ flt volume (Fin (12 # 10) * avg)%fl = true ->
   apply_filters md row decision
   = Ok (invalidate decision (VolumeTooLow volume avg))) /\
  (fgt volume (Fin (12 # 10) * avg)%fl = true ->
   apply_filters md row decision
   = later_guards md row decision parent_df i atr row_date) /\
  (isna avg = false ->
   last (take 14 (drop (i + 1 - 14) volumes)) = Some volume /\
   avg = (fl_sum (take 14 (drop (i + 1 - 14) volumes)) / of_nat 14)%fl) /\
  (forall a v : Q, avg = Fin a -> volume = Fin v -> (v == a)%Q -> (0 < a)%Q ->
   apply_filters md row decision
   = Ok (invalidate decision (VolumeTooLow volume avg))).
Proof.
  intros Hdf Hloc Hvol Hv Hatr Hdate avg.
  destruct (iloc_numcol parent_df i "volume" volumes volume
              (get_loc_lookup _ _ _ Hloc) Hvol Hv) as (r & Hr & Hcell).
  assert (Hstep : apply_filters md row decision
                  = if volume_too_low volume avg
                    then Ok (invalidate decision (VolumeTooLow volume avg))
                    else later_guards md row decision parent_df i atr row_date).
  { unfold apply_filters. rewrite Hdf. cbn [getattr rbind].
    rewrite Hloc. cbn [rbind]. rewrite Hr. cbn [rbind].
    rewrite Hcell. cbn [rbind]. rewrite Hvol. cbn [rbind].
    rewrite Hatr, Hdate. cbn [rbind as_num]. reflexivity. }
  assert (Hlow : isna avg = true \/ flt volume (Fin (12 # 10) * avg)%fl = true ->
                 volume_too_low volume avg = true).
  { unfold volume_too_low. intros [->| ->]; [reflexivity|].
    apply Bool.orb_true_r. }
  repeat split.
  - intros H. rewrite Hstep, (Hlow H). reflexivity.
  - intros H. rewrite Hstep. unfold volume_too_low.
    unfold fgt in H. destruct (flt_not_nan _ _ H) as [Hn _].
    destruct (fmul_not_nan _ _ Hn) as [_ Ha].
    rewrite Ha, (flt_asym _ _ H). reflexivity.
  - apply rolling_window_last; [lia| |exact Hv].
    destruct (rolling_mean_at_window 14 volumes i H). lia.
  - apply rolling_mean_at_window. exact H.
  - intros a v Ha Hvv Heq Hpos. rewrite Hstep, Hlow; [reflexivity|].
    right. rewrite Ha, Hvv. cbn. q_reflect. lra.
Qed.

(** The theorem at the quiet-volume frame: 125 is above 1.2 times the
    mean of the window that ends at the signal bar, so the later guards
    decide. *)
Lemma volume_guard_witness :
  apply_filters (market_data_of spike_frame TradeState_init) spike_row
    (valid_long 248)
  = later_guards (market_data_of spike_frame TradeState_init) spike_row
      (valid_long 248) spike_frame 14 (Num (Fin (140 # 14)))
      (TS (ist (20000 * day_seconds + dt_time 9 15 + 300 * 14))).
Proof.
  refine (proj1 (proj2 (volume_guard (market_data_of spike_frame TradeState_init)
            spike_row (valid_long 248) spike_frame 14 (Fin <$> spike_volumes)
            (Fin 125) (Num (Fin (140 # 14)))
            (TS (ist (20000 * day_seconds + dt_time 9 15 + 300 * 14)))
            _ _ _ _ _ _)) _); vm_compute; reflexivity.
Defined.

(** C5 as stated fails.  The fourteen bars before the signal bar average
    11300/14 (a spike of 10000 fourteen bars ago), so the signal bar's
    volume of 125 does not exceed 1.2 times the average of the bars that
    strictly precede it; the decision nevertheless leaves the filter
    chain valid, because the code averages the window that ends at the
    signal bar (1425/14). *)
Lemma volume_guard_counterexample :
  d_valid (valid_long 248) = true /\
  get_loc spike_frame (name spike_row) = Ok 14%nat /\
  numcol spike_frame "volume" = Ok (Fin <$> spike_volumes) /\
  spec_trailing_average 14 (Fin <$> spike_volumes) 14 = Fin (11300 # 14) /\
  fgt (Fin 125) (Fin (12 # 10) * Fin (11300 # 14))%fl = false /\
  apply_filters (market_data_of spike_frame TradeState_init) spike_row
    (valid_long 248) = Ok (valid_long 248).
Proof. repeat split; vm_compute; reflexivity. Qed.

(* ===================================================================== *)
(** * The signal evaluators *)
(* ===================================================================== *)

Lemma feq_refl (a : fl) : feq a a.
Proof. destruct a; simpl; auto. reflexivity. Qed.

Lemma fsub_swap (x y : fl) : feq (y - x)%fl (fneg (x - y)%fl).
Proof.
  destruct x, y; simpl; auto. ring.
Qed.

Lemma fmul_fneg_r (r x : fl) : feq (r * fneg x)%fl (fneg (r * x)%fl).
Proof.
  destruct r as [| |r|], x as [| |x|]; simpl; auto;
    unfold inf_scaled, Qsgn_zero, Qsgn_pos;
    try (destruct (Qeq_bool r 0) eqn:Ez; simpl; auto;
         destruct (Qlt_bool 0 r); simpl; auto);
    try ring.
  all: destruct (Qeq_bool (- x) 0) eqn:E1, (Qeq_bool x 0) eqn:E2; simpl; auto;
    try (q_reflect; lra).
  all: destruct (Qlt_bool 0 (- x)) eqn:E3, (Qlt_bool 0 x) eqn:E4; simpl; auto;
    q_reflect; lra.
Qed.

Lemma flt_feq (a a' b b' : fl) : feq a a' -> feq b b' -> flt a b = flt a' b'.
Proof.
  destruct a, a', b, b'; simpl; try tauto. intros Ha Hb.
  destruct (Qlt_bool q q1) eqn:E1, (Qlt_bool q0 q2) eqn:E2; auto; q_reflect; lra.
Qed.

Lemma fle_feq (a a' b b' : fl) : feq a a' -> feq b b' -> fle a b = fle a' b'.
Proof.
  destruct a, a', b, b'; simpl; try tauto. intros Ha Hb.
  destruct (Qle_bool q q1) eqn:E1, (Qle_bool q0 q2) eqn:E2; auto; q_reflect; lra.
Qed.

Lemma flt_fneg (a b : fl) : flt (fneg a) (fneg b) = flt b a.
Proof.
  destruct a, b; simpl; auto.
  destruct (Qlt_bool (- q) (- q0)) eqn:E1, (Qlt_bool q0 q) eqn:E2; auto;
    q_reflect; lra.
Qed.

Lemma fle_fneg (a b : fl) : fle (fneg a) (fneg b) = fle b a.
Proof.
  destruct a, b; simpl; auto.
  destruct (Qle_bool (- q) (- q0)) eqn:E1, (Qle_bool q0 q) eqn:E2; auto;
    q_reflect; lra.
Qed.

Lemma flt_fle_false (a b : fl) : flt a b = true -> fle b a = false.
Proof.
  destruct a, b; simpl; try congruence. intros; q_reflect; lra.
Qed.

Lemma feq_trans (a b c : fl) : feq a b -> feq b c -> feq a c.
Proof.
  destruct a, b, c; simpl; try tauto. intros H1 H2. rewrite H1. exact H2.
Qed.

Lemma inf_scaled_comp (p : bool) (q q' : Q) :
  (q == q')%Q -> inf_scaled p q = inf_scaled p q'.
Proof.
  intros H. unfold inf_scaled, Qsgn_zero, Qsgn_pos.
  destruct (Qeq_bool q 0) eqn:E1, (Qeq_bool q' 0) eqn:E2;
    try (q_reflect; lra); auto.
  destruct (Qlt_bool 0 q) eqn:E3, (Qlt_bool 0 q') eqn:E4; auto; q_reflect; lra.
Qed.

Lemma fmul_feq_r (r x x' : fl) : feq x x' -> feq (r * x)%fl (r * x')%fl.
Proof.
  destruct r, x, x'; simpl; try tauto; intros H;
    try apply feq_refl;
    try (rewrite (inf_scaled_comp _ _ _ H); apply feq_refl).
  apply Qmult_comp; [reflexivity|exact H].
Qed.

(** The comparison of the short branch is the comparison of the long
    branch on the negated sides. *)
Lemma short_sides (rr entry sl target : fl) :
  feq (entry - target)%fl (fneg (target - entry)%fl) /\
  feq (rr * (sl - entry))%fl (fneg (rr * (entry - sl))%fl).
Proof.
  split; [apply fsub_swap|].
  eapply feq_trans; [apply fmul_feq_r, fsub_swap|apply fmul_fneg_r].
Qed.

(** The two comparisons of the short branch, in terms of the long ones. *)
Lemma short_comparisons (rr entry sl target : fl) :
  flt (entry - target) (rr * (sl - entry))%fl
  = flt (rr * (entry - sl)) (target - entry)%fl /\
  fle (rr * (sl - entry)) (entry - target)%fl
  = fle (target - entry) (rr * (entry - sl))%fl.
Proof.
  destruct (short_sides rr entry sl target) as [H1 H2]. split.
  - rewrite (flt_feq _ _ _ _ H1 H2). apply flt_fneg.
  - rewrite (fle_feq _ _ _ _ H2 H1). apply fle_fneg.
Qed.

(** The risk/reward gate of the reversion evaluator where the levels
    are numbers.  For a row on which the band-cross and trend conditions
    select a direction, and whose stop and target levels can be read:
    - the decision is valid only if the risk/reward gate of that
      direction holds; equivalently, when the gate fails the decision is
      invalid;
    - when the reward is below the threshold times the risk, the
      decision is the rejection whose reason carries both numbers;
    - so a failing gate is reported with its numbers whenever both sides
      of the comparison are numbers (not NaN). *)
Lemma vwap_risk_reward_gate (s : VWAPStrategy) (row : Row) (side : Side)
    (entry sl target : fl) (dt : cell) :
  vwap_signal s row = Ok (inr (side, entry)) ->
  getcell row "date" = Ok dt ->
  getnum row "orb_sl" = Ok sl ->
  getnum row "orb_target" = Ok target ->
  let d := VWAP_evaluate s row in
  let reward := rr_reward side entry target in
  let risk := rr_risk side (rr_threshold s) entry sl in
  (d_valid d = true -> rr_gate side (rr_threshold s) entry sl target = true) /\
  (rr_gate side (rr_threshold s) entry sl target = false -> d_valid d = false) /\
  (flt reward risk = true -> d = rejection false (RiskRewardTooLow reward risk)) /\
  (rr_gate side (rr_threshold s) entry sl target = false ->
   isna reward = false -> isna risk = false ->
   d = rejection false (RiskRewardTooLow reward risk)).
Proof.
  intros Hsig Hdt Hsl Htg d reward risk.
  assert (Hd : d = on_exception
                     (match side with
                      | BUY => vwap_long s row entry
                      | SELL => vwap_short s row entry
                      end)).
  { unfold d, VWAP_evaluate, VWAP_body. rewrite Hsig. cbn [rbind].
    destruct side; reflexivity. }
  assert (Hlow : flt reward risk = true ->
                 d = rejection false (RiskRewardTooLow reward risk)).
  { intros Hlt. rewrite Hd. unfold reward, risk in *.
    destruct side; cbn [rr_reward rr_risk] in Hlt |- *;
      unfold vwap_long, vwap_short; rewrite Hdt, Hsl, Htg; cbn [rbind];
      rewrite Hlt; cbn [on_exception]; f_equal.
    - unfold fge. apply flt_fle_false, Hlt.
    - destruct (short_comparisons (rr_threshold s) entry sl target) as [E _].
      rewrite E in Hlt. apply flt_asym, Hlt. }
  assert (Hvalid : d_valid d = true ->
                   rr_gate side (rr_threshold s) entry sl target = true).
  { rewrite Hd. destruct side; cbn [rr_gate];
      unfold vwap_long, vwap_short; rewrite Hdt, Hsl, Htg; cbn [rbind].
    - destruct (flt _ _); cbn; auto.
    - destruct (short_comparisons (rr_threshold s) entry sl target) as [E1 E2].
      unfold fge. rewrite E2.
      destruct (flt (entry - target) _); cbn; intros H; apply flt_fle, H. }
  repeat split.
  - exact Hvalid.
  - intros Hg. destruct (d_valid d); [|reflexivity].
    rewrite Hvalid in Hg by reflexivity. discriminate.
  - exact Hlow.
  - intros Hg Hn1 Hn2. apply Hlow. apply fle_false_flt; try assumption.
    unfold reward, risk. destruct side; exact Hg.
Qed.

(** The theorem at a bar with numeric levels: entry 120, stop 110 and
    target 150 give a reward of 30 against 1.2 x 10 of risk. *)
Lemma vwap_risk_reward_gate_witness :
  rr_gate BUY (Fin (12 # 10)) (Fin 120) (Fin 110) (Fin 150) = true.
Proof.
  refine (proj1 (vwap_risk_reward_gate example_vwap numeric_levels_row BUY
            (Fin 120) (Fin 110) (Fin 150) (TS (name numeric_levels_row))
            _ _ _ _) _); vm_compute; reflexivity.
Defined.

Lemma flt_nan_r (a : fl) : flt a NaN = false.
Proof. destruct a; reflexivity. Qed.

Lemma flt_nan_l (a : fl) : flt NaN a = false.
Proof. destruct a; reflexivity. Qed.

Lemma fle_nan_r (a : fl) : fle a NaN = false.
Proof. destruct a; reflexivity. Qed.

Lemma fle_nan_l (a : fl) : fle NaN a = false.
Proof. destruct a; reflexivity. Qed.

Lemma fsub_nan_r (a : fl) : (a - NaN)%fl = NaN.
Proof. destruct a; reflexivity. Qed.

Lemma fsub_nan_l (a : fl) : (NaN - a)%fl = NaN.
Proof. destruct a; reflexivity. Qed.

Lemma fmul_nan_r (a : fl) : (a * NaN)%fl = NaN.
Proof. destruct a; reflexivity. Qed.

Lemma isna_inv (a : fl) : isna a = true -> a = NaN.
Proof. destruct a; [reflexivity|discriminate..]. Qed.

(** The path the gate misses.  When the stop or the target of a row
    with a directional signal is NaN, neither [reward >= threshold *
    risk] nor [reward < threshold * risk] holds: the rejection is not
    taken and the evaluator returns the directional decision itself,
    marked invalid, without a reason. *)
Lemma vwap_nan_levels_unreported (s : VWAPStrategy) (row : Row) (side : Side)
    (entry sl target : fl) (dt : cell) :
  vwap_signal s row = Ok (inr (side, entry)) ->
  getcell row "date" = Ok dt ->
  getnum row "orb_sl" = Ok sl ->
  getnum row "orb_target" = Ok target ->
  isna sl = true \/ isna target = true ->
  VWAP_evaluate s row
  = mkDecision (Some dt) (Some side) (Some entry) (Some sl) (Some target)
               false (Some "VWAP_REV") NoReason.
Proof.
  intros Hsig Hdt Hsl Htg Hnan.
  unfold VWAP_evaluate, VWAP_body. rewrite Hsig. cbn [rbind].
  destruct side; unfold vwap_long, vwap_short; rewrite Hdt, Hsl, Htg;
    cbn [rbind]; unfold fge;
    destruct Hnan as [Hn | Hn]; apply isna_inv in Hn; subst;
    rewrite ?fsub_nan_r, ?fsub_nan_l, ?fmul_nan_r,
            ?flt_nan_r, ?flt_nan_l, ?fle_nan_r, ?fle_nan_l;
    reflexivity.
Qed.

(** C3.  The failing input: a bar that crosses the upper band above its
    long EMA, so a BUY signal, on a row whose stop and target are the
    NaN default of a day without assigned levels.  The risk/reward gate
    does not hold and the decision is invalid, but it is the directional
    decision with an empty reason: the numeric comparison the claim
    promises is not reported.  On the same bar with a stop of 110 and a
    target of 125 the sibling path does report it: the decision is the
    signal-less rejection whose reason carries the reward 5 and the
    required 1.2 x 10. *)
Theorem vwap_gate_unreported_on_nan_levels :
  vwap_signal example_vwap nan_levels_row = Ok (inr (BUY, Fin 120)) /\
  getnum nan_levels_row "orb_sl" = Ok NaN /\
  getnum nan_levels_row "orb_target" = Ok NaN /\
  rr_gate BUY (rr_threshold example_vwap) (Fin 120) NaN NaN = false /\
  VWAP_evaluate example_vwap nan_levels_row
  = mkDecision (Some (TS (name nan_levels_row))) (Some BUY) (Some (Fin 120))
               (Some NaN) (Some NaN) false (Some "VWAP_REV") NoReason /\
  vwap_signal example_vwap low_reward_row = Ok (inr (BUY, Fin 120)) /\
  rr_gate BUY (rr_threshold example_vwap) (Fin 120) (Fin 110) (Fin 125) = false /\
  VWAP_evaluate example_vwap low_reward_row
  = rejection false
      (RiskRewardTooLow (Fin 125 - Fin 120)
                        (rr_threshold example_vwap * (Fin 120 - Fin 110)))%fl.
Proof. repeat split; vm_compute; reflexivity. Qed.

(** The handler at work: a row without a [close] column makes the body
    raise [KeyError('close')], and the evaluators answer with the invalid
    decision whose reason is made from it. *)
Example evaluators_on_empty_row :
  VWAP_body example_vwap empty_row = Raise (KeyError "close") /\
  VWAP_evaluate example_vwap empty_row
  = rejection false (ExceptionReason (KeyError "close")) /\
  ORB_body empty_row = Raise (KeyError "close") /\
  ORB_evaluate empty_row = rejection false (ExceptionReason (KeyError "close")).
Proof. repeat split; vm_compute; reflexivity. Qed.

(** A row whose [date] is a number: [.time()] raises inside the breakout
    evaluator. *)
Example orb_on_untimed_row :
  ORB_evaluate (mkRow (ist 0) (<["date" := Num (Fin 0)]> (cells nan_levels_row)))
  = rejection false (ExceptionReason (AttributeError "time")).
Proof. vm_compute. reflexivity. Qed.

(** Reading a typed row: a column other than [date] gives a float or
    the [KeyError] of the column; [date] gives a timestamp or its
    [KeyError]. *)
Lemma typed_getcell (row : Row) (c : string) :
  typed_row row -> c <> "date" ->
  (exists x, getcell row c = Ok (Num x)) \/
  (getcell row c = Raise (KeyError c) /\ cells row !! c = None).
Proof.
  intros Ht Hc. unfold getcell.
  destruct (cells row !! c) as [v|] eqn:E; [|right; auto].
  specialize (Ht c v E). destruct v as [x|t|d]; [left; eauto|contradiction..].
Qed.

Lemma typed_getnum (row : Row) (c : string) :
  typed_row row -> c <> "date" ->
  (exists x, getnum row c = Ok x) \/
  (getnum row c = Raise (KeyError c) /\ cells row !! c = None).
Proof.
  intros Ht Hc. unfold getnum.
  destruct (typed_getcell row c Ht Hc) as [(x & ->) | (-> & Hnone)];
    [left; eexists; reflexivity|right; auto].
Qed.

Lemma typed_date (row : Row) :
  typed_row row ->
  (exists t, getcell row "date" = Ok (TS t)) \/
  (getcell row "date" = Raise (KeyError "date") /\ cells row !! "date" = None).
Proof.
  intros Ht. unfold getcell.
  destruct (cells row !! "date") as [v|] eqn:E; [|right; auto].
  specialize (Ht "date" v E). destruct v as [x|t|d];
    [contradiction|left; eauto|contradiction].
Qed.

(** One read of a typed row inside a body that raised: the read failed
    with the [KeyError] of a missing column, or it gave a value. *)
Ltac typed_read Ht H :=
  match type of H with
  | context [getnum ?row ?c] =>
      let x := fresh "x" in let E := fresh "E" in let N := fresh "N" in
      destruct (typed_getnum row c Ht ltac:(discriminate)) as [(x & E) | (E & N)];
      rewrite E in H; cbn [rbind] in H;
      [|injection H as <-; eexists; split; [reflexivity|exact N]]
  | context [getcell ?row "date"] =>
      let t := fresh "t" in let E := fresh "E" in let N := fresh "N" in
      destruct (typed_date row Ht) as [(t & E) | (E & N)];
      rewrite E in H; cbn [rbind as_ts] in H;
      [|injection H as <-; eexists; split; [reflexivity|exact N]]
  | context [getcell ?row ?c] =>
      let x := fresh "x" in let E := fresh "E" in let N := fresh "N" in
      destruct (typed_getcell row c Ht ltac:(discriminate)) as [(x & E) | (E & N)];
      rewrite E in H; cbn [rbind as_num cell_isna] in H;
      [|injection H as <-; eexists; split; [reflexivity|exact N]]
  end.

Ltac typed_walk Ht H :=
  repeat first
    [ discriminate H
    | typed_read Ht H
    | match type of H with
      | context [if ?b then _ else _] => destruct b; cbn [rbind] in H
      end ].

Lemma ORB_body_typed (row : Row) (e : exn) :
  typed_row row -> ORB_body row = Raise e ->
  exists c, e = KeyError c /\ cells row !! c = None.
Proof.
  intros Ht H. unfold ORB_body in H. typed_walk Ht H.
Qed.

Lemma VWAP_body_typed (s : VWAPStrategy) (row : Row) (e : exn) :
  typed_row row -> VWAP_body s row = Raise e ->
  exists c, e = KeyError c /\ cells row !! c = None.
Proof.
  intros Ht H.
  unfold VWAP_body, vwap_signal, vwap_long_cond, vwap_short_cond in H.
  typed_walk Ht H;
    unfold vwap_long, vwap_short in H; typed_walk Ht H.
Qed.

(** A decision computed by a body never carries an exception as its
    reason: that reason is the mark of the handler. *)
Lemma ORB_body_reason (row : Row) (d : TradeDecision) (e : exn) :
  ORB_body row = Ok d -> d_reason d <> ExceptionReason e.
Proof.
  unfold ORB_body. intros H.
  repeat first
    [ discriminate H
    | injection H as <-; discriminate
    | match type of H with
      | context [rbind ?m _] =>
          let E := fresh "E" in destruct m eqn:E; cbn [rbind] in H
      | context [if ?b then _ else _] =>
          let E := fresh "E" in destruct b eqn:E; cbn [rbind] in H
      end ].
Qed.

Lemma VWAP_body_reason (s : VWAPStrategy) (row : Row) (d : TradeDecision) (e : exn) :
  VWAP_body s row = Ok d -> d_reason d <> ExceptionReason e.
Proof.
  unfold VWAP_body. intros H.
  destruct (vwap_signal s row) as [[r | [side entry]] | e'] eqn:Hsig;
    cbn [rbind] in H; [| |discriminate H].
  - injection H as <-. revert Hsig.
    unfold vwap_signal, vwap_long_cond, vwap_short_cond. intros G.
    repeat first
      [ discriminate G
      | injection G as <-; discriminate
      | match type of G with
        | context [rbind ?m _] =>
            let E := fresh "E" in destruct m eqn:E; cbn [rbind] in G
        | context [if ?b then _ else _] =>
            let E := fresh "E" in destruct b eqn:E; cbn [rbind] in G
        end ].
  - destruct side; unfold vwap_long, vwap_short in H;
      repeat first
        [ discriminate H
        | injection H as <-; discriminate
        | match type of H with
          | context [rbind ?m _] =>
              let E := fresh "E" in destruct m eqn:E; cbn [rbind] in H
          | context [if ?b then _ else _] =>
              let E := fresh "E" in destruct b eqn:E; cbn [rbind] in H
          end ].
Qed.

(** C8.  Each evaluator is a function of the strategy parameters and
    the row that returns a decision for every row; it receives and
    returns no trade state.
    - Whatever the row holds, an exception [e] raised inside the body
      ends as the invalid decision without signal whose reason is made
      from [e], and a decision whose reason is made from an exception
      is exactly that: the bodies themselves never produce one.
    - On a row whose cells have the types of a prepared frame the only
      exceptions there are to catch are the [KeyError]s of columns the
      row does not have: no arithmetic, comparison or attribute access
      of either body fails. *)
Theorem evaluators_never_raise (s : VWAPStrategy) (row : Row) :
  (forall e, VWAP_body s row = Raise e <->
             VWAP_evaluate s row = rejection false (ExceptionReason e)) /\
  (forall e, ORB_body row = Raise e <->
             ORB_evaluate row = rejection false (ExceptionReason e)) /\
  (forall e, d_reason (VWAP_evaluate s row) = ExceptionReason e ->
             VWAP_evaluate s row = rejection false (ExceptionReason e)) /\
  (forall e, d_reason (ORB_evaluate row) = ExceptionReason e ->
             ORB_evaluate row = rejection false (ExceptionReason e)) /\
  (forall d, VWAP_body s row = Ok d -> VWAP_evaluate s row = d) /\
  (forall d, ORB_body row = Ok d -> ORB_evaluate row = d) /\
  (typed_row row ->
   (forall e, d_reason (VWAP_evaluate s row) = ExceptionReason e ->
              exists c, e = KeyError c /\ cells row !! c = None) /\
   (forall e, d_reason (ORB_evaluate row) = ExceptionReason e ->
              exists c, e = KeyError c /\ cells row !! c = None)).
Proof.
  assert (HV : forall e, d_reason (VWAP_evaluate s row) = ExceptionReason e ->
                         VWAP_body s row = Raise e).
  { intros e. unfold VWAP_evaluate.
    destruct (VWAP_body s row) as [d|e'] eqn:E; cbn.
    - intros H. destruct (VWAP_body_reason s row d e E H).
    - intros [= ->]. reflexivity. }
  assert (HO : forall e, d_reason (ORB_evaluate row) = ExceptionReason e ->
                         ORB_body row = Raise e).
  { intros e. unfold ORB_evaluate.
    destruct (ORB_body row) as [d|e'] eqn:E; cbn.
    - intros H. destruct (ORB_body_reason row d e E H).
    - intros [= ->]. reflexivity. }
  split; [|split; [|split; [|split; [|split; [|split]]]]].
  - intros e. split; intros H.
    + unfold VWAP_evaluate. rewrite H. reflexivity.
    + apply HV. rewrite H. reflexivity.
  - intros e. split; intros H.
    + unfold ORB_evaluate. rewrite H. reflexivity.
    + apply HO. rewrite H. reflexivity.
  - intros e H. unfold VWAP_evaluate. rewrite (HV e H). reflexivity.
  - intros e H. unfold ORB_evaluate. rewrite (HO e H). reflexivity.
  - intros d H. unfold VWAP_evaluate. rewrite H. reflexivity.
  - intros d H. unfold ORB_evaluate. rewrite H. reflexivity.
  - intros Ht. split; intros e H.
    + apply (VWAP_body_typed s row e Ht), HV, H.
    + apply (ORB_body_typed row e Ht), HO, H.
Qed.

(** The theorem on the row of a prepared frame that lacks the [ATR]
    column: the breakout evaluator answers with the [KeyError] of that
    column, the only kind of exception a typed row can cause. *)
Lemma evaluators_never_raise_witness :
  exists c : string,
    KeyError "ATR" = KeyError c /\
    cells (mkRow (name nan_levels_row) (delete "ATR" (cells nan_levels_row))) !! c
    = None.
Proof.
  destruct (evaluators_never_raise example_vwap
              (mkRow (name nan_levels_row) (delete "ATR" (cells nan_levels_row))))
    as (_ & _ & _ & _ & _ & _ & Htyped).
  assert (Ht : typed_row (mkRow (name nan_levels_row)
                                (delete "ATR" (cells nan_levels_row)))).
  { intros c v Hc. cbn [cells] in Hc.
    apply lookup_delete_Some in Hc as [_ Hc].
    unfold nan_levels_row in Hc. cbn [cells list_to_map foldr] in Hc.
    repeat (apply lookup_insert_Some in Hc as [[<- <-] | [_ Hc]];
            [try discriminate; reflexivity|]).
    rewrite lookup_empty in Hc. discriminate Hc. }
  destruct (Htyped Ht) as (_ & Horb).
  apply Horb. vm_compute. reflexivity.
Defined.

(* ===================================================================== *)
(** * The trailing stop never regresses *)
(* ===================================================================== *)

Module TrailingStop.
Import SLManager.

Lemma no_worse_refl (side : Side) (a : fl) : isna a = false -> no_worse side a a.
Proof. destruct side; apply fle_refl. Qed.

Lemma no_worse_trans (side : Side) (a b c : fl) :
  no_worse side a b -> no_worse side b c -> no_worse side a c.
Proof. destruct side; simpl; eauto using fle_trans. Qed.

Lemma strictly_better_no_worse (side : Side) (new old : fl) :
  strictly_better side new old = true -> no_worse side old new.
Proof. destruct side; simpl; apply flt_fle. Qed.

Lemma strictly_better_not_nan (side : Side) (new old : fl) :
  strictly_better side new old = true -> isna new = false.
Proof.
  destruct side; simpl; unfold fgt; intros H; apply flt_not_nan in H; tauto.
Qed.

Lemma fsub_fin_not_nan (a : fl) (q : Q) :
  isna a = false -> isna (a - Fin q)%fl = false.
Proof. destruct a; simpl; congruence. Qed.

Lemma fadd_fin_not_nan (a : fl) (q : Q) :
  isna a = false -> isna (a + Fin q)%fl = false.
Proof. destruct a; simpl; congruence. Qed.

Lemma fabs_fsub_not_nan (a b : fl) :
  isna (fabs (a - b)) = false -> isna a = false.
Proof. destruct a, b; simpl; congruence. Qed.

(** The record [_maybe_update_sl] leaves: the one it received, or that
    record with the rounded stop, which is then strictly more favourable
    than the stop it replaces. *)
Lemma maybe_update_sl_step (st : TradeState) (trade_date : option Timestamp)
    (new_sl s : fl) (side : Side) :
  position st = Some side -> stop_loss st = Some s ->
  isna s = false -> isna new_sl = false ->
  let st' := fst (_maybe_update_sl st trade_date new_sl) in
  position st' = Some side /\
  (st' = st \/
   (stop_loss st' = Some (round2 new_sl) /\
    strictly_better side (round2 new_sl) s = true)).
Proof.
  intros Hpos Hstop Hs Hnew. unfold _maybe_update_sl. rewrite Hstop, Hpos.
  cbn [need_num is_side].
  destruct (flt (fabs (round2 new_sl - s)) (Fin (1 # 100))); cbn [fst]; [auto|].
  pose proof (round2_not_nan _ Hnew) as Hr.
  destruct side; cbn [Side_eqb andb].
  - destruct (fle (round2 new_sl) s) eqn:E; cbn [fst]; [auto|].
    split; [exact Hpos|]. right. split; [reflexivity|].
    cbn. unfold fgt. apply fle_false_flt; assumption.
  - unfold fge. destruct (fle s (round2 new_sl)) eqn:E; cbn [fst]; [auto|].
    split; [exact Hpos|]. right. split; [reflexivity|].
    cbn. apply fle_false_flt; assumption.
Qed.

Lemma pick_candidate_better (better : fl -> fl -> bool) (a b stop c : fl) :
  pick_candidate better a b stop = Some c -> better c stop = true.
Proof.
  unfold pick_candidate. destruct (better a stop) eqn:Ea.
  - intros [= <-]. exact Ea.
  - destruct (better b stop) eqn:Eb; [|discriminate]. intros [= <-]. exact Eb.
Qed.

(** One tick of the manager on a record with a numeric stop. *)
Lemma check_and_update_sl_step (st : TradeState) (t : Tick) (s : fl) (side : Side) :
  position st = Some side -> stop_loss st = Some s -> isna s = false ->
  let st' := after_tick st t in
  position st' = Some side /\
  exists s', stop_loss st' = Some s' /\ isna s' = false /\
             (s' = s \/ strictly_better side s' s = true).
Proof.
  intros Hpos Hstop Hs.
  assert (Hkeep : position st = Some side /\
                  exists s', stop_loss st = Some s' /\ isna s' = false /\
                             (s' = s \/ strictly_better side s' s = true)).
  { split; [exact Hpos|]. exists s. auto. }
  assert (Hvia : forall new_sl, isna new_sl = false ->
            let st' := fst (_maybe_update_sl st (tick_time t) new_sl) in
            position st' = Some side /\
            exists s', stop_loss st' = Some s' /\ isna s' = false /\
                       (s' = s \/ strictly_better side s' s = true)).
  { intros new_sl Hn.
    destruct (maybe_update_sl_step st (tick_time t) new_sl s side Hpos Hstop Hs Hn)
      as [Hp [Heq|[Hst Hb]]]; cbv zeta.
    - rewrite Heq. exact Hkeep.
    - split; [exact Hp|]. exists (round2 new_sl).
      split; [exact Hst|]. split; [|right; exact Hb].
      apply round2_not_nan, Hn. }
  unfold after_tick, check_and_update_sl.
  destruct (_age_seconds st (tick_time t)) as [age|e]; cbn [fst]; [|exact Hkeep].
  destruct (age <? 120)%Z; cbn [fst]; [exact Hkeep|].
  destruct (need_num (target_price st)) as [target|e]; cbn [fst]; [|exact Hkeep].
  destruct (fle (fabs (tick_price t - target)) _) eqn:Enear.
  - apply Hvia. apply fle_not_nan in Enear. destruct Enear as [Hn _].
    apply fabs_fsub_not_nan in Hn.
    destruct (is_side (position st) BUY);
      [apply fsub_fin_not_nan|apply fadd_fin_not_nan]; exact Hn.
  - rewrite Hpos. destruct side; cbn [is_side Side_eqb].
    + unfold _handle_buy_sl.
      destruct (need_num (entry_price st)) as [entry|e]; cbn [rbind fst];
        [|exact Hkeep].
      destruct (_age_seconds st (tick_time t)) as [age'|e]; cbn [rbind fst];
        [|exact Hkeep].
      destruct (fge _ _); cbn [fst]; [|exact Hkeep].
      rewrite Hstop. cbn [need_num].
      destruct (pick_candidate fgt _ _ s) as [c|] eqn:Ec; cbn [fst]; [|exact Hkeep].
      destruct (truthy c); cbn [fst]; [|exact Hkeep].
      apply Hvia. apply pick_candidate_better in Ec.
      unfold fgt in Ec. apply flt_not_nan in Ec. tauto.
    + unfold _handle_sell_sl.
      destruct (need_num (entry_price st)) as [entry|e]; cbn [rbind fst];
        [|exact Hkeep].
      destruct (_age_seconds st (tick_time t)) as [age'|e]; cbn [rbind fst];
        [|exact Hkeep].
      destruct (fge _ _); cbn [fst]; [|exact Hkeep].
      rewrite Hstop. cbn [need_num].
      destruct (pick_candidate flt _ _ s) as [c|] eqn:Ec; cbn [fst]; [|exact Hkeep].
      destruct (truthy c); cbn [fst]; [|exact Hkeep].
      apply Hvia. apply pick_candidate_better in Ec.
      apply flt_not_nan in Ec. tauto.
Qed.

(** Rounding to two decimals moves a number by at most half a cent. *)
Lemma round_half_even_bounds (q : Q) :
  (inject_Z (round_half_even q) - q <= 1 # 2)%Q /\
  (q - inject_Z (round_half_even q) <= 1 # 2)%Q.
Proof.
  unfold round_half_even.
  pose proof (Qfloor_le q) as Hlo. pose proof (Qlt_floor q) as Hhi.
  rewrite inject_Z_plus in Hhi.
  destruct (Qcompare_spec (q - inject_Z (Qfloor q)) (1 # 2)) as [E|E|E].
  - destruct (Z.even (Qfloor q)); [|rewrite inject_Z_plus];
      change (inject_Z 1) with 1%Q in *; lra.
  - change (inject_Z 1) with 1%Q in *; lra.
  - rewrite inject_Z_plus. change (inject_Z 1) with 1%Q in *. lra.
Qed.

Lemma round2Q_bounds (q : Q) :
  (round2Q q - q <= 1 # 200)%Q /\ (q - round2Q q <= 1 # 200)%Q.
Proof.
  destruct (round_half_even_bounds (q * 100)) as [H1 H2].
  unfold round2Q. rewrite Qmake_Qdiv.
  set (z := inject_Z (round_half_even (q * 100))) in *.
  change (inject_Z (Z.pos 100)) with 100%Q.
  unfold Qdiv. change (/ 100)%Q with (1 # 100)%Q.
  split; lra.
Qed.

(** A candidate that is not strictly more favourable than the current
    stop is not accepted, before or after rounding. *)
Lemma unfavourable_candidate_rejected (st : TradeState)
    (trade_date : option Timestamp) (candidate s : fl) (side : Side) :
  position st = Some side -> stop_loss st = Some s ->
  isna s = false -> isna candidate = false ->
  strictly_better side candidate s = false ->
  fst (_maybe_update_sl st trade_date candidate) = st.
Proof.
  intros Hpos Hstop Hs Hc Hworse. unfold _maybe_update_sl.
  rewrite Hstop, Hpos. cbn [need_num is_side].
  destruct (flt (fabs (round2 candidate - s)) (Fin (1 # 100))) eqn:Eclose;
    [reflexivity|].
  assert (Hrej : match side with
                 | BUY => fle (round2 candidate) s
                 | SELL => fge (round2 candidate) s
                 end = true).
  { destruct side, candidate as [| |c|], s as [| |s|];
      cbn [strictly_better fgt flt fle fge round2 fabs fsub fadd fneg isna]
        in Hc, Hs, Hworse, Eclose |- *; try congruence.
    - destruct (round2Q_bounds c) as [H1 H2]. q_reflect.
      revert Eclose. apply Qabs_case; intros; lra.
    - destruct (round2Q_bounds c) as [H1 H2]. q_reflect.
      revert Eclose. apply Qabs_case; intros; lra. }
  destruct side; cbn [Side_eqb andb]; rewrite Hrej; reflexivity.
Qed.

(** C2.  Along any sequence of ticks of [check_and_update_sl] on a
    trade with position BUY or SELL and a numeric stop, the stops of the
    trade record are numbers, the first is the initial stop, they never
    regress (each is at least every earlier one for BUY, at most every
    earlier one for SELL), and a tick that changes the stop changes it
    to a strictly more favourable value. *)
Theorem trailing_stop_never_regresses (side : Side) (ticks : list Tick)
    (st : TradeState) (s : fl) :
  position st = Some side -> stop_loss st = Some s -> isna s = false ->
  exists stops : list fl,
    map stop_loss (trajectory st ticks) = Some <$> stops /\
    head stops = Some s /\
    Forall (fun x => isna x = false) stops /\
    StronglySorted (no_worse side) stops /\
    (forall (i : nat) (a b : fl),
       stops !! i = Some a -> stops !! S i = Some b ->
       b = a \/ strictly_better side b a = true).
Proof.
  revert st s. induction ticks as [|t ticks IH]; intros st s Hpos Hstop Hs.
  - exists [s]. cbn. rewrite Hstop. repeat split.
    + constructor; [exact Hs|constructor].
    + constructor; constructor.
    + intros i a b _ Hb. destruct i; discriminate.
  - destruct (check_and_update_sl_step st t s side Hpos Hstop Hs)
      as (Hpos' & s' & Hstop' & Hs' & Hrel).
    destruct (IH _ _ Hpos' Hstop' Hs') as (stops & Hmap & Hhead & Hnum & Hsorted & Hstep).
    destruct stops as [|x stops]; [discriminate|]. injection Hhead as ->.
    assert (Hss' : no_worse side s s').
    { destruct Hrel as [->|Hb]; [apply no_worse_refl, Hs|].
      apply strictly_better_no_worse, Hb. }
    exists (s :: s' :: stops). cbn [trajectory map fmap list_fmap].
    rewrite Hstop. repeat split.
    + f_equal. exact Hmap.
    + constructor; assumption.
    + constructor; [exact Hsorted|].
      constructor; [exact Hss'|].
      apply StronglySorted_inv in Hsorted. destruct Hsorted as [_ Hall].
      eapply Forall_impl; [exact Hall|].
      cbn. intros y Hy. eapply no_worse_trans; eassumption.
    + intros i a b Ha Hb. destruct i as [|i].
      * cbn in Ha, Hb. injection Ha as <-. injection Hb as <-. exact Hrel.
      * cbn in Ha, Hb. eapply Hstep; eassumption.
Qed.

(** The theorem on four ticks of the long trade of the examples: the
    stop goes 21960, 21960, 22036, 22036, 22060. *)
Lemma trailing_stop_never_regresses_witness :
  exists stops : list fl,
    map stop_loss (trajectory example_long_state example_ticks) = Some <$> stops /\
    head stops = Some (Fin 21960) /\
    Forall (fun x => isna x = false) stops /\
    StronglySorted (no_worse BUY) stops /\
    (forall (i : nat) (a b : fl),
       stops !! i = Some a -> stops !! S i = Some b ->
       b = a \/ strictly_better BUY b a = true).
Proof.
  apply (trailing_stop_never_regresses BUY example_ticks example_long_state
           (Fin 21960)); reflexivity.
Defined.

Example example_trajectory :
  map stop_loss (trajectory example_long_state example_ticks)
  = [Some (Fin 21960); Some (Fin 21960); Some (Fin (2203600 # 100));
     Some (Fin (2203600 # 100)); Some (Fin (2206000 # 100))].
Proof. vm_compute. reflexivity. Qed.

End TrailingStop.

(* ===================================================================== *)
(** * Strategy levels *)
(* ===================================================================== *)

Module Levels.

Lemma set_where_outside (mask : list bool) (values col : list cell) (i : nat) :
  mask !! i <> Some true -> set_where mask values col !! i = col !! i.
Proof.
  revert values col i. induction mask as [|m mask IH]; intros values col i H.
  - reflexivity.
  - destruct values as [|v values], col as [|x col]; try reflexivity.
    destruct i as [|i]; cbn in *.
    + destruct m; [congruence|reflexivity].
    + apply IH, H.
Qed.

Lemma ORB_COLS_elem (c : string) :
  c ∈ ORB_COLS <->
  c = "orb_long_entry" \/ c = "orb_short_entry" \/ c = "orb_sl" \/ c = "orb_target".
Proof.
  unfold ORB_COLS. rewrite !elem_of_cons, elem_of_nil. tauto.
Qed.

Lemma not_orb_col (c : string) :
  c ∉ ORB_COLS <->
  c <> "orb_long_entry" /\ c <> "orb_short_entry" /\ c <> "orb_sl" /\ c <> "orb_target".
Proof. rewrite ORB_COLS_elem. tauto. Qed.

(** Columns the loop reads are not level columns. *)
Ltac not_level := apply not_orb_col; repeat split; discriminate.
Ltac level := apply ORB_COLS_elem; auto 6.

Lemma levels_only_refl (df : DataFrame) :
  (forall c, c ∈ ORB_COLS -> is_Some (columns df !! c)) -> levels_only df df.
Proof. intros H. unfold levels_only. auto. Qed.

Lemma levels_only_trans (df0 df1 df2 : DataFrame) :
  levels_only df0 df1 -> levels_only df1 df2 -> levels_only df0 df2.
Proof.
  intros (I1 & O1 & P1) (I2 & O2 & P2). unfold levels_only. repeat split.
  - congruence.
  - intros c Hc. rewrite O2, O1; auto.
  - exact P2.
Qed.

Lemma levels_only_numcol (df0 df : DataFrame) (c : string) :
  c ∉ ORB_COLS -> levels_only df0 df -> numcol df c = numcol df0 c.
Proof.
  intros Hc (_ & Hother & _). unfold numcol, getcol. rewrite (Hother c Hc).
  reflexivity.
Qed.

Lemma keeps_refl (mask : list bool) (df : DataFrame) :
  (forall c, c ∈ ORB_COLS -> is_Some (columns df !! c)) -> keeps mask df df.
Proof. intros H. split; [apply levels_only_refl, H|auto]. Qed.

(** Writing a level column under a mask keeps what [keeps] promises. *)
Lemma loc_set_keeps (mask : list bool) (df0 df : DataFrame) (c : string)
    (values : list cell) :
  c ∈ ORB_COLS -> keeps mask df0 df -> keeps mask df0 (loc_set df mask c values).
Proof.
  intros Hc ((Hidx & Hother & Hpresent) & Hcells).
  destruct (Hpresent c Hc) as [col Hcol].
  unfold loc_set. rewrite Hcol. cbn [default].
  unfold keeps, levels_only, setcol. cbn [index columns]. repeat split.
  - exact Hidx.
  - intros c' Hc'. rewrite lookup_insert_ne; [apply Hother, Hc'|].
    intros ->. contradiction.
  - intros c' Hc'. destruct (decide (c = c')) as [->|Hne].
    + rewrite lookup_insert_eq. eauto.
    + rewrite lookup_insert_ne by exact Hne. apply Hpresent, Hc'.
  - intros c' i Hi. unfold cell_at. cbn [columns].
    destruct (decide (c = c')) as [<-|Hne].
    + rewrite lookup_insert_eq. cbn. rewrite set_where_outside by exact Hi.
      specialize (Hcells c i Hi). unfold cell_at in Hcells.
      rewrite Hcol in Hcells. exact Hcells.
    + rewrite lookup_insert_ne by exact Hne. apply (Hcells c' i Hi).
Qed.

Lemma loc_set_scalar_keeps (mask : list bool) (df0 df : DataFrame) (c : string)
    (v : fl) :
  c ∈ ORB_COLS -> keeps mask df0 df -> keeps mask df0 (loc_set_scalar df mask c v).
Proof. apply loc_set_keeps. Qed.

(** One round of the per-day loop on a frame that has what the loop
    reads: it does not raise, it writes level cells of that day only,
    and on a day with a narrow opening range it writes nothing at all. *)
Lemma day_body_keeps (eb sf tf : fl) (adaptive : bool) (active : string)
    (src : DataFrame) (dates : list Timestamp) (d : Z) (df : DataFrame)
    (smap : gmap Z string) (high low atr : list fl) :
  numcol src "high" = Ok high -> numcol src "low" = Ok low ->
  numcol df "ATR" = Ok atr ->
  (forall c, c ∈ ORB_COLS -> is_Some (columns df !! c)) ->
  exists smap' df',
    day_body eb sf tf adaptive active src dates d df smap = (smap', Ok df') /\
    keeps (day_mask d dates) df df' /\
    (flt (morning_span d dates high low) (Fin 25) = true -> df' = df /\ smap' = smap).
Proof.
  intros Hh Hl Ha Hpresent. unfold day_body. rewrite Hh, Hl. cbn [rbind].
  pose proof (keeps_refl (day_mask d dates) df Hpresent) as K0.
  destruct (flt (morning_span d dates high low) (Fin 25)) eqn:Espan.
  - exists smap, df. auto.
  - destruct (String.eqb _ "ORB").
    + set (df1 := loc_set_scalar df _ "orb_long_entry" _).
      set (df2 := loc_set_scalar df1 _ "orb_short_entry" _).
      assert (K2 : keeps (day_mask d dates) df df2).
      { apply loc_set_scalar_keeps; [level|].
        apply loc_set_scalar_keeps; [level|exact K0]. }
      assert (Ha2 : numcol df2 "ATR" = Ok atr).
      { rewrite (levels_only_numcol df df2 "ATR" ltac:(not_level) (proj1 K2)).
        exact Ha. }
      rewrite Ha2. cbn [rbind].
      eexists _, _. split; [reflexivity|]. split; [|discriminate].
      apply loc_set_keeps; [level|].
      apply loc_set_keeps; [level|exact K2].
    + eexists _, _. split; [reflexivity|]. split; [|discriminate].
      unfold ORB_COLS. cbn [foldl].
      repeat (apply loc_set_scalar_keeps; [level|]).
      exact K0.
Qed.

Lemma day_mask_lookup (d : Z) (dates : list Timestamp) (i : nat) (t : Timestamp) :
  dates !! i = Some t -> day_mask d dates !! i = Some (date_of t =? d)%Z.
Proof.
  intros H. unfold day_mask.
  change (map ?f dates) with (f <$> dates).
  rewrite list_lookup_fmap, H. reflexivity.
Qed.

(** The loop over the days of a frame that has what the loop reads: it
    does not raise, it changes level columns only, and it leaves alone
    every cell of a row whose day has a narrow opening range. *)
Lemma day_loop_keeps (eb sf tf : fl) (adaptive : bool) (active : string)
    (src : DataFrame) (dates : list Timestamp) (high low atr : list fl)
    (days : list Z) (df0 df : DataFrame) (smap : gmap Z string) :
  numcol src "high" = Ok high -> numcol src "low" = Ok low ->
  numcol df0 "ATR" = Ok atr ->
  levels_only df0 df ->
  exists smap' df',
    day_loop (day_body eb sf tf adaptive active src dates) days df smap
    = (smap', Ok df') /\
    levels_only df0 df' /\
    forall (i : nat) (t : Timestamp),
      dates !! i = Some t ->
      flt (morning_span (date_of t) dates high low) (Fin 25) = true ->
      forall c, cell_at df' c i = cell_at df c i.
Proof.
  intros Hh Hl Ha. revert df smap.
  induction days as [|d days IH]; intros df smap K.
  - exists smap, df. cbn. auto.
  - cbn [day_loop].
    assert (Hadf : numcol df "ATR" = Ok atr).
    { rewrite (levels_only_numcol df0 df "ATR" ltac:(not_level) K). exact Ha. }
    destruct (day_body_keeps eb sf tf adaptive active src dates d df smap
                high low atr Hh Hl Hadf (proj2 (proj2 K)))
      as (smap1 & df1 & Hbody & (K1 & K1cells) & Hskip).
    rewrite Hbody.
    destruct (IH df1 smap1 (levels_only_trans _ _ _ K K1))
      as (smap2 & df2 & Hloop & K2 & Hcells).
    exists smap2, df2. split; [exact Hloop|]. split; [exact K2|].
    intros i t Ht Hnarrow c. rewrite (Hcells i t Ht Hnarrow c).
    destruct (Z.eqb_spec (date_of t) d) as [<-|Hne].
    + destruct (Hskip Hnarrow) as [-> _]. reflexivity.
    + apply K1cells. rewrite (day_mask_lookup d dates i t Ht).
      destruct (Z.eqb_spec (date_of t) d); congruence.
Qed.

Lemma datetimes_fmap (l : list Timestamp) : datetimes (TS <$> l) = Ok l.
Proof.
  unfold datetimes. induction l as [|x l IH]; cbn; [reflexivity|].
  rewrite IH. reflexivity.
Qed.

(** The frame after the default columns were added. *)
Lemma with_default_cols_lookup (df : DataFrame) (c : string) :
  columns (with_default_cols df) !! c
  = if decide (c ∈ ORB_COLS)
    then Some (default (replicate (nrows df) (Num NaN)) (columns df !! c))
    else columns df !! c.
Proof.
  unfold with_default_cols, ORB_COLS at 1. cbn [foldl].
  unfold default_col, setcol, nrows.
  destruct (decide (c ∈ ORB_COLS)) as [Hin|Hout].
  - apply ORB_COLS_elem in Hin.
    repeat (case_match; cbn [columns index] in * );
      destruct Hin as [-> | [-> | [-> | ->]]]; simplify_map_eq; reflexivity.
  - apply not_orb_col in Hout. destruct Hout as (H1 & H2 & H3 & H4).
    repeat (case_match; cbn [columns index] in * ); simplify_map_eq; reflexivity.
Qed.

Lemma with_default_cols_index (df : DataFrame) :
  index (with_default_cols df) = index df.
Proof.
  unfold with_default_cols, ORB_COLS. cbn [foldl]. unfold default_col, setcol.
  repeat (case_match; cbn [columns index] in * ); reflexivity.
Qed.

Lemma zero_orb_cols_lookup (df : DataFrame) (c : string) :
  c ∈ ORB_COLS ->
  columns (zero_orb_cols df) !! c = Some (replicate (nrows df) (Num (Fin 0))).
Proof.
  intros Hin. apply ORB_COLS_elem in Hin.
  unfold zero_orb_cols, ORB_COLS. cbn [foldl]. unfold setcol, nrows.
  cbn [columns index].
  destruct Hin as [-> | [-> | [-> | ->]]]; simplify_map_eq; reflexivity.
Qed.

Lemma zero_orb_cols_index (df : DataFrame) : index (zero_orb_cols df) = index df.
Proof. reflexivity. Qed.

(** The part of [assign_strategy_levels] before the final override, on
    a frame that has what the per-day loop reads. *)
Lemma levels_before_override (df : DataFrame) (eb sf tf : fl) (adaptive : bool)
    (active : string) (smap : gmap Z string) (dates : list Timestamp)
    (high low : list fl) :
  frame_ready df dates high low ->
  exists smap' mid,
    assign_strategy_levels df eb sf tf adaptive active smap
    = (smap', Ok (if String.eqb active "VWAP_REV" then zero_orb_cols mid else mid)) /\
    index mid = index df /\
    forall (i : nat) (t : Timestamp),
      dates !! i = Some t ->
      flt (morning_span (date_of t) dates high low) (Fin 25) = true ->
      forall c, c ∈ ORB_COLS ->
        cell_at mid c i
        = default (replicate (nrows df) (Num NaN)) (columns df !! c) !! i.
Proof.
  intros (Hdate & Hh & Hl & atr & Ha).
  assert (Hdef : forall c, c ∈ ORB_COLS ->
            columns (with_default_cols df) !! c
            = Some (default (replicate (nrows df) (Num NaN)) (columns df !! c))).
  { intros c Hc. rewrite with_default_cols_lookup.
    destruct (decide (c ∈ ORB_COLS)); [reflexivity|contradiction]. }
  assert (Hsame : forall c, c ∉ ORB_COLS ->
            columns (with_default_cols df) !! c = columns df !! c).
  { intros c Hc. rewrite with_default_cols_lookup.
    destruct (decide (c ∈ ORB_COLS)); [contradiction|reflexivity]. }
  unfold assign_strategy_levels.
  destruct (adaptive || String.eqb active "ORB").
  - unfold getcol. rewrite (Hsame "date" ltac:(not_level)), Hdate.
    cbn [rbind]. rewrite datetimes_fmap.
    set (df1 := with_default_cols df).
    set (df2 := setcol df1 "date_only" _).
    assert (Hcol2 : forall c, c <> "date_only" ->
              columns df2 !! c = columns df1 !! c).
    { intros c Hc. unfold df2, setcol. cbn [columns].
      rewrite lookup_insert_ne by congruence. reflexivity. }
    assert (Hnum2 : forall c, c <> "date_only" -> c ∉ ORB_COLS ->
              numcol df2 c = numcol df c).
    { intros c Hc Hc'. unfold numcol, getcol.
      rewrite (Hcol2 c Hc). unfold df1. rewrite (Hsame c Hc'). reflexivity. }
    assert (K : levels_only df2 df2).
    { apply levels_only_refl. intros c Hc.
      rewrite Hcol2; [unfold df1; rewrite (Hdef c Hc); eauto|].
      intros ->. apply ORB_COLS_elem in Hc.
      destruct Hc as [?|[?|[?|?]]]; discriminate. }
    destruct (day_loop_keeps eb sf tf adaptive active df2 dates high low atr
                (group_keys dates) df2 df2 smap) as (smap' & df3 & Hloop & K3 & Hcells).
    { rewrite Hnum2; [exact Hh|discriminate|not_level]. }
    { rewrite Hnum2; [exact Hl|discriminate|not_level]. }
    { rewrite Hnum2; [exact Ha|discriminate|not_level]. }
    { exact K. }
    rewrite Hloop. exists smap', (dropcol df3 "date_only").
    split; [reflexivity|]. split.
    + cbn [dropcol index]. destruct K3 as (Hi3 & _). rewrite Hi3.
      unfold df2, setcol.
      cbn [index]. apply with_default_cols_index.
    + intros i t Ht Hnarrow c Hc.
      assert (Hne : c <> "date_only").
      { intros ->. apply ORB_COLS_elem in Hc.
        destruct Hc as [?|[?|[?|?]]]; discriminate. }
      unfold cell_at at 1. cbn [dropcol columns].
      rewrite lookup_delete_ne by congruence.
      fold (cell_at df3 c i). rewrite (Hcells i t Ht Hnarrow c).
      unfold cell_at. rewrite (Hcol2 c Hne). unfold df1.
      rewrite (Hdef c Hc). reflexivity.
  - exists smap, (with_default_cols df). split; [reflexivity|].
    split; [apply with_default_cols_index|].
    intros i t _ _ c Hc. unfold cell_at. rewrite (Hdef c Hc). reflexivity.
Qed.





(** C10.  When the active strategy is VWAP_REV, on any frame in
    non-adaptive mode and on a frame that has the columns the per-day
    loop reads in adaptive mode, [assign_strategy_levels] returns a
    frame with the same rows whose four level columns are zero in every
    row, whatever the per-day loop assigned. *)
Theorem vwap_rev_zeroes_levels (df : DataFrame) (eb sf tf : fl)
    (adaptive : bool) (smap : gmap Z string) :
  (adaptive = true -> exists dates high low, frame_ready df dates high low) ->
  exists smap' out,
    assign_strategy_levels df eb sf tf adaptive "VWAP_REV" smap = (smap', Ok out) /\
    index out = index df /\
    forall c, c ∈ ORB_COLS ->
      columns out !! c = Some (replicate (nrows df) (Num (Fin 0))).
Proof.
  intros Hready. destruct adaptive.
  - destruct (Hready eq_refl) as (dates & high & low & Hr).
    destruct (levels_before_override df eb sf tf true "VWAP_REV" smap dates
                high low Hr) as (smap' & mid & Hrun & Hidx & _).
    cbn [String.eqb Ascii.eqb Bool.eqb] in Hrun.
    eexists _, _. split; [exact Hrun|]. split.
    + rewrite zero_orb_cols_index. exact Hidx.
    + intros c Hc. rewrite (zero_orb_cols_lookup mid c Hc).
      unfold nrows. rewrite Hidx. reflexivity.
  - unfold assign_strategy_levels. cbn [orb String.eqb Ascii.eqb Bool.eqb].
    eexists _, _. split; [reflexivity|]. split.
    + rewrite zero_orb_cols_index. apply with_default_cols_index.
    + intros c Hc. rewrite (zero_orb_cols_lookup _ c Hc).
      unfold nrows. rewrite with_default_cols_index. reflexivity.
Qed.




(** On that session the breakout evaluator has nothing to propose. *)
Example quiet_session_no_breakout :
  match snd (assigned quiet_frame false "ORB") with
  | Ok out =>
      forallb (fun i => match iloc out i with
                        | Ok row => negb (d_valid (ORB_evaluate row))
                        | Raise _ => false
                        end) (seq 0 15) = true
  | Raise _ => False
  end.
Proof. vm_compute. reflexivity. Qed.

Lemma lively_frame_ready :
  exists dates high low, frame_ready lively_frame dates high low.
Proof.
  eexists _, _, _. unfold frame_ready. repeat split; try (vm_compute; reflexivity).
  eexists. vm_compute. reflexivity.
Qed.

(** The theorem on the lively session in adaptive mode. *)
Lemma vwap_rev_zeroes_levels_witness :
  exists smap' out,
    assigned lively_frame true "VWAP_REV" = (smap', Ok out) /\
    columns out !! "orb_long_entry" = Some (replicate 15 (Num (Fin 0))).
Proof.
  destruct (vwap_rev_zeroes_levels lively_frame (Fin 5) (Fin (15 # 10)) (Fin 4)
              true ∅ (fun _ => lively_frame_ready))
    as (smap' & out & Hrun & _ & Hcols).
  exists smap', out. split; [exact Hrun|].
  apply (Hcols "orb_long_entry"). level.
Defined.

(** On the lively session the adaptive loop picks the breakout strategy
    and assigns a long entry of 154 to every bar; with VWAP_REV as the
    active strategy the same call ends with zeros. *)
Example lively_levels_overwritten :
  (match snd (assigned lively_frame true "ORB") with
   | Ok out => columns out !! "orb_long_entry"
   | Raise _ => None
   end) = Some (replicate 15 (Num (Fin 154))) /\
  fst (assigned lively_frame true "VWAP_REV") !! 20000%Z = Some "ORB" /\
  (match snd (assigned lively_frame true "VWAP_REV") with
   | Ok out => columns out !! "orb_long_entry"
   | Raise _ => None
   end) = Some (replicate 15 (Num (Fin 0))).
Proof. repeat split; vm_compute; reflexivity. Qed.

End Levels.

(* ===================================================================== *)
(** * Indicators *)
(* ===================================================================== *)

Module Indicators.

Lemma columns_setnum (df : DataFrame) (k : string) (v : list fl) :
  columns (setnum df k v) = <[k := Num <$> v]> (columns df).
Proof. reflexivity. Qed.

Lemma index_setnum (df : DataFrame) (k : string) (v : list fl) :
  index (setnum df k v) = index df.
Proof. reflexivity. Qed.

Lemma numcol_setnum_ne (df : DataFrame) (k c : string) (v : list fl) :
  k <> c -> numcol (setnum df k v) c = numcol df c.
Proof.
  intros H. unfold numcol, getcol. rewrite columns_setnum.
  rewrite lookup_insert_ne by exact H. reflexivity.
Qed.

(** With numeric price columns the function returns, and what it
    returns is [indicator_frame]. *)
Lemma add_technical_indicators_eq (df : DataFrame) (open high low close : list fl) :
  numcol df "open" = Ok open -> numcol df "high" = Ok high ->
  numcol df "low" = Ok low -> numcol df "close" = Ok close ->
  add_technical_indicators df = Ok (indicator_frame df open high low close).
Proof.
  intros Ho Hh Hl Hc. unfold add_technical_indicators, indicator_frame.
  repeat (rewrite ?numcol_setnum_ne by discriminate;
          rewrite ?Ho, ?Hh, ?Hl, ?Hc; cbn [rbind]).
  reflexivity.
Qed.

Lemma indicator_frame_index (df : DataFrame) (open high low close : list fl) :
  index (indicator_frame df open high low close) = index df.
Proof. unfold indicator_frame. rewrite !index_setnum. reflexivity. Qed.

(** The columns of [indicator_frame]: eleven insertions. *)
Lemma indicator_frame_columns (df : DataFrame) (open high low close : list fl) :
  columns (indicator_frame df open high low close)
  = <["prev_close" := Num <$> shift 1 close]>
      (<["VWAP_REV" := Num <$> VWAP_REV_of high low close]>
      (<["MACD" := Num <$> MACD_of close]>
      (<["ATR" := Num <$> ATR_of high low]>
      (<["RSI14" := Num <$> RSI14_of close]>
      (<["EMA20" := Num <$> ewm_mean 20 close]>
      (<["EMA5" := Num <$> ewm_mean 5 close]>
      (<["close_prev_2" := Num <$> shift 2 close]>
      (<["open_prev_2" := Num <$> shift 2 open]>
      (<["close_prev_1" := Num <$> shift 1 close]>
      (<["open_prev_1" := Num <$> shift 1 open]> (columns df))))))))))).
Proof. unfold indicator_frame. rewrite !columns_setnum. reflexivity. Qed.

Lemma indicator_frame_numcol (df : DataFrame) (open high low close : list fl)
    (c : string) :
  c ∉ DERIVED_COLS ->
  columns (indicator_frame df open high low close) !! c = columns df !! c.
Proof.
  intros H. unfold DERIVED_COLS in H. rewrite !not_elem_of_cons in H.
  rewrite indicator_frame_columns.
  rewrite !lookup_insert_ne; [reflexivity|intros E; symmetry in E; tauto..].
Qed.

Lemma DataFrame_eq (a b : DataFrame) :
  index a = index b -> columns a = columns b -> a = b.
Proof. destruct a, b. cbn. intros -> ->. reflexivity. Qed.

(** Writing the derived columns a second time changes nothing. *)
Lemma indicator_frame_twice (df : DataFrame) (open high low close : list fl) :
  indicator_frame (indicator_frame df open high low close) open high low close
  = indicator_frame df open high low close.
Proof.
  apply DataFrame_eq.
  - rewrite !indicator_frame_index. reflexivity.
  - rewrite indicator_frame_columns.
    rewrite (indicator_frame_columns df).
    apply map_eq. intros k. rewrite !lookup_insert.
    repeat (destruct (decide (_ = k)); [reflexivity|]). reflexivity.
Qed.

Lemma shift_length (n : nat) (l : list fl) : length (shift n l) = length l.
Proof.
  unfold shift. rewrite length_take, length_app, length_replicate. lia.
Qed.

Lemma rolling_mean_length (w : nat) (l : list fl) :
  length (rolling_mean w l) = length l.
Proof. unfold rolling_mean. rewrite length_map, length_seq. reflexivity. Qed.

Lemma ewm_run_length (alpha : fl) (st : fl * fl) (l : list fl) :
  length (ewm_run alpha st l) = length l.
Proof.
  revert st. induction l as [|x l IH]; intros st; cbn; [reflexivity|].
  rewrite IH. reflexivity.
Qed.

Lemma ewm_mean_length (span : Z) (l : list fl) :
  length (ewm_mean span l) = length l.
Proof.
  unfold ewm_mean. destruct l; cbn; [reflexivity|].
  rewrite ewm_run_length. reflexivity.
Qed.

Lemma ffill_from_length (last : fl) (l : list fl) :
  length (ffill_from last l) = length l.
Proof.
  revert last. induction l as [|x l IH]; intros last; cbn; [reflexivity|].
  rewrite IH. reflexivity.
Qed.

Lemma pct_change_length (l : list fl) : length (pct_change l) = length l.
Proof.
  unfold pct_change. rewrite length_zip_with, shift_length, ffill_from_length. lia.
Qed.

(** Every derived column has one value per bar. *)
Lemma indicator_frame_lengths (df : DataFrame) (open high low close : list fl)
    (n : nat) (c : string) :
  length open = n -> length high = n -> length low = n -> length close = n ->
  c ∈ DERIVED_COLS ->
  exists col, columns (indicator_frame df open high low close) !! c = Some col /\
              length col = n.
Proof.
  intros Ho Hh Hl Hc Hin. unfold DERIVED_COLS in Hin.
  rewrite !elem_of_cons, elem_of_nil in Hin.
  rewrite indicator_frame_columns.
  repeat (destruct Hin as [->|Hin]); try contradiction;
    simplify_map_eq; eexists; (split; [reflexivity|]);
    rewrite length_fmap;
    unfold RSI14_of, ATR_of, MACD_of, VWAP_REV_of;
    rewrite ?length_map, ?length_zip_with, ?rolling_mean_length, ?length_map,
      ?length_zip_with, ?pct_change_length, ?shift_length, ?ewm_mean_length; lia.
Qed.

(** C9.  On a frame with numeric open, high, low and close columns
    [add_technical_indicators] returns a frame with the same index (the
    same rows in the same order) in which every column other than the
    eleven derived ones is the input column, each derived column has
    one value per row, and applying the function to its own output
    returns that output. *)
Theorem add_technical_indicators_idempotent (df : DataFrame)
    (open high low close : list fl) :
  numcol df "open" = Ok open -> numcol df "high" = Ok high ->
  numcol df "low" = Ok low -> numcol df "close" = Ok close ->
  exists out,
    add_technical_indicators df = Ok out /\
    index out = index df /\
    (forall c, c ∉ DERIVED_COLS -> columns out !! c = columns df !! c) /\
    (length open = nrows df -> length high = nrows df ->
     length low = nrows df -> length close = nrows df ->
     forall c, c ∈ DERIVED_COLS ->
       exists col, columns out !! c = Some col /\ length col = nrows out) /\
    add_technical_indicators out = Ok out.
Proof.
  intros Ho Hh Hl Hc. exists (indicator_frame df open high low close).
  split; [apply add_technical_indicators_eq; assumption|].
  split; [reflexivity|].
  split; [intros c; apply indicator_frame_numcol|].
  split; [intros; apply indicator_frame_lengths; assumption|].
  assert (Hbase : forall c l, c ∉ DERIVED_COLS -> numcol df c = Ok l ->
            numcol (indicator_frame df open high low close) c = Ok l).
  { intros c l Hout H. unfold numcol, getcol in *.
    rewrite (indicator_frame_numcol df open high low close c Hout). exact H. }
  assert (Hnot : forall c, c ∈ ["open"; "high"; "low"; "close"] -> c ∉ DERIVED_COLS).
  { intros c Hin. rewrite !elem_of_cons, elem_of_nil in Hin.
    unfold DERIVED_COLS. rewrite !not_elem_of_cons.
    repeat (destruct Hin as [->|Hin]); try contradiction;
      repeat split; try discriminate; apply not_elem_of_nil. }
  rewrite (add_technical_indicators_eq _ open high low close).
  - rewrite indicator_frame_twice. reflexivity.
  - apply Hbase; [apply Hnot; set_solver|exact Ho].
  - apply Hbase; [apply Hnot; set_solver|exact Hh].
  - apply Hbase; [apply Hnot; set_solver|exact Hl].
  - apply Hbase; [apply Hnot; set_solver|exact Hc].
Qed.

(** The theorem on the fifteen bars of the examples. *)
Lemma add_technical_indicators_idempotent_witness :
  exists out,
    add_technical_indicators spike_bars_frame = Ok out /\
    index out = index spike_bars_frame /\
    add_technical_indicators out = Ok out.
Proof.
  destruct (add_technical_indicators_idempotent spike_bars_frame _ _ _ _
              ltac:(vm_compute; reflexivity) ltac:(vm_compute; reflexivity)
              ltac:(vm_compute; reflexivity) ltac:(vm_compute; reflexivity))
    as (out & H1 & H2 & _ & _ & H3).
  exists out. auto.
Defined.

End Indicators.


(* ===================================================================== *)
(** * More on the trailing stop *)
(* ===================================================================== *)

Module TrailingMore.
Import SLManager.

(** How a call of [_maybe_update_sl] ends: the record untouched, or the
    rounded stop written together with the update time, and then the
    [TypeError] of [TradeWinUtils()]. *)
Lemma maybe_update_sl_outcome (st : TradeState) (trade_date : option Timestamp)
    (new_sl : fl) :
  (fst (_maybe_update_sl st trade_date new_sl) = st /\
   snd (_maybe_update_sl st trade_date new_sl) <> Raise TradeWinUtils_no_config) \/
  (exists old,
     stop_loss st = Some old /\
     flt (fabs (round2 new_sl - old)) (Fin (1 # 100)) = false /\
     _maybe_update_sl st trade_date new_sl
     = (set_last_sl_update_time (set_stop_loss st (Some (round2 new_sl))) trade_date,
        Raise TradeWinUtils_no_config)).
Proof.
  unfold _maybe_update_sl. destruct (stop_loss st) as [old|] eqn:Hs; cbn [need_num].
  - destruct (flt (fabs (round2 new_sl - old)) (Fin (1 # 100))) eqn:E1;
      [left; split; [reflexivity|discriminate]|].
    destruct (is_side (position st) BUY && fle (round2 new_sl) old);
      [left; split; [reflexivity|discriminate]|].
    destruct (is_side (position st) SELL && fge (round2 new_sl) old);
      [left; split; [reflexivity|discriminate]|].
    right. exists old. auto.
  - left. split; [reflexivity|]. unfold TradeWinUtils_no_config. discriminate.
Qed.

(** How a tick of [check_and_update_sl] ends. *)
Lemma check_and_update_sl_outcome (st : TradeState) (trade_date : option Timestamp)
    (price atr : fl) :
  (fst (check_and_update_sl st trade_date price atr) = st /\
   snd (check_and_update_sl st trade_date price atr) <> Raise TradeWinUtils_no_config) \/
  (exists old new,
     stop_loss st = Some old /\
     flt (fabs (new - old)) (Fin (1 # 100)) = false /\
     check_and_update_sl st trade_date price atr
     = (set_last_sl_update_time (set_stop_loss st (Some new)) trade_date,
        Raise TradeWinUtils_no_config)).
Proof.
  assert (Hstay : forall r : result unit,
            r <> Raise TradeWinUtils_no_config ->
            (fst (st, r) = st /\ snd (st, r) <> Raise TradeWinUtils_no_config) \/
            (exists old new,
               stop_loss st = Some old /\
               flt (fabs (new - old)) (Fin (1 # 100)) = false /\
               (st, r)
               = (set_last_sl_update_time (set_stop_loss st (Some new)) trade_date,
                  Raise TradeWinUtils_no_config))).
  { intros r Hr. left. split; [reflexivity|exact Hr]. }
  assert (Hvia : forall new_sl,
            (fst (_maybe_update_sl st trade_date new_sl) = st /\
             snd (_maybe_update_sl st trade_date new_sl)
             <> Raise TradeWinUtils_no_config) \/
            (exists old new,
               stop_loss st = Some old /\
               flt (fabs (new - old)) (Fin (1 # 100)) = false /\
               _maybe_update_sl st trade_date new_sl
               = (set_last_sl_update_time (set_stop_loss st (Some new)) trade_date,
                  Raise TradeWinUtils_no_config))).
  { intros new_sl.
    destruct (maybe_update_sl_outcome st trade_date new_sl)
      as [H|(old & Ho & Hstep & Heq)]; [left; exact H|].
    right. exists old, (round2 new_sl). auto. }
  assert (Hraise : forall e, need_num (@None fl) = Raise e ->
                             Raise (A:=unit) e <> Raise TradeWinUtils_no_config).
  { intros e [= <-]. unfold TradeWinUtils_no_config. discriminate. }
  unfold check_and_update_sl.
  destruct (_age_seconds st trade_date) as [age|e] eqn:Eage.
  2:{ apply Hstay. unfold _age_seconds in Eage.
      destruct (entry_time st), trade_date; try discriminate.
      unfold total_seconds_between in Eage.
      destruct (tzoff t0), (tzoff t); try discriminate;
        injection Eage as <-; unfold TradeWinUtils_no_config; discriminate. }
  destruct (age <? 120)%Z; [apply Hstay; discriminate|].
  destruct (target_price st) as [target|] eqn:Etarget; cbn [need_num];
    [|apply Hstay; unfold TradeWinUtils_no_config; discriminate].
  destruct (fle _ _); [apply Hvia|].
  destruct (is_side (position st) BUY).
  - unfold _handle_buy_sl.
    destruct (entry_price st) as [entry|]; cbn [need_num rbind];
      [|apply Hstay; unfold TradeWinUtils_no_config; discriminate].
    rewrite Eage. cbn [rbind].
    destruct (fge _ _); [|apply Hstay; discriminate].
    destruct (stop_loss st) as [stop|] eqn:Es; cbn [need_num];
      [|apply Hstay; unfold TradeWinUtils_no_config; discriminate].
    destruct (pick_candidate _ _ _ _) as [c|]; [|apply Hstay; discriminate].
    destruct (truthy c); [apply Hvia|apply Hstay; discriminate].
  - destruct (is_side (position st) SELL); [|apply Hstay; discriminate].
    unfold _handle_sell_sl.
    destruct (entry_price st) as [entry|]; cbn [need_num rbind];
      [|apply Hstay; unfold TradeWinUtils_no_config; discriminate].
    rewrite Eage. cbn [rbind].
    destruct (fge _ _); [|apply Hstay; discriminate].
    destruct (stop_loss st) as [stop|] eqn:Es; cbn [need_num];
      [|apply Hstay; unfold TradeWinUtils_no_config; discriminate].
    destruct (pick_candidate _ _ _ _) as [c|]; [|apply Hstay; discriminate].
    destruct (truthy c); [apply Hvia|apply Hstay; discriminate].
Qed.

(** X1.  A tick of the trailing stop-loss manager that returns normally
    has left the trade record exactly as it was: every tick that moves
    the stop ends in the [TypeError] raised by [TradeWinUtils()], which
    [_maybe_update_sl] calls without the configuration its constructor
    requires, after the new stop is already written. *)
Theorem sl_update_always_raises (st : TradeState) (trade_date : option Timestamp)
    (price atr : fl) :
  (snd (check_and_update_sl st trade_date price atr) = Ok tt ->
   fst (check_and_update_sl st trade_date price atr) = st) /\
  (fst (check_and_update_sl st trade_date price atr) <> st ->
   snd (check_and_update_sl st trade_date price atr)
   = Raise TradeWinUtils_no_config).
Proof.
  destruct (check_and_update_sl_outcome st trade_date price atr)
    as [[Hst Hr]|(old & new & _ & _ & Heq)].
  - split; [intros _; exact Hst|intros H; contradiction].
  - rewrite Heq. cbn. split; [discriminate|reflexivity].
Qed.

(** X2.  A tick writes nothing but the stop and the time of its update:
    the record it leaves is the one it received or that record with a
    new [stop_loss] (at least a cent away from the old one) and
    [last_sl_update_time] set to the time of the tick; entry, target,
    position, quantity, identifiers and exit bookkeeping are never
    touched. *)
Theorem sl_tick_writes_only_stop (st : TradeState) (trade_date : option Timestamp)
    (price atr : fl) :
  let st' := fst (check_and_update_sl st trade_date price atr) in
  st' = st \/
  exists old new,
    stop_loss st = Some old /\
    flt (fabs (new - old)) (Fin (1 # 100)) = false /\
    st' = mkState (Some new) (trade_direction st) trade_date (last_exit_time st)
                  (last_exit_price st) (trade_id st) (strategy st) (open_trade st)
                  (entry_time st) (target_price st) (entry_price st) (position st)
                  (date st) (qty st) (trade_type st) (checked_post_entry st).
Proof.
  cbv zeta.
  destruct (check_and_update_sl_outcome st trade_date price atr)
    as [[Hst _]|(old & new & Ho & Hstep & Heq)]; [left; exact Hst|].
  right. exists old, new. rewrite Heq. auto.
Qed.

(** Where a moved stop comes from: the rounded value of a stop placed
    30 points, 0.6 ATR or the fallback distance away from the price. *)
Lemma moved_stop_candidates (st : TradeState) (trade_date : option Timestamp)
    (price atr : fl) (side : Side) :
  position st = Some side ->
  fst (check_and_update_sl st trade_date price atr) <> st ->
  exists distance,
    stop_loss (fst (check_and_update_sl st trade_date price atr))
    = Some (round2 (stop_at side price distance)) /\
    (distance = Fin 30 \/ distance = (atr * Fin (6 # 10))%fl \/
     exists age, distance = fallback_distance age atr).
Proof.
  intros Hpos.
  assert (Hvia : forall distance,
            (distance = Fin 30 \/ distance = (atr * Fin (6 # 10))%fl \/
             exists age, distance = fallback_distance age atr) ->
            fst (_maybe_update_sl st trade_date (stop_at side price distance)) <> st ->
            exists d0,
              stop_loss (fst (_maybe_update_sl st trade_date
                                (stop_at side price distance)))
              = Some (round2 (stop_at side price d0)) /\
              (d0 = Fin 30 \/ d0 = (atr * Fin (6 # 10))%fl \/
               exists age, d0 = fallback_distance age atr)).
  { intros distance Hd Hch. exists distance. split; [|exact Hd].
    destruct (maybe_update_sl_outcome st trade_date (stop_at side price distance))
      as [[Hst _]|(old & _ & _ & Heq)]; [contradiction|].
    rewrite Heq. reflexivity. }
  unfold check_and_update_sl.
  destruct (_age_seconds st trade_date) as [age|e] eqn:Eage; cbn [fst];
    [|congruence].
  destruct (age <? 120)%Z; cbn [fst]; [congruence|].
  destruct (need_num (target_price st)) as [target|e]; cbn [fst]; [|congruence].
  rewrite Hpos. destruct (fle _ _).
  - destruct side; cbn [is_side Side_eqb]; apply (Hvia (Fin 30)); auto.
  - destruct side; cbn [is_side Side_eqb].
    + unfold _handle_buy_sl.
      destruct (need_num (entry_price st)) as [entry|e]; cbn [rbind fst];
        [|congruence].
      rewrite Eage. cbn [rbind].
      destruct (fge _ _); cbn [fst]; [|congruence].
      destruct (need_num (stop_loss st)) as [stop|e]; cbn [fst]; [|congruence].
      unfold pick_candidate.
      destruct (fgt (price - atr * Fin (6 # 10)) stop).
      * destruct (truthy _); cbn [fst]; [|congruence].
        apply (Hvia (atr * Fin (6 # 10))%fl). auto.
      * destruct (fgt (price - fallback_distance age atr) stop); cbn [fst];
          [|congruence].
        destruct (truthy _); cbn [fst]; [|congruence].
        apply (Hvia (fallback_distance age atr)). eauto.
    + unfold _handle_sell_sl.
      destruct (need_num (entry_price st)) as [entry|e]; cbn [rbind fst];
        [|congruence].
      rewrite Eage. cbn [rbind].
      destruct (fge _ _); cbn [fst]; [|congruence].
      destruct (need_num (stop_loss st)) as [stop|e]; cbn [fst]; [|congruence].
      unfold pick_candidate.
      destruct (flt (price + atr * Fin (6 # 10)) stop).
      * destruct (truthy _); cbn [fst]; [|congruence].
        apply (Hvia (atr * Fin (6 # 10))%fl). auto.
      * destruct (flt (price + fallback_distance age atr) stop); cbn [fst];
          [|congruence].
        destruct (truthy _); cbn [fst]; [|congruence].
        apply (Hvia (fallback_distance age atr)). eauto.
Qed.

(** X3.  With a finite price and an ATR of at least one cent, a stop
    moved by a tick lies strictly on the losing side of the price of
    that tick (below it for BUY, above it for SELL): a trailing update
    never places the stop where the same price would trigger it. *)
Theorem moved_stop_clear_of_price (st : TradeState)
    (trade_date : option Timestamp) (price atr : Q) (side : Side) :
  position st = Some side ->
  (1 # 100 <= atr)%Q ->
  fst (check_and_update_sl st trade_date (Fin price) (Fin atr)) <> st ->
  exists stop : Q,
    stop_loss (fst (check_and_update_sl st trade_date (Fin price) (Fin atr)))
    = Some (Fin stop) /\
    match side with
    | BUY => (stop < price)%Q
    | SELL => (price < stop)%Q
    end.
Proof.
  intros Hpos Hatr Hch.
  destruct (moved_stop_candidates st trade_date (Fin price) (Fin atr) side Hpos Hch)
    as (distance & Hstop & Hd).
  assert (Hdist : exists d : Q, distance = Fin d /\ (1 # 200 < d)%Q).
  { destruct Hd as [->|[->|[age ->]]].
    - exists 30%Q. split; [reflexivity|lra].
    - eexists. split; [reflexivity|]. lra.
    - unfold fallback_distance.
      destruct (1800 <? age)%Z; [|exists atr; split; [reflexivity|lra]].
      unfold py_min. cbn [flt].
      destruct (Qlt_bool atr 50) eqn:E; [exists atr; split; [reflexivity|lra]|].
      exists 50%Q. split; [reflexivity|lra]. }
  destruct Hdist as (d & -> & Hd1).
  rewrite Hstop.
  destruct side; cbn [stop_at fsub fadd fneg round2].
  - eexists. split; [reflexivity|].
    destruct (TrailingStop.round2Q_bounds (price + - d)) as [H1 H2]. lra.
  - eexists. split; [reflexivity|].
    destruct (TrailingStop.round2Q_bounds (price + d)) as [H1 H2]. lra.
Qed.

End TrailingMore.

(** The theorem on the second tick of the long trade of the examples:
    the stop moves to 22036, below the price of 22060. *)
Lemma moved_stop_clear_of_price_witness :
  exists stop : Q,
    stop_loss (fst (SLManager.check_and_update_sl example_long_state
                      (Some (ist 300)) (Fin 22060) (Fin 40)))
    = Some (Fin stop) /\ (stop < 22060)%Q.
Proof.
  apply (TrailingMore.moved_stop_clear_of_price example_long_state
           (Some (ist 300)) 22060 40 BUY).
  - reflexivity.
  - vm_compute. discriminate.
  - vm_compute. discriminate.
Defined.

(* ===================================================================== *)
(** * Entering and leaving a trade *)
(* ===================================================================== *)

Module Lifecycle.
Import TradeExecutor Exit.

Lemma insert_sorted_elem (x y : fl) (l : list fl) :
  y ∈ insert_sorted x l -> y = x \/ y ∈ l.
Proof.
  induction l as [|z l IH]; cbn.
  - rewrite list_elem_of_singleton. auto.
  - destruct (flt x z).
    + rewrite !elem_of_cons. tauto.
    + rewrite !elem_of_cons. intros [->|H]; [auto|].
      destruct (IH H); auto.
Qed.

Lemma sorted_elem (y : fl) (l : list fl) : y ∈ sorted l -> y ∈ l.
Proof.
  unfold sorted. induction l as [|x l IH]; cbn; [auto|].
  intros H. apply insert_sorted_elem in H. rewrite elem_of_cons.
  destruct H; auto.
Qed.

Lemma fle_not_flt (a b : fl) : fle a b = true -> flt b a = false.
Proof.
  destruct a, b; simpl; try congruence. intros; q_reflect; lra.
Qed.

(** X4.  [_adjust_target_price] appends the sizing ATR ([self.atr], or
    20 when that is zero) to the history and, when that ATR is at least
    every ATR recorded before (in particular for the first trade, whose
    history is empty), uses the wide multiplier: the target is the entry
    price plus 2.5 ATR for BUY and minus 2.5 ATR for SELL. *)
Theorem target_is_wide_at_highest_atr (ex : TradeExecutor.t) (action : Side)
    (entry : fl) :
  entry_price (state ex) = Some entry ->
  isna (sizing_atr ex) = false ->
  (forall x, x ∈ atr_history ex -> fle x (sizing_atr ex) = true) ->
  atr_history (fst (_adjust_target_price ex action))
  = atr_history ex ++ [sizing_atr ex] /\
  snd (_adjust_target_price ex action)
  = Ok (match action with
        | BUY => (entry + Fin (25 # 10) * sizing_atr ex)%fl
        | SELL => (entry - Fin (25 # 10) * sizing_atr ex)%fl
        end).
Proof.
  intros Hentry Hnan Hmax. unfold _adjust_target_price. fold (sizing_atr ex).
  cbn [fst snd atr_history state]. split; [reflexivity|].
  rewrite Hentry. cbn [need_num rbind].
  set (history := atr_history ex ++ [sizing_atr ex]).
  assert (Hmed : flt (sizing_atr ex)
                     (default (sizing_atr ex)
                        (sorted history !! (length history / 2)%nat)) = false).
  { destruct (sorted history !! (length history / 2)%nat) as [m|] eqn:E; cbn.
    - apply fle_not_flt.
      apply list_elem_of_lookup_2, sorted_elem in E.
      unfold history in E. rewrite elem_of_app, list_elem_of_singleton in E.
      destruct E as [E| ->]; [apply Hmax, E|apply fle_refl, Hnan].
    - apply fle_not_flt, fle_refl, Hnan. }
  rewrite Hmed. destruct action; reflexivity.
Qed.

Lemma target_is_wide_at_highest_atr_witness :
  snd (_adjust_target_price example_executor BUY)
  = Ok (Fin 22000 + Fin (25 # 10) * Fin 40)%fl.
Proof.
  refine (proj2 (target_is_wide_at_highest_atr example_executor BUY (Fin 22000)
                   _ _ _)); try reflexivity.
  intros x Hx. cbn in Hx. apply elem_of_nil in Hx. contradiction.
Defined.

Lemma Qfloor_inject_Z (z : Z) : Qfloor (inject_Z z) = z.
Proof. apply Qfloor_Z. Qed.

(** A number of cents is its own rounding. *)
Lemma round2Q_cents (z : Z) : round2Q (z # 100) = (z # 100)%Q.
Proof.
  unfold round2Q. f_equal.
  assert (H : ((z # 100) * 100 == inject_Z z)%Q).
  { rewrite Qmake_Qdiv. change (inject_Z (Z.pos 100)) with 100%Q. field. }
  rewrite (round_half_even_comp _ _ H). unfold round_half_even.
  rewrite Qfloor_Z.
  assert (Hc : (inject_Z z - inject_Z z ?= 1 # 2)%Q = Lt).
  { generalize (inject_Z z). intros q.
    assert (E : (q - q == 0)%Q) by ring. rewrite E. reflexivity. }
  rewrite Hc. reflexivity.
Qed.

Lemma round2_idempotent (x : fl) : round2 (round2 x) = round2 x.
Proof.
  destruct x; cbn; try reflexivity. f_equal. unfold round2Q at 2.
  apply round2Q_cents.
Qed.

(** X5.  In paper-trading mode an order placed while no trade is open
    is accepted without raising.  The trade record then is open, with
    the new identifier and entry time, the entry price and the stop
    rounded to cents, direction, position and trade type all equal to
    the action, the quantity [TRADE_QTY * lots], and a target 1.8 or 2.5
    sizing ATRs away from the rounded entry on the winning side; the
    last-exit bookkeeping is kept.  The sizing ATR joins the history and
    exactly one trade record (not exited) is sent to the store. *)
Theorem place_order_opens_trade (ex : TradeExecutor.t) (now : Timestamp)
    (new_id : string) (trade_date : option Timestamp) (action : Side)
    (price stoploss : fl) (new_strategy : option string) (new_lots : Z) :
  default false (open_trade (state ex)) = false ->
  PAPER_TRADING (config ex) = true ->
  exists multiplier,
    (multiplier = Fin (18 # 10) \/ multiplier = Fin (25 # 10)) /\
    place_order ex now new_id trade_date action price stoploss new_strategy new_lots
    = (mk (config ex)
          (opened_state (state ex) now new_id trade_date action price stoploss
             (match action with
              | BUY => (round2 price + multiplier * sizing_atr ex)%fl
              | SELL => (round2 price - multiplier * sizing_atr ex)%fl
              end)
             new_strategy (TRADE_QTY (config ex) * new_lots))
          (atr ex) (atr_history ex ++ [sizing_atr ex]) (margins ex) new_lots
          (events ex ++ [RecordTrade (Some new_id) (Some action) (round2 price)
                                     (round2 stoploss) false new_strategy]),
       Ok tt).
Proof.
  intros Hflat Hpaper. unfold place_order.
  cbn [with_state state open_trade]. rewrite Hflat.
  unfold _update_trade_state, _adjust_target_price.
  cbn [with_state state atr atr_history config margins lots events entry_price
       need_num rbind].
  fold (sizing_atr ex).
  set (history := atr_history ex ++ [sizing_atr ex]).
  set (median := default (sizing_atr ex) (sorted history !! (length history / 2)%nat)).
  exists (if flt (sizing_atr ex) median then Fin (18 # 10) else Fin (25 # 10)).
  split; [destruct (flt _ _); auto|].
  unfold record_entry. 
  cbn [state entry_price stop_loss need_num rbind emit config atr atr_history
       margins lots events trade_id position strategy].
  rewrite Hpaper. cbn [with_state set_open_trade state config atr atr_history
                       margins lots events].
  rewrite !round2_idempotent.
  unfold opened_state. destruct action; reflexivity.
Qed.

Lemma place_order_opens_trade_witness :
  exists multiplier,
    (multiplier = Fin (18 # 10) \/ multiplier = Fin (25 # 10)) /\
    open_trade (state (fst (place_order flat_executor (ist 600) "t-1"
                              (Some (ist 600)) BUY (Fin 22000) (Fin 21960)
                              (Some "ORB") 1)))
    = Some true /\
    target_price (state (fst (place_order flat_executor (ist 600) "t-1"
                                (Some (ist 600)) BUY (Fin 22000) (Fin 21960)
                                (Some "ORB") 1)))
    = Some (round2 (Fin 22000) + multiplier * Fin 40)%fl.
Proof.
  destruct (place_order_opens_trade flat_executor (ist 600) "t-1" (Some (ist 600))
              BUY (Fin 22000) (Fin 21960) (Some "ORB") 1 eq_refl eq_refl)
    as (m & Hm & Heq).
  exists m. rewrite Heq. auto.
Defined.

(** What [exit_trade] does to an open trade whose entry price and stop
    are numbers. *)
Lemma exit_trade_open (ex : TradeExecutor.t) (now : Timestamp)
    (price entry stop : fl) :
  entry_price (state ex) = Some entry ->
  stop_loss (state ex) = Some stop ->
  default false (open_trade (state ex)) = true ->
  exists pnl,
    _calculate_pnl ex price = Ok pnl /\
    exit_trade ex now price
    = (mk (config ex) (exited_state now price) (atr ex) (atr_history ex)
          (margins ex + pnl)%fl (lots ex)
          (events ex ++ [RecordTrade (trade_id (state ex)) (position (state ex))
                                     (round2 entry) (round2 stop) true
                                     (strategy (state ex))]),
       Ok tt).
Proof.
  intros Hentry Hstop Hopen. unfold exit_trade. rewrite Hopen. cbn [negb].
  assert (Hpnl : exists pnl, _calculate_pnl ex price = Ok pnl).
  { unfold _calculate_pnl. rewrite Hentry. cbn [need_num rbind]. eauto. }
  destruct Hpnl as [pnl Hpnl]. exists pnl. split; [exact Hpnl|].
  rewrite Hpnl. unfold record_exit, add_margin.
  cbn [state config atr atr_history margins lots events].
  rewrite Hentry, Hstop. cbn [need_num rbind emit with_state state config atr
                              atr_history margins lots events].
  reflexivity.
Qed.

(** X6.  [exit_trade] on an open trade with a numeric entry price and
    stop returns normally and leaves the flat record: every field of the
    trade cleared ([entry_price], [stop_loss], direction and strategy to
    [None], target to 0, quantity to 0, [open_trade] to [False]), with
    [last_exit_price] the exit price and [last_exit_time] the time of
    the exit.  The net P&L is added to the margins and one exited trade
    record is sent to the store.  Without an open trade the call only
    logs a warning. *)
Theorem exit_trade_closes (ex : TradeExecutor.t) (now : Timestamp)
    (price entry stop : fl) :
  entry_price (state ex) = Some entry ->
  stop_loss (state ex) = Some stop ->
  (default false (open_trade (state ex)) = true ->
   exists pnl,
     _calculate_pnl ex price = Ok pnl /\
     exit_trade ex now price
     = (mk (config ex) (exited_state now price) (atr ex) (atr_history ex)
           (margins ex + pnl)%fl (lots ex)
           (events ex ++ [RecordTrade (trade_id (state ex)) (position (state ex))
                                      (round2 entry) (round2 stop) true
                                      (strategy (state ex))]),
        Ok tt)) /\
  (default false (open_trade (state ex)) = false ->
   exit_trade ex now price
   = (emit ex (Warning "No open trade to exit."), Ok tt)).
Proof.
  intros Hentry Hstop. split; intros Hopen.
  - apply (exit_trade_open ex now price entry stop); assumption.
  - unfold exit_trade. rewrite Hopen. reflexivity.
Qed.

Lemma exit_trade_closes_witness :
  exists pnl,
    _calculate_pnl example_executor (Fin 22050) = Ok pnl /\
    state (fst (exit_trade example_executor (ist 900) (Fin 22050)))
    = exited_state (ist 900) (Fin 22050) /\
    margins (fst (exit_trade example_executor (ist 900) (Fin 22050)))
    = (Fin 250000 + pnl)%fl.
Proof.
  destruct (proj1 (exit_trade_closes example_executor (ist 900) (Fin 22050)
                     (Fin 22000) (Fin 21960) eq_refl eq_refl) eq_refl)
    as (pnl & Hpnl & Heq).
  exists pnl. rewrite Heq. auto.
Defined.

(** X7.  After an exit the executor is in cooldown for exactly
    [COOLDOWN_MINUTES * 60] seconds: with the exit at clock reading
    [utc0], [in_cooldown] at reading [utc] is true exactly when
    [utc - utc0] is below that bound, whatever the time zone of the
    machine. *)
Theorem cooldown_after_exit (ex : TradeExecutor.t) (price entry stop : fl)
    (utc0 utc local_offset local_offset' : Z) :
  entry_price (state ex) = Some entry ->
  stop_loss (state ex) = Some stop ->
  default false (open_trade (state ex)) = true ->
  in_cooldown (fst (exit_trade ex (clock_now utc0 local_offset (Some kolkata)) price))
              utc local_offset'
  = (utc - utc0 <? COOLDOWN_MINUTES (config ex) * 60)%Z.
Proof.
  intros Hentry Hstop Hopen.
  destruct (exit_trade_open ex (clock_now utc0 local_offset (Some kolkata))
              price entry stop Hentry Hstop Hopen) as (pnl & _ & Heq).
  rewrite Heq. unfold in_cooldown, exited_state, clock_now, total_seconds_between.
  cbn. f_equal. lia.
Qed.

Lemma cooldown_after_exit_witness :
  in_cooldown (fst (exit_trade example_executor
                      (clock_now 1000 0 (Some kolkata)) (Fin 22050)))
              1299 0 = true /\
  in_cooldown (fst (exit_trade example_executor
                      (clock_now 1000 0 (Some kolkata)) (Fin 22050)))
              1300 0 = false.
Proof.
  rewrite !(cooldown_after_exit example_executor (Fin 22050) (Fin 22000)
              (Fin 21960) 1000 _ 0 0 eq_refl eq_refl eq_refl).
  split; reflexivity.
Defined.

Lemma round_half_even_mono (p q : Q) :
  (p <= q)%Q -> (round_half_even p <= round_half_even q)%Z.
Proof.
  intros Hpq. pose proof (Qfloor_resp_le _ _ Hpq) as Hf.
  pose proof (Qfloor_le p) as Hp1. pose proof (Qlt_floor p) as Hp2.
  pose proof (Qfloor_le q) as Hq1. pose proof (Qlt_floor q) as Hq2.
  assert (Hlo : forall x, (Qfloor x <= round_half_even x <= Qfloor x + 1)%Z).
  { intros x. unfold round_half_even.
    destruct (_ ?= _)%Q; [destruct (Z.even _)| |]; lia. }
  destruct (Z.eq_dec (Qfloor p) (Qfloor q)) as [E|E].
  - unfold round_half_even. rewrite E in *.
    destruct (Qcompare_spec (p - inject_Z (Qfloor q)) (1 # 2)) as [E1|E1|E1];
      destruct (Qcompare_spec (q - inject_Z (Qfloor q)) (1 # 2)) as [E2|E2|E2];
      try (destruct (Z.even (Qfloor q))); try lia; exfalso; lra.
  - pose proof (Hlo p). pose proof (Hlo q). lia.
Qed.

Lemma round2Q_mono (p q : Q) : (p <= q)%Q -> (round2Q p <= round2Q q)%Q.
Proof.
  intros H. unfold round2Q, Qle. cbn [Qnum Qden].
  apply Z.mul_le_mono_nonneg_r; [lia|].
  apply round_half_even_mono. lra.
Qed.

(** The costs [_calculate_pnl] subtracts are never negative. *)
Lemma net_pnl_bounds (ex : TradeExecutor.t) (entry exit : Q) :
  entry_price (state ex) = Some (Fin entry) ->
  (0 <= entry)%Q -> (0 <= exit)%Q -> (0 <= qty (state ex))%Z ->
  exists net : Q,
    _calculate_pnl ex (Fin exit) = Ok (Fin net) /\
    (net <= round2Q (gross_pnl (trade_direction (state ex)) entry exit
                               (qty (state ex))))%Q /\
    ((exit == entry)%Q -> (net <= 0)%Q).
Proof.
  intros Hentry He Hx Hq. unfold _calculate_pnl, gross_pnl.
  rewrite Hentry. unfold of_Z. cbv zeta. cbn [need_num rbind].
  set (q := inject_Z (qty (state ex))).
  assert (Hq0 : (0 <= q)%Q).
  { unfold q. change 0%Q with (inject_Z 0). rewrite <- Zle_Qle. exact Hq. }
  destruct (PnL.py_min_Qmin ((3 # 10000) * ((entry + exit) * q))) as (m & Hm & Hmq).
  cbn [fadd fmul fsub fneg] in *. rewrite Hm.
  assert (Hturn : (0 <= (entry + exit) * q)%Q).
  { apply Qmult_le_0_compat; lra. }
  assert (Hm0 : (0 <= m)%Q).
  { rewrite Hmq. apply Q.min_glb; lra. }
  assert (Hstt : (0 <= (25 # 100000) * exit * q)%Q).
  { apply Qmult_le_0_compat; [|exact Hq0]. lra. }
  assert (Hstamp : (0 <= (3 # 100000) * entry * q)%Q).
  { apply Qmult_le_0_compat; [|exact Hq0]. lra. }
  set (stt := if is_side (trade_type (state ex)) SELL
              then Fin ((25 # 100000) * exit * q) else Fin 0).
  set (stamp := if is_side (trade_type (state ex)) BUY
                then Fin ((3 # 100000) * entry * q) else Fin 0).
  assert (Hs1 : exists s1 : Q, stt = Fin s1 /\ (0 <= s1)%Q).
  { unfold stt. destruct (is_side _ SELL); eexists; split; try reflexivity; lra. }
  assert (Hs2 : exists s2 : Q, stamp = Fin s2 /\ (0 <= s2)%Q).
  { unfold stamp. destruct (is_side _ BUY); eexists; split; try reflexivity; lra. }
  destruct Hs1 as (s1 & -> & Hs1), Hs2 as (s2 & -> & Hs2).
  set (gross := if is_side (trade_direction (state ex)) SELL
                then ((entry - exit) * q)%Q else ((exit - entry) * q)%Q).
  assert (Hg : (if is_side (trade_direction (state ex)) SELL
                then Fin ((entry + - exit) * q) else Fin ((exit + - entry) * q))
               = Fin (if is_side (trade_direction (state ex)) SELL
                      then (entry + - exit) * q else (exit + - entry) * q)%Q).
  { destruct (is_side _ SELL); reflexivity. }
  rewrite Hg. cbn [fadd fmul fsub fneg round2].
  eexists. split; [reflexivity|].
  assert (Hle : forall g : Q,
            (round2Q (g + - (m * 2 + s1 + (18 # 100) * (m * 2)
                             + (1 # 1000000) * ((entry + exit) * q) + s2))
             <= round2Q g)%Q).
  { intros g. apply round2Q_mono. lra. }
  split.
  - unfold gross. destruct (is_side _ SELL); apply Hle.
  - intros Heq. eapply Qle_trans; [apply Hle|].
    assert (Hz : ((if is_side (trade_direction (state ex)) SELL
                   then (entry + - exit) * q else (exit + - entry) * q) == 0)%Q).
    { destruct (is_side _ SELL); rewrite Heq; ring. }
    rewrite (round2Q_comp _ _ Hz). vm_compute. discriminate.
Qed.

(** X8.  For non-negative prices and quantity the transaction costs are
    never negative: the net P&L [_calculate_pnl] returns is at most the
    gross P&L rounded to cents, so a trade closed at its entry price
    never shows a profit. *)
Theorem net_pnl_at_most_gross (ex : TradeExecutor.t) (entry exit : Q) :
  entry_price (state ex) = Some (Fin entry) ->
  (0 <= entry)%Q -> (0 <= exit)%Q -> (0 <= qty (state ex))%Z ->
  exists net : Q,
    _calculate_pnl ex (Fin exit) = Ok (Fin net) /\
    (net <= round2Q (gross_pnl (trade_direction (state ex)) entry exit
                               (qty (state ex))))%Q /\
    ((exit == entry)%Q -> (net <= 0)%Q).
Proof.
  apply net_pnl_bounds.
Qed.

Lemma net_pnl_at_most_gross_witness :
  exists net : Q,
    _calculate_pnl example_executor (Fin 22000) = Ok (Fin net) /\ (net <= 0)%Q.
Proof.
  destruct (net_pnl_at_most_gross example_executor 22000 22000 eq_refl)
    as (net & Hnet & _ & Hflat).
  - vm_compute. discriminate.
  - vm_compute. discriminate.
  - vm_compute. discriminate.
  - exists net. split; [exact Hnet|]. apply Hflat. reflexivity.
Defined.

(** X9.  The position multiplier of the polling loop does not depend on
    the configured quantity: for every non-zero [TRADE_QTY] it is
    [max(1, floor(margins / 250000))], hence at least 1 (a zero
    [TRADE_QTY] makes the expression divide by zero). *)
Theorem lot_multiplier_ignores_quantity (margins : Q) (trade_qty : Z) :
  trade_qty <> 0%Z ->
  exists n,
    lot_multiplier margins trade_qty = Some n /\
    n = Z.max 1 (Qfloor (margins / 250000)) /\
    (1 <= n)%Z /\
    lot_multiplier margins 0 = None.
Proof.
  unfold lot_multiplier. intros H.
  destruct (Z.eqb_spec trade_qty 0); [contradiction|].
  rewrite Z.div_same by exact H. rewrite Z.mul_1_r.
  eexists. split; [reflexivity|]. split; [reflexivity|]. split; [lia|reflexivity].
Qed.

Lemma lot_multiplier_ignores_quantity_witness :
  exists n, lot_multiplier 600000 25 = Some n /\ n = 2%Z.
Proof.
  destruct (lot_multiplier_ignores_quantity 600000 25 ltac:(discriminate))
    as (n & Hn & Hval & _).
  exists n. split; [exact Hn|]. rewrite Hval. reflexivity.
Defined.

(** Where the label of the entry bar is found in the index. *)
Lemma find_index_bound (t : Timestamp) (l : list Timestamp) (i : nat) :
  find_index t l = Some i -> (i < length l)%nat.
Proof.
  intros H. apply find_index_lookup in H. destruct H as [x Hx].
  apply lookup_lt_Some in Hx. exact Hx.
Qed.

Lemma find_index_none_copies (t : Timestamp) (l : list Timestamp) :
  find_index t l = None -> filter (fun x => ts_eqb t x = true) l = [].
Proof.
  induction l as [|x l IH]; [reflexivity|]. cbn [find_index].
  destruct (ts_eqb t x) eqn:E; [discriminate|].
  destruct (find_index t l); [discriminate|]. intros _.
  rewrite filter_cons_False by (rewrite E; discriminate). apply IH. reflexivity.
Qed.

Lemma find_index_some_copies (t : Timestamp) (l : list Timestamp) (i : nat) :
  find_index t l = Some i ->
  (1 <= length (filter (fun x => ts_eqb t x = true) l))%nat.
Proof.
  intros H.
  destruct (filter (fun x => ts_eqb t x = true) l) as [|y l'] eqn:E;
    [|cbn; lia].
  exfalso. revert i H E. induction l as [|x l IH]; intros i H E; [discriminate|].
  cbn [find_index] in H. destruct (ts_eqb t x) eqn:Ex.
  - rewrite filter_cons_True in E by exact Ex. discriminate.
  - rewrite filter_cons_False in E by (rewrite Ex; discriminate).
    destruct (find_index t l) as [j|]; [|discriminate]. apply (IH j); auto.
Qed.

(** X10.  [post_entry_health_check] gives a verdict only when the entry
    time labels exactly one bar and more than [lookahead] bars remain
    from it.  It answers ["invalid"] without reading a single price,
    even on a frame without price columns, when the entry time is not a
    label of the index, when it labels one bar with too few bars after
    it, and when it labels several bars of a sorted index; when it
    labels several bars of an index that is not sorted, the check
    raises [ValueError]. *)
Theorem health_check_needs_lookahead (df : DataFrame) (entry_time : Timestamp)
    (lookahead : nat) (threshold_pct : fl) :
  let copies := length (filter (fun t => ts_eqb entry_time t = true) (index df)) in
  (find_index entry_time (index df) = None ->
   post_entry_health_check df entry_time lookahead threshold_pct
   = Ok ("invalid", false)) /\
  (forall i, find_index entry_time (index df) = Some i -> copies = 1%nat ->
             (length (index df) <= i + lookahead)%nat ->
             post_entry_health_check df entry_time lookahead threshold_pct
             = Ok ("invalid", false)) /\
  ((1 < copies)%nat ->
   post_entry_health_check df entry_time lookahead threshold_pct
   = if is_monotonic_increasing (index df) then Ok ("invalid", false)
     else Raise (ValueError ambiguous_truth_value)) /\
  (forall passed,
     post_entry_health_check df entry_time lookahead threshold_pct
     = Ok ("valid", passed) ->
     exists i, find_index entry_time (index df) = Some i /\ copies = 1%nat /\
               (i + lookahead < length (index df))%nat).
Proof.
  cbv zeta. unfold post_entry_health_check. repeat split.
  - intros ->. reflexivity.
  - intros i -> -> Hi. cbn [Nat.ltb Nat.leb].
    apply Nat.leb_le in Hi. rewrite Hi. reflexivity.
  - intros Hmany.
    destruct (find_index entry_time (index df)) as [i|] eqn:E.
    + apply Nat.ltb_lt in Hmany. rewrite Hmany. reflexivity.
    + rewrite (find_index_none_copies _ _ E) in Hmany. cbn in Hmany. lia.
  - intros passed. destruct (find_index entry_time (index df)) as [i|] eqn:E;
      [|discriminate].
    pose proof (find_index_some_copies _ _ _ E) as Hone.
    destruct (1 <? _)%nat eqn:Hmany.
    { destruct (is_monotonic_increasing (index df)); discriminate. }
    apply Nat.ltb_ge in Hmany.
    destruct (length (index df) <=? i + lookahead)%nat eqn:E2; [discriminate|].
    apply Nat.leb_gt in E2. intros _. exists i. repeat split; [lia|exact E2].
Qed.

(** The check on an index that is not sorted and repeats the label. *)
Lemma health_check_needs_lookahead_witness :
  post_entry_health_check shuffled_frame
    (ist (20000 * day_seconds + dt_time 9 20)) 3 (Fin (15 # 100))
  = Raise (ValueError ambiguous_truth_value).
Proof.
  rewrite (proj1 (proj2 (proj2 (health_check_needs_lookahead shuffled_frame
             (ist (20000 * day_seconds + dt_time 9 20)) 3 (Fin (15 # 100)))))
             ltac:(vm_compute; lia)).
  reflexivity.
Defined.

(** X11.  The verdict measures the size of the move, not its direction:
    for a rising entry bar (taken as BUY) whose following closes all
    stay below the entry close, the check still passes as soon as the
    highest of them is at least [threshold_pct] percent away from the
    entry close. *)
Theorem health_check_passes_on_adverse_move (df : DataFrame)
    (entry_time : Timestamp) (lookahead i : nat) (close open : list fl)
    (c o m threshold : Q) :
  find_index entry_time (index df) = Some i ->
  length (filter (fun t => ts_eqb entry_time t = true) (index df)) = 1%nat ->
  (i + lookahead < length (index df))%nat ->
  numcol df "close" = Ok close -> numcol df "open" = Ok open ->
  close !! i = Some (Fin c) -> open !! i = Some (Fin o) ->
  (o < c)%Q -> (0 < c)%Q ->
  fl_max (take lookahead (drop (i + 1) close)) = Fin m ->
  (m < c)%Q ->
  (threshold * c <= (c - m) * 100)%Q ->
  post_entry_health_check df entry_time lookahead (Fin threshold)
  = Ok ("valid", true).
Proof.
  intros Hfind Huniq Hlen Hclose Hopen Hc Ho Hbull Hpos Hmax Hbelow Hmove.
  unfold post_entry_health_check. rewrite Hfind, Huniq. cbn [Nat.ltb Nat.leb].
  destruct (length (index df) <=? i + lookahead)%nat eqn:E;
    [apply Nat.leb_le in E; lia|].
  assert (Hsome : is_Some (index df !! i)).
  { apply lookup_lt_is_Some. lia. }
  destruct (iloc_numcol df i "close" close (Fin c) Hsome Hclose Hc)
    as (row & Hrow & Hcell).
  destruct (iloc_numcol df i "open" open (Fin o) Hsome Hopen Ho)
    as (row' & Hrow' & Hcell').
  rewrite Hrow in Hrow'. injection Hrow' as <-.
  rewrite Hrow. cbn [rbind]. unfold getnum. rewrite Hcell, Hcell'.
  cbn [rbind as_num]. rewrite Hclose. cbn [rbind].
  assert (Hdir : fgt (Fin c) (Fin o) = true).
  { unfold fgt. cbn. q_reflect. exact Hbull. }
  rewrite Hdir, Hmax. do 2 f_equal.
  unfold fge. cbn [fsub fadd fneg fdiv].
  assert (Hz : Qsgn_zero c = false).
  { unfold Qsgn_zero. q_reflect. lra. }
  rewrite Hz. cbn [fabs fmul fle]. q_reflect.
  assert (Habs : (Qabs ((m + - c) / c) == (c - m) / c)%Q).
  { rewrite Qabs_neg.
    - field. lra.
    - apply Qle_shift_div_r; lra. }
  rewrite Habs. apply Qle_shift_div_l in Hmove; [|exact Hpos].
  assert (E2 : ((c - m) / c * 100 == (c - m) * 100 / c)%Q) by (field; lra).
  rewrite E2. exact Hmove.
Qed.

Lemma health_check_passes_on_adverse_move_witness :
  post_entry_health_check falling_frame
    (ist (20000 * day_seconds + dt_time 9 15)) 3 (Fin (15 # 100))
  = Ok ("valid", true).
Proof.
  apply (health_check_passes_on_adverse_move falling_frame _ 3 0
           (Fin <$> [108; 98; 88; 78; 68; 58; 48; 38; 28; 18; 8; -2; -12; -22; -32]%Q)
           (Fin <$> [100; 90; 80; 70; 60; 50; 40; 30; 20; 10; 0; -10; -20; -30; -40]%Q)
           108 100 98 (15 # 100));
    try (vm_compute; reflexivity); try (vm_compute; lia); vm_compute; discriminate.
Defined.

End Lifecycle.

(* ===================================================================== *)
(** * What the evaluators accept *)
(* ===================================================================== *)

Module Evaluators.

Lemma flt_false_fge (a b : fl) :
  isna a = false -> isna b = false -> flt a b = false -> fge a b = true.
Proof.
  unfold fge. destruct a, b; simpl; try congruence. intros; q_reflect; lra.
Qed.

(** Peels one statement off an evaluator body whose decision is known to
    be valid: a failing read or a rejecting branch contradicts it. *)
Ltac peel H :=
  match type of H with
  | context [rbind ?m _] =>
      let E := fresh "E" in
      destruct m eqn:E; cbn [rbind on_exception rejection d_valid] in H;
      [|discriminate H]
  end.

(** X12.  A decision the breakout evaluator returns as valid was taken
    inside the trading window (09:30 to 15:25) on a candle that is not
    weak, with an ATR of at least 10 and both entry levels present.  It
    is a BUY only if the high reached the long-entry level after a
    rising bar, a SELL only if the low reached the short-entry level
    after a falling bar; its entry is the close, and stop and target
    are the close moved by the stop and target distances of the row. *)
Theorem orb_valid_decision (row : Row) :
  d_valid (ORB_evaluate row) = true ->
  exists (t : Timestamp) (close open high low atr prev_c prev_o sl target : fl)
         (side : Side),
    getcell row "date" = Ok (TS t) /\
    getnum row "close" = Ok close /\ getnum row "open" = Ok open /\
    getnum row "high" = Ok high /\ getnum row "low" = Ok low /\
    getnum row "ATR" = Ok atr /\
    getnum row "close_prev_1" = Ok prev_c /\ getnum row "open_prev_1" = Ok prev_o /\
    getnum row "orb_sl" = Ok sl /\ getnum row "orb_target" = Ok target /\
    (dt_time 9 30 <= time_of t <= dt_time 15 25)%Z /\
    weak_candle (fabs (close - open)) (high - low)%fl = false /\
    fge atr (Fin 10) = true /\
    (match side with
     | BUY => exists level, getnum row "orb_long_entry" = Ok level /\
                            fge high level = true /\ fgt prev_c prev_o = true
     | SELL => exists level, getnum row "orb_short_entry" = Ok level /\
                             fle low level = true /\ flt prev_c prev_o = true
     end) /\
    ORB_evaluate row
    = mkDecision (Some (TS t)) (Some side) (Some close)
        (Some (stop_at side close sl))
        (Some (match side with
               | BUY => (close + target)%fl
               | SELL => (close - target)%fl
               end))
        true (Some "ORB") NoReason.
Proof.
  unfold ORB_evaluate, ORB_body. intros H.
  destruct (getnum row "close") as [close|] eqn:Hclose;
    cbn [rbind on_exception rejection d_valid] in H |- *; [|discriminate H].
  destruct (getnum row "open") as [open|] eqn:Hopen;
    cbn [rbind on_exception rejection d_valid] in H |- *; [|discriminate H].
  destruct (getnum row "high") as [high|] eqn:Hhigh;
    cbn [rbind on_exception rejection d_valid] in H |- *; [|discriminate H].
  destruct (getnum row "low") as [low|] eqn:Hlow;
    cbn [rbind on_exception rejection d_valid] in H |- *; [|discriminate H].
  destruct (getcell row "date") as [c_date|] eqn:Hdate;
    cbn [rbind on_exception rejection d_valid] in H |- *; [|discriminate H].
  destruct c_date as [x|t|dd]; cbn [as_ts rbind on_exception rejection d_valid] in H |- *;
    try discriminate H.
  destruct ((dt_time 9 30 <=? time_of t)%Z && (time_of t <=? dt_time 15 25)%Z) eqn:Hwin;
    cbn [negb on_exception rejection d_valid] in H |- *; [|discriminate H].
  destruct (weak_candle _ _) eqn:Hweak;
    cbn [on_exception rejection d_valid] in H |- *; [discriminate H|].
  destruct (getcell row "ATR") as [c_atr|] eqn:Hatr;
    cbn [rbind on_exception rejection d_valid] in H |- *; [|discriminate H].
  destruct c_atr as [atr|x|x]; cbn [cell_isna as_num rbind] in H |- *;
    try discriminate H.
  destruct (isna atr) eqn:Hna; cbn [rbind on_exception rejection d_valid] in H |- *;
    [discriminate H|].
  destruct (flt atr (Fin 10)) eqn:Hlow_atr;
    cbn [rbind on_exception rejection d_valid] in H |- *; [discriminate H|].
  destruct (getnum row "close_prev_1") as [prev_c|] eqn:Hpc;
    cbn [rbind on_exception rejection d_valid] in H |- *; [|discriminate H].
  destruct (getnum row "open_prev_1") as [prev_o|] eqn:Hpo;
    cbn [rbind on_exception rejection d_valid] in H |- *; [|discriminate H].
  destruct (getcell row "orb_long_entry") as [c_long|] eqn:Hlong;
    cbn [rbind on_exception rejection d_valid] in H |- *; [|discriminate H].
  destruct (getcell row "orb_short_entry") as [c_short|] eqn:Hshort;
    cbn [rbind on_exception rejection d_valid] in H |- *; [|discriminate H].
  destruct (cell_isna c_long || cell_isna c_short) eqn:Hmiss;
    cbn [on_exception rejection d_valid] in H |- *; [discriminate H|].
  destruct (as_num c_long) as [long_entry|] eqn:Hl;
    cbn [rbind on_exception rejection d_valid] in H |- *; [|discriminate H].
  assert (Hwindow : (dt_time 9 30 <= time_of t <= dt_time 15 25)%Z).
  { apply andb_true_iff in Hwin. destruct Hwin as [W1 W2].
    apply Z.leb_le in W1, W2. lia. }
  assert (Hatr10 : fge atr (Fin 10) = true).
  { apply flt_false_fge; [exact Hna|reflexivity|exact Hlow_atr]. }
  assert (Hnum : getnum row "ATR" = Ok atr).
  { unfold getnum. rewrite Hatr. reflexivity. }
  destruct (fge high long_entry && fgt prev_c prev_o) eqn:Hbuy.
  - destruct (getnum row "orb_sl") as [sl|] eqn:Hsl;
      cbn [rbind on_exception rejection d_valid] in H |- *; [|discriminate H].
    destruct (getnum row "orb_target") as [target|] eqn:Htg;
      cbn [rbind on_exception rejection d_valid] in H |- *; [|discriminate H].
    apply andb_true_iff in Hbuy. destruct Hbuy as [B1 B2].
    exists t, close, open, high, low, atr, prev_c, prev_o, sl, target, BUY.
    repeat (split; [first [reflexivity|assumption]|]).
    split; [|reflexivity].
    exists long_entry. unfold getnum. rewrite Hlong. auto.
  - destruct (as_num c_short) as [short_entry|] eqn:Hs;
      cbn [rbind on_exception rejection d_valid] in H |- *; [|discriminate H].
    destruct (fle low short_entry && flt prev_c prev_o) eqn:Hsell;
      cbn [rbind on_exception rejection d_valid] in H |- *; [|discriminate H].
    destruct (getnum row "orb_sl") as [sl|] eqn:Hsl;
      cbn [rbind on_exception rejection d_valid] in H |- *; [|discriminate H].
    destruct (getnum row "orb_target") as [target|] eqn:Htg;
      cbn [rbind on_exception rejection d_valid] in H |- *; [|discriminate H].
    apply andb_true_iff in Hsell. destruct Hsell as [S1 S2].
    exists t, close, open, high, low, atr, prev_c, prev_o, sl, target, SELL.
    repeat (split; [first [reflexivity|assumption]|]).
    split; [|reflexivity].
    exists short_entry. unfold getnum. rewrite Hshort. auto.
Qed.

Lemma orb_valid_decision_witness :
  exists t : Timestamp,
    getcell breakout_row "date" = Ok (TS t) /\
    (dt_time 9 30 <= time_of t <= dt_time 15 25)%Z /\
    d_signal (ORB_evaluate breakout_row) = Some BUY.
Proof.
  destruct (orb_valid_decision breakout_row ltac:(vm_compute; reflexivity))
    as (t & close & open & high & low & atr & pc & po & sl & tg & side
        & Hdate & _ & _ & _ & _ & _ & _ & _ & _ & _ & Hwin & _ & _ & _ & Heq).
  exists t. split; [exact Hdate|]. split; [exact Hwin|].
  vm_compute. reflexivity.
Defined.

(** X13.  Both evaluators test the candle before any indicator: a row
    whose prices can be read and whose candle is weak (range below 5, or
    body below a quarter of the range) is rejected with the weak-candle
    reason by the reversion evaluator whatever its indicator cells hold
    (NaN included), and by the breakout evaluator whenever its time is
    inside the trading window. *)
Theorem weak_candle_rejected_first (s : VWAPStrategy) (row : Row)
    (close open high low : fl) (c_vwap c_atr c_ema c_prev : cell) :
  getnum row "close" = Ok close -> getnum row "open" = Ok open ->
  getnum row "high" = Ok high -> getnum row "low" = Ok low ->
  weak_candle (fabs (close - open)) (high - low)%fl = true ->
  (getcell row "VWAP_REV" = Ok c_vwap -> getcell row "ATR" = Ok c_atr ->
   getcell row "EMA20" = Ok c_ema -> getcell row "prev_close" = Ok c_prev ->
   VWAP_evaluate s row = rejection false (WeakCandle close)) /\
  (forall t, getcell row "date" = Ok (TS t) ->
             (dt_time 9 30 <= time_of t <= dt_time 15 25)%Z ->
             ORB_evaluate row = rejection false (WeakCandle close)).
Proof.
  intros Hc Ho Hh Hl Hweak. split.
  - intros Hv Ha He Hp. unfold VWAP_evaluate, VWAP_body, vwap_signal.
    assert (Hcell : exists c, getcell row "close" = Ok c).
    { unfold getnum in Hc. destruct (getcell row "close"); [eauto|discriminate]. }
    destruct Hcell as [c Hcell].
    rewrite Hcell, Hv, Ha, He, Hp. cbn [rbind].
    rewrite Hc, Ho. cbn [rbind]. rewrite Hh, Hl. cbn [rbind].
    rewrite Hweak. reflexivity.
  - intros t Hd Hwin. unfold ORB_evaluate, ORB_body.
    rewrite Hc, Ho. cbn [rbind]. rewrite Hh, Hl. cbn [rbind].
    rewrite Hd. cbn [rbind as_ts].
    destruct Hwin as [W1 W2]. apply Z.leb_le in W1, W2. rewrite W1, W2.
    cbn [andb negb]. rewrite Hweak. reflexivity.
Qed.

Lemma weak_candle_rejected_first_witness :
  VWAP_evaluate example_vwap quiet_row = rejection false (WeakCandle (Fin 101)) /\
  ORB_evaluate quiet_row = rejection false (WeakCandle (Fin 101)).
Proof.
  destruct (weak_candle_rejected_first example_vwap quiet_row
              (Fin 101) (Fin 100) (Fin 102) (Fin 99)
              (Num (Fin (302 # 3))) (Num NaN) (Num (Fin 101)) (Num (Fin 101))
              ltac:(vm_compute; reflexivity) ltac:(vm_compute; reflexivity)
              ltac:(vm_compute; reflexivity) ltac:(vm_compute; reflexivity)
              ltac:(vm_compute; reflexivity)) as [Hv Ho].
  split.
  - apply Hv; vm_compute; reflexivity.
  - apply (Ho (ist (20000 * day_seconds + dt_time 9 15 + 300 * 5)));
      [vm_compute; reflexivity|]. vm_compute. split; discriminate.
Defined.

(** X14.  On zeroed levels (what [assign_strategy_levels] leaves in
    every row when the active strategy is VWAP_REV) the reversion
    evaluator is one-sided: with a positive price and a non-negative
    risk/reward threshold every long signal is rejected for its
    risk/reward, and every short signal is returned valid, with a stop
    and a target of 0. *)
Theorem zero_levels_reject_longs_accept_shorts (s : VWAPStrategy) (row : Row)
    (side : Side) (entry threshold : Q) (dt : cell) :
  vwap_signal s row = Ok (inr (side, Fin entry)) ->
  getcell row "date" = Ok dt ->
  getnum row "orb_sl" = Ok (Fin 0) ->
  getnum row "orb_target" = Ok (Fin 0) ->
  rr_threshold s = Fin threshold ->
  (0 <= threshold)%Q -> (0 < entry)%Q ->
  VWAP_evaluate s row
  = match side with
    | BUY => rejection false
               (RiskRewardTooLow (Fin 0 - Fin entry)
                                 (Fin threshold * (Fin entry - Fin 0)))%fl
    | SELL => mkDecision (Some dt) (Some SELL) (Some (Fin entry)) (Some (Fin 0))
                         (Some (Fin 0)) true (Some "VWAP_REV") NoReason
    end.
Proof.
  intros Hsig Hdt Hsl Htg Hrr Hthr Hpos.
  assert (Hprod : (0 <= threshold * entry)%Q).
  { apply Qmult_le_0_compat; lra. }
  unfold VWAP_evaluate, VWAP_body. rewrite Hsig. cbn [rbind].
  destruct side; unfold vwap_long, vwap_short; rewrite Hdt, Hsl, Htg, Hrr;
    cbn [rbind fsub fadd fneg fmul fge flt fle].
  - assert (E1 : Qlt_bool (0 + - entry) (threshold * (entry + - 0)) = true).
    { q_reflect. lra. }
    assert (E2 : Qle_bool (threshold * (entry + - 0)) (0 + - entry) = false).
    { q_reflect. lra. }
    rewrite E1, E2. reflexivity.
  - assert (E1 : Qlt_bool (entry + - 0) (threshold * (0 + - entry)) = false).
    { q_reflect. lra. }
    assert (E2 : Qlt_bool (0 + - entry) (threshold * (entry + - 0)) = true).
    { q_reflect. lra. }
    rewrite E1, E2. reflexivity.
Qed.

Lemma zero_levels_reject_longs_accept_shorts_witness :
  VWAP_evaluate example_vwap short_zero_row
  = mkDecision (Some (TS (name short_zero_row))) (Some SELL) (Some (Fin 110))
               (Some (Fin 0)) (Some (Fin 0)) true (Some "VWAP_REV") NoReason.
Proof.
  apply (zero_levels_reject_longs_accept_shorts example_vwap short_zero_row SELL
           110 (12 # 10) (TS (name short_zero_row)));
    try (vm_compute; reflexivity); vm_compute; discriminate.
Defined.

(** What a directional outcome of [vwap_signal] says about the row. *)
Lemma vwap_signal_inv (s : VWAPStrategy) (row : Row) (side : Side) (entry : fl) :
  vwap_signal s row = Ok (inr (side, entry)) ->
  exists (open high low atr vwap prev ema : fl),
    getnum row "close" = Ok entry /\ getnum row "open" = Ok open /\
    getnum row "high" = Ok high /\ getnum row "low" = Ok low /\
    getnum row "ATR" = Ok atr /\ getnum row "VWAP_REV" = Ok vwap /\
    getnum row "prev_close" = Ok prev /\ getnum row "EMA20" = Ok ema /\
    weak_candle (fabs (entry - open)) (high - low)%fl = false /\
    fge atr (Fin 5) = true /\
    match side with
    | BUY => fgt entry (vwap + dev s * entry)%fl = true /\
             fge (vwap + dev s * entry)%fl prev = true /\
             fgt entry ema = true
    | SELL => flt entry (vwap - dev s * entry)%fl = true /\
              fle (vwap - dev s * entry)%fl prev = true /\
              flt entry ema = true
    end.
Proof.
  unfold vwap_signal. intros H.
  destruct (getcell row "close") as [c_entry|] eqn:Hc; cbn [rbind] in H;
    [|discriminate H].
  destruct (getcell row "VWAP_REV") as [c_vwap|] eqn:Hv; cbn [rbind] in H;
    [|discriminate H].
  destruct (getcell row "ATR") as [c_atr|] eqn:Ha; cbn [rbind] in H;
    [|discriminate H].
  destruct (getcell row "EMA20") as [c_ema|] eqn:He; cbn [rbind] in H;
    [|discriminate H].
  destruct (getcell row "prev_close") as [c_prev|] eqn:Hp; cbn [rbind] in H;
    [|discriminate H].
  destruct (getnum row "close") as [close|] eqn:Hclose; cbn [rbind] in H;
    [|discriminate H].
  destruct (getnum row "open") as [open|] eqn:Hopen; cbn [rbind] in H;
    [|discriminate H].
  destruct (getnum row "high") as [high|] eqn:Hhigh; cbn [rbind] in H;
    [|discriminate H].
  destruct (getnum row "low") as [low|] eqn:Hlow; cbn [rbind] in H;
    [|discriminate H].
  destruct (weak_candle _ _) eqn:Hweak; [discriminate H|].
  destruct (cell_isna c_entry || cell_isna c_atr) eqn:Hna1; [discriminate H|].
  destruct (getcell row "RSI14") as [c_rsi|] eqn:Hr; cbn [rbind] in H;
    [|discriminate H].
  destruct (existsb _ _) eqn:Hna2; [discriminate H|].
  destruct (as_num c_atr) as [atr|] eqn:Hatr; cbn [rbind] in H; [|discriminate H].
  destruct (flt (atr / close) _ || flt atr (Fin 5)) eqn:Hlowatr; [discriminate H|].
  destruct (as_num c_vwap) as [vwap|] eqn:Hvwap; cbn [rbind] in H;
    [|discriminate H].
  apply orb_false_iff in Hlowatr. destruct Hlowatr as [_ Hatr5].
  apply orb_false_iff in Hna1. destruct Hna1 as [_ Hatrna].
  assert (Hatr_num : isna atr = false).
  { destruct c_atr; cbn in Hatr; try discriminate. injection Hatr as <-.
    exact Hatrna. }
  assert (Hfge : fge atr (Fin 5) = true).
  { apply flt_false_fge; [exact Hatr_num|reflexivity|exact Hatr5]. }
  assert (G : forall c k x, getcell row k = Ok c -> as_num c = Ok x ->
                            getnum row k = Ok x).
  { intros c k x Hk Hx. unfold getnum. rewrite Hk. exact Hx. }
  unfold vwap_long_cond, vwap_short_cond in H.
  destruct (fgt close (vwap + dev s * close)) eqn:B1.
  - destruct (as_num c_prev) as [prev|] eqn:Hprev; cbn [rbind] in H;
      [|discriminate H].
    destruct (fge (vwap + dev s * close) prev) eqn:B2.
    + destruct (as_num c_ema) as [ema|] eqn:Hema; cbn [rbind] in H;
        [|discriminate H].
      destruct (fgt close ema) eqn:B3.
      * injection H as <- <-.
        exists open, high, low, atr, vwap, prev, ema. eauto 20.
      * destruct (flt close (vwap - dev s * close)) eqn:S1; cbn [rbind] in H;
          [|discriminate H].
        destruct (fle (vwap - dev s * close) prev) eqn:S2; cbn [rbind] in H;
          [|discriminate H].
        destruct (flt close ema) eqn:S3; [|discriminate H].
        injection H as <- <-.
        exists open, high, low, atr, vwap, prev, ema. eauto 20.
    + cbn [rbind] in H.
      destruct (flt close (vwap - dev s * close)) eqn:S1; cbn [rbind] in H;
        [|discriminate H].
      destruct (fle (vwap - dev s * close) prev) eqn:S2; cbn [rbind] in H;
        [|discriminate H].
      destruct (as_num c_ema) as [ema|] eqn:Hema; cbn [rbind] in H;
        [|discriminate H].
      destruct (flt close ema) eqn:S3; [|discriminate H].
      injection H as <- <-.
      exists open, high, low, atr, vwap, prev, ema. eauto 20.
  - cbn [rbind] in H.
    destruct (flt close (vwap - dev s * close)) eqn:S1; cbn [rbind] in H;
      [|discriminate H].
    destruct (as_num c_prev) as [prev|] eqn:Hprev; cbn [rbind] in H;
      [|discriminate H].
    destruct (fle (vwap - dev s * close) prev) eqn:S2; cbn [rbind] in H;
      [|discriminate H].
    destruct (as_num c_ema) as [ema|] eqn:Hema; cbn [rbind] in H;
      [|discriminate H].
    destruct (flt close ema) eqn:S3; [|discriminate H].
    injection H as <- <-.
    exists open, high, low, atr, vwap, prev, ema. eauto 20.
Qed.

(** X15.  A decision the reversion evaluator returns as valid comes from
    a candle that is not weak with an ATR of at least 5.  It is a BUY
    only if the close is above the upper band, the band is at or above
    the previous close and the close is above the long EMA; a SELL is
    the mirror image.  Its entry is the close, and its stop and target
    are the [orb_sl] and [orb_target] cells of the row themselves (as
    prices, not as distances from the entry). *)
Theorem vwap_valid_decision (s : VWAPStrategy) (row : Row) :
  d_valid (VWAP_evaluate s row) = true ->
  exists (side : Side) (dt : cell) (entry open high low atr vwap prev ema sl target : fl),
    getcell row "date" = Ok dt /\
    getnum row "close" = Ok entry /\ getnum row "open" = Ok open /\
    getnum row "high" = Ok high /\ getnum row "low" = Ok low /\
    getnum row "ATR" = Ok atr /\ getnum row "VWAP_REV" = Ok vwap /\
    getnum row "prev_close" = Ok prev /\ getnum row "EMA20" = Ok ema /\
    getnum row "orb_sl" = Ok sl /\ getnum row "orb_target" = Ok target /\
    weak_candle (fabs (entry - open)) (high - low)%fl = false /\
    fge atr (Fin 5) = true /\
    match side with
    | BUY => fgt entry (vwap + dev s * entry)%fl = true /\
             fge (vwap + dev s * entry)%fl prev = true /\
             fgt entry ema = true
    | SELL => flt entry (vwap - dev s * entry)%fl = true /\
              fle (vwap - dev s * entry)%fl prev = true /\
              flt entry ema = true
    end /\
    VWAP_evaluate s row
    = mkDecision (Some dt) (Some side) (Some entry) (Some sl) (Some target)
                 true (Some "VWAP_REV") NoReason.
Proof.
  unfold VWAP_evaluate, VWAP_body. intros H.
  destruct (vwap_signal s row) as [[rejected|[side entry]]|e] eqn:Hsig;
    cbn [rbind on_exception] in H |- *.
  - unfold vwap_signal in Hsig.
    repeat match type of Hsig with
           | context [rbind ?m _] =>
               destruct m; cbn [rbind] in Hsig; [|discriminate Hsig]
           | context [if ?b then _ else _] => destruct b
           end;
      try (injection Hsig as <-; discriminate H);
      unfold vwap_long_cond, vwap_short_cond in Hsig;
      repeat match type of Hsig with
             | context [rbind ?m _] =>
                 destruct m; cbn [rbind] in Hsig; [|discriminate Hsig]
             | context [if ?b then _ else _] => destruct b; cbn [rbind] in Hsig
             end;
      try discriminate Hsig; injection Hsig as <-; discriminate H.
  - destruct (vwap_signal_inv s row side entry Hsig)
      as (open & high & low & atr & vwap & prev & ema & F1 & F2 & F3 & F4 & F5
          & F6 & F7 & F8 & F9 & F10 & F11).
    assert (Hbranch : d_valid (on_exception
                         (match side with
                          | BUY => vwap_long s row entry
                          | SELL => vwap_short s row entry
                          end)) = true).
    { destruct side; exact H. }
    assert (Hgoal : exists dt sl target,
              getcell row "date" = Ok dt /\ getnum row "orb_sl" = Ok sl /\
              getnum row "orb_target" = Ok target /\
              on_exception (match side with
                            | BUY => vwap_long s row entry
                            | SELL => vwap_short s row entry
                            end)
              = mkDecision (Some dt) (Some side) (Some entry) (Some sl)
                           (Some target) true (Some "VWAP_REV") NoReason).
    { clear H. destruct side; unfold vwap_long, vwap_short in *;
        destruct (getcell row "date") as [dt|]; cbn [rbind on_exception] in *;
        try discriminate Hbranch;
        destruct (getnum row "orb_sl") as [sl|]; cbn [rbind on_exception] in *;
        try discriminate Hbranch;
        destruct (getnum row "orb_target") as [target|];
        cbn [rbind on_exception] in *; try discriminate Hbranch;
        exists dt, sl, target; repeat split; try reflexivity.
      - destruct (flt (target - entry) _) eqn:E;
          cbn [on_exception rejection d_valid] in *.
        + apply flt_fle_false in E. unfold fge in Hbranch. congruence.
        + rewrite Hbranch. reflexivity.
      - destruct (flt (entry - target) _) eqn:E;
          cbn [on_exception rejection d_valid] in *.
        + destruct (short_comparisons (rr_threshold s) entry sl target) as [E1 _].
          rewrite E1 in E. apply flt_asym in E. congruence.
        + rewrite Hbranch. reflexivity. }
    destruct Hgoal as (dt & sl & target & G1 & G2 & G3 & G4).
    exists side, dt, entry, open, high, low, atr, vwap, prev, ema, sl, target.
    repeat (split; [assumption|]).
    destruct side; exact G4.
  - discriminate H.
Qed.

Lemma vwap_valid_decision_witness :
  exists (side : Side) (entry atr : fl),
    getnum short_zero_row "close" = Ok entry /\
    getnum short_zero_row "ATR" = Ok atr /\
    fge atr (Fin 5) = true /\
    d_signal (VWAP_evaluate example_vwap short_zero_row) = Some side.
Proof.
  destruct (vwap_valid_decision example_vwap short_zero_row
              ltac:(vm_compute; reflexivity))
    as (side & dt & entry & open & high & low & atr & vwap & prev & ema & sl & tg
        & _ & Hc & _ & _ & _ & Ha & _ & _ & _ & _ & _ & _ & Hatr & _ & Heq).
  exists side, entry, atr. rewrite Heq. auto.
Defined.

End Evaluators.

(* ===================================================================== *)
(** * What the filter chain does to a decision *)
(* ===================================================================== *)

Module Filters.

Ltac peel_ok H :=
  repeat match type of H with
         | rbind ?m _ = Ok _ =>
             let E := fresh "E" in
             destruct m eqn:E; cbn [rbind] in H; [|discriminate H]
         end.

(** The guards after the volume guard return the decision they were
    given or that decision invalidated with one of their reasons. *)
Lemma later_guards_outcome (md : MarketData) (row : Row) (d d' : TradeDecision)
    (df : DataFrame) (i : nat) (atr row_date : cell) :
  later_guards md row d df i atr row_date = Ok d' ->
  d' = d \/ exists r, filter_reason r /\ d' = invalidate d r.
Proof.
  unfold later_guards. intros H.
  repeat (peel_ok H;
          match type of H with
          | (if ?b then _ else _) = _ =>
              destruct b;
              [injection H as <-; right; eexists; split; [|reflexivity]; exact I|]
          end).
  injection H as <-. left. reflexivity.
Qed.

(** X16.  The filter chain never edits a decision: what
    [apply_filters] returns is the decision it was given, untouched, or
    that decision with [valid] set to [False] and one of the five filter
    reasons; signal, entry, stop, target, date and strategy are never
    changed, and an invalid decision is never made valid. *)
Theorem filters_only_invalidate (md : MarketData) (row : Row)
    (d d' : TradeDecision) :
  apply_filters md row d = Ok d' ->
  (d' = d \/ exists r, filter_reason r /\ d' = invalidate d r) /\
  d_signal d' = d_signal d /\ d_entry d' = d_entry d /\ d_sl d' = d_sl d /\
  d_target d' = d_target d /\ d_date d' = d_date d /\
  d_strategy d' = d_strategy d /\
  (d_valid d' = true -> d' = d).
Proof.
  intros H.
  assert (Hout : d' = d \/ exists r, filter_reason r /\ d' = invalidate d r).
  { unfold apply_filters in H. peel_ok H.
    destruct (volume_too_low _ _).
    - injection H as <-. right. eexists. split; [|reflexivity]. exact I.
    - eapply later_guards_outcome, H. }
  split; [exact Hout|].
  destruct Hout as [->|(r & _ & ->)]; cbn; repeat split; try reflexivity.
  discriminate.
Qed.

Lemma filters_only_invalidate_witness :
  d_entry (valid_long 248) = Some (Fin 248) /\
  d_valid (valid_long 248) = true.
Proof.
  pose proof (filters_only_invalidate
                (market_data_of spike_frame TradeState_init) spike_row
                (valid_long 248) (valid_long 248)
                ltac:(vm_compute; reflexivity)) as (_ & _ & He & _).
  split; [exact He|reflexivity].
Defined.

(** X17.  The pullback requirement does not expire.  Whenever a last
    exit price is recorded (and is not zero), a decision that leaves the
    guards valid has an entry strictly more than half an ATR beyond that
    price in its own direction, however long ago the exit was: after an
    exit at [last], no BUY at or below [last + 0.5 ATR] and no SELL at
    or above [last - 0.5 ATR] passes, cooldown or not. *)
Theorem pullback_never_expires (md : MarketData) (row : Row)
    (d d' : TradeDecision) (df : DataFrame) (i : nat) (row_date : cell)
    (side : Side) (entry last atr : Q) :
  later_guards md row d df i (Num (Fin atr)) row_date = Ok d' ->
  d_valid d' = true ->
  last_exit_price (state md) = Some (Fin last) -> ~ (last == 0)%Q ->
  d_entry d = Some (Fin entry) -> d_signal d = Some side ->
  match side with
  | BUY => (last + (1 # 2) * atr < entry)%Q
  | SELL => (entry < last - (1 # 2) * atr)%Q
  end.
Proof.
  unfold later_guards. intros H Hvalid Hlast Hnz Hentry Hside.
  rewrite Hlast, Hentry, Hside in H.
  assert (Ht : truthy_opt (Some (Fin last)) = true).
  { cbn. unfold Qsgn_zero. apply Bool.negb_true_iff. q_reflect. exact Hnz. }
  rewrite Ht in H.
  rewrite (pullback_guard_strict entry last atr side Hnz) in H.
  repeat (peel_ok H;
          match type of H with
          | (if ?b then _ else _) = _ =>
              destruct b eqn:?;
              [injection H as <-; discriminate Hvalid|]
          end).
  match goal with
  | E : Ok _ = Ok _ |- _ => injection E as E
  end.
  match goal with
  | E : negb _ = false |- _ => apply Bool.negb_false_iff in E; subst
  end.
  destruct side; q_reflect; lra.
Qed.

Lemma pullback_never_expires_witness :
  (100 + (1 # 2) * 20 < 248)%Q.
Proof.
  exact (pullback_never_expires
           (market_data_of spike_frame state_after_exit) reentry_row
           (valid_long 248) (valid_long 248) spike_frame 14
           (TS (ist (20000 * day_seconds + dt_time 9 15 + 300 * 14)))
           BUY 248 100 20
           ltac:(vm_compute; reflexivity) eq_refl eq_refl
           ltac:(intros H; vm_compute in H; discriminate H)
           eq_refl eq_refl).
Defined.

(** X18.  Before the first exit of a session (no last exit time, no
    last exit price) the candle-strength, same-zone and pullback guards
    are vacuous and read nothing: the outcome of the later guards is
    that of the momentum guard alone, whatever the ATR and date cells
    hold. *)
Theorem first_trade_needs_momentum_only (md : MarketData) (row : Row)
    (d : TradeDecision) (df : DataFrame) (i : nat) (atr row_date : cell) :
  last_exit_time (state md) = None ->
  truthy_opt (last_exit_price (state md)) = false ->
  later_guards md row d df i atr row_date
  = (momentum <- is_momentum_confirmed df i (d_signal d) ;;
     Ok (if momentum then d else invalidate d WeakMomentum)).
Proof.
  intros Htime Hprice. unfold later_guards. rewrite Htime, Hprice.
  destruct (is_momentum_confirmed df i (d_signal d)) as [[|]|e]; reflexivity.
Qed.

Lemma first_trade_needs_momentum_only_witness :
  later_guards (market_data_of spike_frame TradeState_init) spike_row
    (valid_long 248) spike_frame 14 (Num NaN) (Num NaN)
  = Ok (valid_long 248).
Proof.
  rewrite (first_trade_needs_momentum_only
             (market_data_of spike_frame TradeState_init) spike_row
             (valid_long 248) spike_frame 14 (Num NaN) (Num NaN)
             eq_refl eq_refl).
  vm_compute. reflexivity.
Defined.

Lemma take3_drop (l : list fl) (k : nat) :
  (k + 3 <= length l)%nat ->
  exists a b c,
    take 3 (drop k l) = [a; b; c] /\
    l !! k = Some a /\ l !! (k + 1)%nat = Some b /\ l !! (k + 2)%nat = Some c.
Proof.
  intros Hlen.
  destruct (lookup_lt_is_Some_2 l k ltac:(lia)) as [a Ha].
  destruct (lookup_lt_is_Some_2 l (k + 1) ltac:(lia)) as [b Hb].
  destruct (lookup_lt_is_Some_2 l (k + 2) ltac:(lia)) as [c Hc].
  exists a, b, c. repeat split; try assumption.
  apply list_eq. intros j.
  destruct (decide (j < 3)%nat) as [Hj|Hj].
  - rewrite lookup_take_lt by exact Hj. rewrite lookup_drop.
    destruct j as [|[|[|j]]]; try lia; cbn.
    + rewrite Nat.add_0_r. exact Ha.
    + exact Hb.
    + exact Hc.
  - rewrite lookup_take_ge by lia.
    destruct j as [|[|[|j]]]; try lia. reflexivity.
Qed.

(** X19.  With at least three bars before the signal bar, momentum is
    confirmed exactly when each of the three bars just before it moved
    in the direction of the signal: closed strictly above its open for
    BUY, strictly below for SELL.  With fewer than three bars before it
    the answer is no, for any frame. *)
Theorem momentum_is_three_bars (df : DataFrame) (i : nat) (side : Side)
    (close open : list fl) :
  numcol df "close" = Ok close -> numcol df "open" = Ok open ->
  (3 <= i)%nat -> (i <= length close)%nat -> (i <= length open)%nat ->
  exists (c1 c2 c3 o1 o2 o3 : fl),
    close !! (i - 3)%nat = Some c1 /\ close !! (i - 2)%nat = Some c2 /\
    close !! (i - 1)%nat = Some c3 /\
    open !! (i - 3)%nat = Some o1 /\ open !! (i - 2)%nat = Some o2 /\
    open !! (i - 1)%nat = Some o3 /\
    is_momentum_confirmed df i (Some side)
    = Ok (with_signal side c1 o1 && with_signal side c2 o2
          && with_signal side c3 o3) /\
    forall (df' : DataFrame) (j : nat) (direction : option Side),
      (j < 3)%nat -> is_momentum_confirmed df' j direction = Ok false.
Proof.
  intros Hc Ho Hi Hlc Hlo.
  destruct (take3_drop close (i - 3) ltac:(lia)) as (c1 & c2 & c3 & Et & H1 & H2 & H3).
  destruct (take3_drop open (i - 3) ltac:(lia)) as (o1 & o2 & o3 & Eo & G1 & G2 & G3).
  replace (i - 3 + 1)%nat with (i - 2)%nat in * by lia.
  replace (i - 3 + 2)%nat with (i - 1)%nat in * by lia.
  exists c1, c2, c3, o1, o2, o3. repeat (split; [assumption|]). split.
  - unfold is_momentum_confirmed.
    destruct (i <? 3)%nat eqn:E; [apply Nat.ltb_lt in E; lia|].
    cbn [getattr rbind]. rewrite Hc, Ho. cbn [rbind]. rewrite Et, Eo.
    destruct side; cbn; rewrite ?andb_true_r, ?andb_assoc; reflexivity.
  - intros df' j direction Hj. unfold is_momentum_confirmed.
    apply Nat.ltb_lt in Hj. rewrite Hj. reflexivity.
Qed.

Lemma momentum_is_three_bars_witness :
  is_momentum_confirmed spike_frame 14 (Some BUY) = Ok true /\
  is_momentum_confirmed spike_frame 14 (Some SELL) = Ok false.
Proof.
  split.
  - assert (Hc : numcol spike_frame "close"
                 = Ok (map Fin [108; 118; 128; 138; 148; 158; 168; 178; 188; 198;
                                208; 218; 228; 238; 248]%Q))
      by (vm_compute; reflexivity).
    assert (Ho : numcol spike_frame "open"
                 = Ok (map Fin [100; 110; 120; 130; 140; 150; 160; 170; 180; 190;
                                200; 210; 220; 230; 240]%Q))
      by (vm_compute; reflexivity).
    destruct (momentum_is_three_bars spike_frame 14 BUY _ _ Hc Ho
                ltac:(lia) ltac:(cbn; lia) ltac:(cbn; lia))
      as (c1 & c2 & c3 & o1 & o2 & o3 & H1 & H2 & H3 & G1 & G2 & G3 & Heq & _).
    rewrite Heq. cbn in H1, H2, H3, G1, G2, G3.
    injection H1 as <-. injection H2 as <-. injection H3 as <-.
    injection G1 as <-. injection G2 as <-. injection G3 as <-.
    reflexivity.
  - vm_compute. reflexivity.
Defined.

(** X20.  The reversion path cannot be taken on a [MarketData] object
    whose reversion parameters were never attached ([__init__] does not
    set [vwap_dev], [sl_mult], [target_mult] or [rr_threshold], and no
    method of the class does): whenever the strategy of the row resolves
    to VWAP_REV (configured in fixed mode, or in adaptive mode for a day
    without an entry in the daily strategy map), [decide_trade_from_row]
    raises the [AttributeError] of [VWAPStrategy(self)] reading
    [parent.vwap_dev], before the row is evaluated. *)
Theorem reversion_path_raises (c : Config) (st : TradeState) (df : option DataFrame)
    (smap : gmap Z string) (row : Row) :
  let md := mkMD c st (orb_sl_factor c) (orb_target_factor c) df smap
                 None None None None in
  (String.eqb (strategy_mode c) "adaptive" = false ->
   strategy_name c = "VWAP_REV" ->
   decide_trade_from_row md row = Raise (AttributeError "vwap_dev")) /\
  (forall t, String.eqb (strategy_mode c) "adaptive" = true ->
             getcell row "date" = Ok (TS t) ->
             smap !! date_of t = None ->
             decide_trade_from_row md row = Raise (AttributeError "vwap_dev")).
Proof.
  cbv zeta. unfold decide_trade_from_row. cbn [config daily_strategy_map]. split.
  - intros Hmode Hname. rewrite Hmode, Hname. reflexivity.
  - intros t Hmode Hdate Hday. rewrite Hmode, Hdate. cbn [rbind as_ts].
    rewrite Hday. reflexivity.
Qed.

End Filters.

(* ===================================================================== *)
(** * Strategy levels and the daily strategy map *)
(* ===================================================================== *)

Module LevelsMore.
Import Levels.

Lemma set_where_inside (mask : list bool) (values col : list cell) (i : nat)
    (v x : cell) :
  mask !! i = Some true -> values !! i = Some v -> col !! i = Some x ->
  set_where mask values col !! i = Some v.
Proof.
  revert values col i. induction mask as [|m mask IH]; intros values col i Hm Hv Hx.
  - discriminate.
  - destruct values as [|v' values], col as [|x' col]; try discriminate.
    destruct i as [|i]; cbn in *.
    + injection Hm as ->. exact Hv.
    + eapply IH; eassumption.
Qed.

Lemma set_where_length (mask : list bool) (values col : list cell) :
  length (set_where mask values col) = length col.
Proof.
  revert values col. induction mask as [|m mask IH]; intros values col.
  - reflexivity.
  - destruct values as [|v values], col as [|x col]; try reflexivity.
    cbn. rewrite IH. reflexivity.
Qed.

Lemma insert_day_elem (x d : Z) (l : list Z) :
  x ∈ insert_day d l <-> x = d \/ x ∈ l.
Proof.
  induction l as [|y l IH]; cbn.
  - rewrite list_elem_of_singleton, elem_of_nil. tauto.
  - destruct (Z.ltb_spec d y).
    + rewrite !elem_of_cons. tauto.
    + destruct (Z.eqb_spec d y) as [->|Hne].
      * rewrite !elem_of_cons. tauto.
      * rewrite !elem_of_cons, IH. tauto.
Qed.

(** The keys of the per-day loop are the days of the bars. *)
Lemma group_keys_elem (d : Z) (dates : list Timestamp) :
  d ∈ group_keys dates <-> exists t, t ∈ dates /\ date_of t = d.
Proof.
  unfold group_keys. induction dates as [|t dates IH]; cbn.
  - rewrite elem_of_nil. split; [tauto|]. intros (t & Ht & _).
    apply elem_of_nil in Ht. exact Ht.
  - rewrite insert_day_elem, IH. split.
    + intros [-> | (t' & Ht' & Hd)].
      * exists t. split; [left|reflexivity].
      * exists t'. split; [right; exact Ht'|exact Hd].
    + intros (t' & Ht' & Hd). apply elem_of_cons in Ht' as [-> | Ht'].
      * left. symmetry. exact Hd.
      * right. exists t'. auto.
Qed.

(** What one round of the loop leaves in the strategy map. *)
Lemma day_body_map (eb sf tf : fl) (adaptive : bool) (active : string)
    (src : DataFrame) (dates : list Timestamp) (d : Z) (df : DataFrame)
    (smap : gmap Z string) (high low : list fl) :
  numcol src "high" = Ok high -> numcol src "low" = Ok low ->
  fst (day_body eb sf tf adaptive active src dates d df smap)
  = if flt (morning_span d dates high low) (Fin 25) then smap
    else <[d := choose_strategy d dates high low adaptive active]> smap.
Proof.
  intros Hh Hl. unfold day_body. rewrite Hh, Hl. cbn [rbind].
  destruct (flt _ (Fin 25)); [reflexivity|].
  destruct (String.eqb _ "ORB"); reflexivity.
Qed.

(** Writing one level column under a mask. *)
Lemma loc_set_spec (n : nat) (mask : list bool) (df : DataFrame) (c : string)
    (values : list cell) :
  levels_present n df -> c ∈ ORB_COLS ->
  levels_present n (loc_set df mask c values) /\
  (forall c', c' <> c ->
     columns (loc_set df mask c values) !! c' = columns df !! c') /\
  (forall i v, mask !! i = Some true -> values !! i = Some v -> (i < n)%nat ->
     cell_at (loc_set df mask c values) c i = Some v).
Proof.
  intros (Hn & Hcols) Hc. destruct (Hcols c Hc) as (col & Hcol & Hlen).
  unfold loc_set. rewrite Hcol. cbn [default]. unfold setcol. repeat split.
  - exact Hn.
  - intros c' Hc'. cbn [columns]. destruct (decide (c = c')) as [<-|Hne].
    + rewrite lookup_insert_eq. eexists. split; [reflexivity|].
      rewrite set_where_length. exact Hlen.
    + rewrite lookup_insert_ne by exact Hne. apply Hcols, Hc'.
  - intros c' Hc'. cbn [columns]. rewrite lookup_insert_ne by congruence.
    reflexivity.
  - intros i v Hm Hv Hi. unfold cell_at. cbn [columns].
    rewrite lookup_insert_eq. cbn.
    destruct (lookup_lt_is_Some_2 col i ltac:(lia)) as [x Hx].
    eapply set_where_inside; eassumption.
Qed.

Lemma loc_set_other_cell (mask : list bool) (df : DataFrame) (c c' : string)
    (values : list cell) (i : nat) :
  c' <> c -> cell_at (loc_set df mask c values) c' i = cell_at df c' i.
Proof.
  intros Hne. unfold cell_at, loc_set, setcol. cbn [columns].
  rewrite lookup_insert_ne by congruence. reflexivity.
Qed.

Lemma loc_set_nrows (mask : list bool) (df : DataFrame) (c : string)
    (values : list cell) :
  nrows (loc_set df mask c values) = nrows df.
Proof. reflexivity. Qed.

(** One round of the loop on a wide day writes the levels of the chosen
    strategy to every bar of the day. *)
Lemma day_body_writes (eb sf tf : fl) (adaptive : bool) (active : string)
    (src : DataFrame) (dates : list Timestamp) (d : Z) (df : DataFrame)
    (smap : gmap Z string) (high low atr : list fl) (n : nat) :
  numcol src "high" = Ok high -> numcol src "low" = Ok low ->
  numcol df "ATR" = Ok atr ->
  length dates = n -> levels_present n df ->
  exists smap' df',
    day_body eb sf tf adaptive active src dates d df smap = (smap', Ok df') /\
    keeps (day_mask d dates) df df' /\
    levels_present n df' /\
    (flt (morning_span d dates high low) (Fin 25) = false ->
     forall i t a, dates !! i = Some t -> date_of t = d -> atr !! i = Some a ->
       if String.eqb (choose_strategy d dates high low adaptive active) "ORB"
       then has_breakout_levels df' i
              (fl_max (select (morning_mask d dates) high))
              (fl_min (select (morning_mask d dates) low)) a eb sf tf
       else has_zero_levels df' i).
Proof.
  intros Hh Hl Ha Hn Hp.
  assert (Hpresent : forall c, c ∈ ORB_COLS -> is_Some (columns df !! c)).
  { intros c Hc. destruct (proj2 Hp c Hc) as (col & -> & _). eauto. }
  pose proof (keeps_refl (day_mask d dates) df Hpresent) as K0.
  unfold day_body. rewrite Hh, Hl. cbn [rbind].
  destruct (flt (morning_span d dates high low) (Fin 25)) eqn:Espan.
  { exists smap, df. split; [reflexivity|]. split; [exact K0|].
    split; [exact Hp|]. discriminate. }
  assert (Hmask : forall i t, dates !! i = Some t -> date_of t = d ->
            day_mask d dates !! i = Some true /\ (i < n)%nat).
  { intros i t Ht Hd. rewrite (day_mask_lookup d dates i t Ht).
    split; [rewrite Hd, Z.eqb_refl; reflexivity|].
    rewrite <- Hn. eapply lookup_lt_Some, Ht. }
  destruct (String.eqb _ "ORB").
  - set (mask := day_mask d dates).
    set (hi := fl_max _). set (lo := fl_min _).
    set (df1 := loc_set_scalar df mask "orb_long_entry" (hi + eb)%fl).
    set (df2 := loc_set_scalar df1 mask "orb_short_entry" (lo - eb)%fl).
    destruct (loc_set_spec n mask df "orb_long_entry"
                (replicate (nrows df) (Num (hi + eb)%fl)) Hp ltac:(level))
      as (P1 & O1 & W1).
    fold (loc_set_scalar df mask "orb_long_entry" (hi + eb)%fl) in P1, O1, W1.
    fold df1 in P1, O1, W1.
    destruct (loc_set_spec n mask df1 "orb_short_entry"
                (replicate (nrows df1) (Num (lo - eb)%fl)) P1 ltac:(level))
      as (P2 & O2 & W2).
    fold (loc_set_scalar df1 mask "orb_short_entry" (lo - eb)%fl) in P2, O2, W2.
    fold df2 in P2, O2, W2.
    assert (K2 : keeps mask df df2).
    { apply loc_set_scalar_keeps; [level|].
      apply loc_set_scalar_keeps; [level|exact K0]. }
    assert (Ha2 : numcol df2 "ATR" = Ok atr).
    { rewrite (levels_only_numcol df df2 "ATR" ltac:(not_level) (proj1 K2)).
      exact Ha. }
    rewrite Ha2. cbn [rbind].
    set (stops := map (fun a => np_maximum (Fin 20) (a * sf)%fl) (fillna (Fin 20) atr)).
    set (df3 := loc_set df2 mask "orb_sl" (Num <$> stops)).
    destruct (loc_set_spec n mask df2 "orb_sl" (Num <$> stops) P2 ltac:(level))
      as (P3 & O3 & W3).
    fold df3 in P3, O3, W3.
    set (targets := map (fun s => (s * tf)%fl) stops).
    destruct (loc_set_spec n mask df3 "orb_target" (Num <$> targets) P3 ltac:(level))
      as (P4 & O4 & W4).
    eexists _, _. split; [reflexivity|]. split; [|split; [exact P4|]].
    { apply loc_set_keeps; [level|]. apply loc_set_keeps; [level|exact K2]. }
    intros _ i t a Ht Hd Hai. destruct (Hmask i t Ht Hd) as (Hm & Hi).
    assert (Hstop : stops !! i
              = Some (np_maximum (Fin 20) ((if isna a then Fin 20 else a) * sf)%fl)).
    { unfold stops, fillna.
      change (map ?f ?l) with (f <$> l).
      rewrite !list_lookup_fmap, Hai. reflexivity. }
    unfold has_breakout_levels. cbv zeta. repeat split.
    + rewrite !loc_set_other_cell by discriminate. fold df3.
      unfold df3. rewrite !loc_set_other_cell by discriminate.
      unfold df2. unfold loc_set_scalar at 1. rewrite loc_set_other_cell by discriminate.
      apply W1; [exact Hm| |exact Hi].
      apply lookup_replicate_2. rewrite (proj1 Hp). exact Hi.
    + rewrite !loc_set_other_cell by discriminate. fold df3.
      unfold df3. rewrite !loc_set_other_cell by discriminate.
      apply W2; [exact Hm| |exact Hi].
      apply lookup_replicate_2. rewrite (proj1 P1). exact Hi.
    + rewrite !loc_set_other_cell by discriminate. fold df3.
      apply W3; [exact Hm| |exact Hi].
      rewrite list_lookup_fmap, Hstop. reflexivity.
    + apply W4; [exact Hm| |exact Hi].
      unfold targets. change (map ?f ?l) with (f <$> l).
      rewrite !list_lookup_fmap, Hstop. reflexivity.
  - unfold ORB_COLS at 1. cbn [foldl].
    set (mask := day_mask d dates).
    set (df1 := loc_set_scalar df mask "orb_long_entry" (Fin 0)).
    set (df2 := loc_set_scalar df1 mask "orb_short_entry" (Fin 0)).
    set (df3 := loc_set_scalar df2 mask "orb_sl" (Fin 0)).
    destruct (loc_set_spec n mask df "orb_long_entry"
                (replicate (nrows df) (Num (Fin 0))) Hp ltac:(level))
      as (P1 & O1 & W1).
    fold (loc_set_scalar df mask "orb_long_entry" (Fin 0)) in P1, O1, W1.
    fold df1 in P1, O1, W1.
    destruct (loc_set_spec n mask df1 "orb_short_entry"
                (replicate (nrows df1) (Num (Fin 0))) P1 ltac:(level))
      as (P2 & O2 & W2).
    fold (loc_set_scalar df1 mask "orb_short_entry" (Fin 0)) in P2, O2, W2.
    fold df2 in P2, O2, W2.
    destruct (loc_set_spec n mask df2 "orb_sl"
                (replicate (nrows df2) (Num (Fin 0))) P2 ltac:(level))
      as (P3 & O3 & W3).
    fold (loc_set_scalar df2 mask "orb_sl" (Fin 0)) in P3, O3, W3.
    fold df3 in P3, O3, W3.
    destruct (loc_set_spec n mask df3 "orb_target"
                (replicate (nrows df3) (Num (Fin 0))) P3 ltac:(level))
      as (P4 & O4 & W4).
    fold (loc_set_scalar df3 mask "orb_target" (Fin 0)) in P4, O4, W4.
    eexists _, _. split; [reflexivity|]. split; [|split; [exact P4|]].
    { repeat (apply loc_set_scalar_keeps; [level|]). exact K0. }
    intros _ i t a Ht Hd Hai. destruct (Hmask i t Ht Hd) as (Hm & Hi).
    intros c Hc. apply ORB_COLS_elem in Hc.
    destruct Hc as [-> | [-> | [-> | ->]]].
    + unfold loc_set_scalar at 1. rewrite loc_set_other_cell by discriminate.
      unfold df3, loc_set_scalar at 1. rewrite loc_set_other_cell by discriminate.
      unfold df2, loc_set_scalar at 1. rewrite loc_set_other_cell by discriminate.
      apply W1; [exact Hm| |exact Hi].
      apply lookup_replicate_2. rewrite (proj1 Hp). exact Hi.
    + unfold loc_set_scalar at 1. rewrite loc_set_other_cell by discriminate.
      unfold df3, loc_set_scalar at 1. rewrite loc_set_other_cell by discriminate.
      apply W2; [exact Hm| |exact Hi].
      apply lookup_replicate_2. rewrite (proj1 P1). exact Hi.
    + unfold loc_set_scalar at 1. rewrite loc_set_other_cell by discriminate.
      apply W3; [exact Hm| |exact Hi].
      apply lookup_replicate_2. rewrite (proj1 P2). exact Hi.
    + apply W4; [exact Hm| |exact Hi].
      apply lookup_replicate_2. rewrite (proj1 P3). exact Hi.
Qed.

Lemma levels_transfer (df df' : DataFrame) (i : nat) :
  (forall c, cell_at df' c i = cell_at df c i) ->
  (forall hi lo a eb sf tf,
     has_breakout_levels df i hi lo a eb sf tf ->
     has_breakout_levels df' i hi lo a eb sf tf) /\
  (has_zero_levels df i -> has_zero_levels df' i).
Proof.
  intros Hsame. split.
  - intros hi lo a eb sf tf. unfold has_breakout_levels. cbv zeta.
    rewrite !Hsame. tauto.
  - unfold has_zero_levels. intros H c Hc. rewrite Hsame. apply H, Hc.
Qed.

(** The per-day loop on a frame that has what it reads: it does not
    raise; the strategy map gets the chosen strategy of every wide day
    among the days looped over and is otherwise untouched; every bar of
    such a day carries the levels of its strategy. *)
Lemma day_loop_levels (eb sf tf : fl) (adaptive : bool) (active : string)
    (src : DataFrame) (dates : list Timestamp) (high low atr : list fl)
    (n : nat) (days : list Z) (df0 df : DataFrame) (smap : gmap Z string) :
  numcol src "high" = Ok high -> numcol src "low" = Ok low ->
  numcol df0 "ATR" = Ok atr -> length dates = n ->
  levels_only df0 df -> levels_present n df ->
  exists smap' df',
    day_loop (day_body eb sf tf adaptive active src dates) days df smap
    = (smap', Ok df') /\
    levels_only df0 df' /\
    (forall d, smap' !! d
               = if bool_decide (d ∈ days)
                    && negb (flt (morning_span d dates high low) (Fin 25))
                 then Some (choose_strategy d dates high low adaptive active)
                 else smap !! d) /\
    (forall i t a, dates !! i = Some t -> atr !! i = Some a ->
       flt (morning_span (date_of t) dates high low) (Fin 25) = false ->
       let levels df :=
         if String.eqb (choose_strategy (date_of t) dates high low adaptive active)
                       "ORB"
         then has_breakout_levels df i
                (fl_max (select (morning_mask (date_of t) dates) high))
                (fl_min (select (morning_mask (date_of t) dates) low)) a eb sf tf
         else has_zero_levels df i in
       date_of t ∈ days \/ levels df -> levels df').
Proof.
  intros Hh Hl Ha Hn. cbv zeta. revert df smap.
  induction days as [|d days IH]; intros df smap K P.
  - exists smap, df. cbn [day_loop]. split; [reflexivity|]. split; [exact K|].
    split.
    + intros d. rewrite bool_decide_eq_false_2 by apply not_elem_of_nil.
      reflexivity.
    + intros i t a _ _ _ [Hin | Hlev]; [|exact Hlev].
      apply elem_of_nil in Hin. destruct Hin.
  - cbn [day_loop].
    assert (Hadf : numcol df "ATR" = Ok atr).
    { rewrite (levels_only_numcol df0 df "ATR" ltac:(not_level) K). exact Ha. }
    destruct (day_body_writes eb sf tf adaptive active src dates d df smap
                high low atr n Hh Hl Hadf Hn P)
      as (smap1 & df1 & Hbody & (K1 & K1cells) & P1 & Hwrite).
    pose proof (day_body_map eb sf tf adaptive active src dates d df smap
                  high low Hh Hl) as Hmap.
    rewrite Hbody in Hmap. cbn [fst] in Hmap.
    rewrite Hbody.
    destruct (IH df1 smap1 (levels_only_trans _ _ _ K K1) P1)
      as (smap2 & df2 & Hloop & K2 & Hmap2 & Hlev2).
    exists smap2, df2. split; [exact Hloop|]. split; [exact K2|]. split.
    + intros d'. rewrite Hmap2, Hmap.
      destruct (decide (d' = d)) as [->|Hne].
      * rewrite (bool_decide_eq_true_2 (d ∈ d :: days)) by left.
        destruct (flt (morning_span d dates high low) (Fin 25)).
        -- rewrite !andb_false_r. reflexivity.
        -- rewrite !andb_true_r. cbn [andb].
           rewrite lookup_insert_eq.
           destruct (bool_decide (d ∈ days)); reflexivity.
      * assert (Hdec : bool_decide (d' ∈ d :: days) = bool_decide (d' ∈ days)).
        { apply bool_decide_ext. rewrite elem_of_cons. tauto. }
        rewrite Hdec.
        assert (Hsame : smap1 !! d' = smap !! d').
        { rewrite Hmap. destruct (flt (morning_span d dates high low) (Fin 25));
            [reflexivity|]. rewrite lookup_insert_ne by congruence. reflexivity. }
        rewrite <- Hmap, Hsame. reflexivity.
    + intros i t a Ht Hai Hwide Hor.
      apply (Hlev2 i t a Ht Hai Hwide).
      destruct (decide (date_of t = d)) as [Hd|Hne].
      * right. rewrite Hd.
        specialize (Hwrite ltac:(rewrite <- Hd; exact Hwide) i t a Ht Hd Hai).
        exact Hwrite.
      * destruct Hor as [Hin | Hlev].
        -- apply elem_of_cons in Hin as [Hin | Hin]; [contradiction|].
           left. exact Hin.
        -- right.
           assert (Hsame : forall c, cell_at df1 c i = cell_at df c i).
           { intros c. apply K1cells. rewrite (day_mask_lookup d dates i t Ht).
             destruct (Z.eqb_spec (date_of t) d); congruence. }
           destruct (levels_transfer df df1 i Hsame) as (Tb & Tz).
           revert Hlev.
           destruct (String.eqb (choose_strategy (date_of t) dates high low
                                   adaptive active) "ORB"); auto.
Qed.

Lemma loop_frame_numcol (df : DataFrame) (dates : list Timestamp) (c : string) :
  c ∉ ORB_COLS -> c <> "date_only" ->
  numcol (loop_frame df dates) c = numcol df c.
Proof.
  intros Hc Hne. unfold numcol, getcol, loop_frame, setcol. cbn [columns].
  rewrite lookup_insert_ne by congruence.
  rewrite with_default_cols_lookup.
  destruct (decide (c ∈ ORB_COLS)); [contradiction|reflexivity].
Qed.

Lemma loop_frame_levels (df : DataFrame) (dates : list Timestamp) (c : string) :
  c ∈ ORB_COLS ->
  columns (loop_frame df dates) !! c
  = Some (default (replicate (nrows df) (Num NaN)) (columns df !! c)).
Proof.
  intros Hc. unfold loop_frame, setcol. cbn [columns].
  rewrite lookup_insert_ne.
  - rewrite with_default_cols_lookup.
    destruct (decide (c ∈ ORB_COLS)); [reflexivity|contradiction].
  - intros <-. apply ORB_COLS_elem in Hc.
    destruct Hc as [?|[?|[?|?]]]; discriminate.
Qed.

Lemma loop_frame_present (n : nat) (df : DataFrame) (dates : list Timestamp) :
  levels_fit n df -> levels_present n (loop_frame df dates).
Proof.
  intros (Hn & Hfit). split.
  - unfold loop_frame, setcol, nrows. cbn [index].
    rewrite with_default_cols_index. exact Hn.
  - intros c Hc. rewrite (loop_frame_levels df dates c Hc).
    eexists. split; [reflexivity|].
    destruct (columns df !! c) as [col|] eqn:E; cbn [default].
    + apply (Hfit c col Hc E).
    + rewrite length_replicate. exact Hn.
Qed.

(** [assign_strategy_levels] on a frame with a [date] column, when the
    per-day loop is entered. *)
Lemma assign_via_loop (df : DataFrame) (eb sf tf : fl) (adaptive : bool)
    (active : string) (smap : gmap Z string) (dates : list Timestamp) :
  columns df !! "date" = Some (TS <$> dates) ->
  adaptive || String.eqb active "ORB" = true ->
  assign_strategy_levels df eb sf tf adaptive active smap
  = match day_loop (day_body eb sf tf adaptive active (loop_frame df dates) dates)
                   (group_keys dates) (loop_frame df dates) smap with
    | (smap', Ok out) =>
        (smap', Ok (if String.eqb active "VWAP_REV"
                    then zero_orb_cols (dropcol out "date_only")
                    else dropcol out "date_only"))
    | failed => failed
    end.
Proof.
  intros Hdate Hloop. unfold assign_strategy_levels. rewrite Hloop.
  unfold getcol. rewrite with_default_cols_lookup.
  destruct (decide ("date" ∈ ORB_COLS)) as [Hin|_].
  { apply ORB_COLS_elem in Hin. destruct Hin as [?|[?|[?|?]]]; discriminate. }
  rewrite Hdate. cbn [rbind]. rewrite datetimes_fmap.
  fold (loop_frame df dates).
  destruct (day_loop _ _ _ _) as [smap' [out|e]]; reflexivity.
Qed.

(** The whole call on a frame that has what the loop reads. *)
Lemma assign_levels_run (df : DataFrame) (eb sf tf : fl) (adaptive : bool)
    (active : string) (smap : gmap Z string) (dates : list Timestamp)
    (high low atr : list fl) :
  frame_ready df dates high low -> numcol df "ATR" = Ok atr ->
  levels_fit (length dates) df ->
  adaptive || String.eqb active "ORB" = true ->
  exists smap' mid,
    assign_strategy_levels df eb sf tf adaptive active smap
    = (smap', Ok (if String.eqb active "VWAP_REV"
                  then zero_orb_cols (dropcol mid "date_only")
                  else dropcol mid "date_only")) /\
    (forall d, smap' !! d
               = if bool_decide (d ∈ group_keys dates)
                    && negb (flt (morning_span d dates high low) (Fin 25))
                 then Some (choose_strategy d dates high low adaptive active)
                 else smap !! d) /\
    (forall i t a, dates !! i = Some t -> atr !! i = Some a ->
       flt (morning_span (date_of t) dates high low) (Fin 25) = false ->
       if String.eqb (choose_strategy (date_of t) dates high low adaptive active)
                     "ORB"
       then has_breakout_levels mid i
              (fl_max (select (morning_mask (date_of t) dates) high))
              (fl_min (select (morning_mask (date_of t) dates) low)) a eb sf tf
       else has_zero_levels mid i).
Proof.
  intros (Hdate & Hh & Hl & _) Ha Hfit Hloop.
  rewrite (assign_via_loop df eb sf tf adaptive active smap dates Hdate Hloop).
  pose proof (loop_frame_present _ df dates Hfit) as P.
  assert (K : levels_only (loop_frame df dates) (loop_frame df dates)).
  { apply levels_only_refl. intros c Hc.
    destruct (proj2 P c Hc) as (col & -> & _). eauto. }
  destruct (day_loop_levels eb sf tf adaptive active (loop_frame df dates) dates
              high low atr (length dates) (group_keys dates)
              (loop_frame df dates) (loop_frame df dates) smap)
    as (smap' & mid & Hrun & _ & Hmap & Hlev).
  { rewrite loop_frame_numcol; [exact Hh|not_level|discriminate]. }
  { rewrite loop_frame_numcol; [exact Hl|not_level|discriminate]. }
  { rewrite loop_frame_numcol; [exact Ha|not_level|discriminate]. }
  { reflexivity. }
  { exact K. }
  { exact P. }
  rewrite Hrun. exists smap', mid. split; [reflexivity|]. split; [exact Hmap|].
  intros i t a Ht Hai Hwide.
  apply (Hlev i t a Ht Hai Hwide). left.
  apply group_keys_elem. exists t. split; [|reflexivity].
  eapply list_elem_of_lookup_2, Ht.
Qed.

Lemma dropcol_cell (df : DataFrame) (c c' : string) (i : nat) :
  c' <> c -> cell_at (dropcol df c) c' i = cell_at df c' i.
Proof.
  intros Hne. unfold cell_at, dropcol. cbn [columns].
  rewrite lookup_delete_ne by congruence. reflexivity.
Qed.

(** The strategy map the call leaves, by day. *)
Lemma assign_levels_map (df : DataFrame) (eb sf tf : fl)
    (adaptive : bool) (active : string) (smap : gmap Z string)
    (dates : list Timestamp) (high low atr : list fl) (d : Z) :
  frame_ready df dates high low -> numcol df "ATR" = Ok atr ->
  levels_fit (length dates) df ->
  adaptive || String.eqb active "ORB" = true ->
  fst (assign_strategy_levels df eb sf tf adaptive active smap) !! d
  = if bool_decide (d ∈ map date_of dates)
       && negb (flt (morning_span d dates high low) (Fin 25))
    then Some (choose_strategy d dates high low adaptive active)
    else smap !! d.
Proof.
  intros Hready Ha Hfit Hloop.
  destruct (assign_levels_run df eb sf tf adaptive active smap dates high low atr
              Hready Ha Hfit Hloop) as (smap' & mid & Hrun & Hmap & _).
  rewrite Hrun. cbn [fst]. rewrite Hmap.
  assert (Hdec : bool_decide (d ∈ group_keys dates)
                 = bool_decide (d ∈ map date_of dates)).
  { apply bool_decide_ext. rewrite group_keys_elem.
    change (map date_of dates) with (date_of <$> dates).
    rewrite list_elem_of_fmap. split; intros (t & H1 & H2); exists t; auto. }
  rewrite Hdec. reflexivity.
Qed.

(** X21.  The daily strategy map after [assign_strategy_levels], on a
    frame that has what the per-day loop reads and when the loop is
    entered (adaptive mode, or ORB as the active strategy): a day gets
    an entry exactly when the frame has a bar of that day and its
    opening-range span is not below 25, and the entry is what
    [choose_strategy] returns for the day; every other key, including a
    narrow day of the frame, keeps what the caller's map held for it. *)
Theorem strategy_map_after_levels (df : DataFrame) (eb sf tf : fl)
    (adaptive : bool) (active : string) (smap : gmap Z string)
    (dates : list Timestamp) (high low atr : list fl) :
  frame_ready df dates high low -> numcol df "ATR" = Ok atr ->
  levels_fit (length dates) df ->
  adaptive || String.eqb active "ORB" = true ->
  forall d : Z,
    fst (assign_strategy_levels df eb sf tf adaptive active smap) !! d
    = if bool_decide (d ∈ map date_of dates)
         && negb (flt (morning_span d dates high low) (Fin 25))
      then Some (choose_strategy d dates high low adaptive active)
      else smap !! d.
Proof.
  intros Hready Ha Hfit Hloop d.
  apply (assign_levels_map df eb sf tf adaptive active smap dates high low atr d
           Hready Ha Hfit Hloop).
Qed.

(** X22.  The levels [assign_strategy_levels] gives a bar of a day whose
    opening-range span is not below 25, when the active strategy is not
    VWAP_REV: on a day for which [choose_strategy] returns ORB, the long
    entry is the opening-range high plus the buffer, the short entry the
    opening-range low minus the buffer, the stop distance
    max(20, ATR x sl_factor) with 20 for a missing ATR, and the target
    distance the stop distance times the target factor; on any other
    such day all four levels are zero. *)
Theorem wide_day_levels (df : DataFrame) (eb sf tf : fl)
    (adaptive : bool) (active : string) (smap : gmap Z string)
    (dates : list Timestamp) (high low atr : list fl)
    (i : nat) (t : Timestamp) (a : fl) :
  frame_ready df dates high low -> numcol df "ATR" = Ok atr ->
  levels_fit (length dates) df ->
  adaptive || String.eqb active "ORB" = true ->
  String.eqb active "VWAP_REV" = false ->
  dates !! i = Some t -> atr !! i = Some a ->
  flt (morning_span (date_of t) dates high low) (Fin 25) = false ->
  exists smap' out,
    assign_strategy_levels df eb sf tf adaptive active smap = (smap', Ok out) /\
    if String.eqb (choose_strategy (date_of t) dates high low adaptive active) "ORB"
    then has_breakout_levels out i
           (fl_max (select (morning_mask (date_of t) dates) high))
           (fl_min (select (morning_mask (date_of t) dates) low)) a eb sf tf
    else has_zero_levels out i.
Proof.
  intros Hready Ha Hfit Hloop Hactive Ht Hai Hwide.
  destruct (assign_levels_run df eb sf tf adaptive active smap dates high low atr
              Hready Ha Hfit Hloop) as (smap' & mid & Hrun & _ & Hlev).
  rewrite Hactive in Hrun. eexists _, _. split; [exact Hrun|].
  specialize (Hlev i t a Ht Hai Hwide).
  assert (Hsame : forall c, c ∈ ORB_COLS ->
            cell_at (dropcol mid "date_only") c i = cell_at mid c i).
  { intros c Hc. apply dropcol_cell. intros ->. apply ORB_COLS_elem in Hc.
    destruct Hc as [?|[?|[?|?]]]; discriminate. }
  revert Hlev.
  destruct (String.eqb (choose_strategy (date_of t) dates high low
                          adaptive active) "ORB").
  - unfold has_breakout_levels. cbv zeta. intros (H1 & H2 & H3 & H4).
    repeat split; (rewrite Hsame by level); assumption.
  - intros Hlev c Hc. rewrite (Hsame c Hc). apply Hlev, Hc.
Qed.

Lemma lively_frame_fit :
  frame_ready lively_frame (bar_dates lively_frame)
    (series lively_frame "high") (series lively_frame "low") /\
  numcol lively_frame "ATR" = Ok (series lively_frame "ATR") /\
  levels_fit (length (bar_dates lively_frame)) lively_frame.
Proof.
  split; [|split].
  - unfold frame_ready. repeat split; try (vm_compute; reflexivity).
    eexists. vm_compute. reflexivity.
  - vm_compute. reflexivity.
  - split; [vm_compute; reflexivity|].
    intros c col Hc Hcol. apply ORB_COLS_elem in Hc.
    destruct Hc as [-> | [-> | [-> | ->]]]; vm_compute in Hcol; discriminate Hcol.
Qed.

(** The theorem on the lively session in adaptive mode: its day is
    mapped to the breakout strategy, the day before to nothing. *)
Lemma strategy_map_after_levels_witness :
  fst (assigned lively_frame true "ORB") !! 20000%Z = Some "ORB" /\
  fst (assigned lively_frame true "ORB") !! 19999%Z = None.
Proof.
  destruct lively_frame_fit as (Hready & Ha & Hfit).
  unfold assigned. split.
  - rewrite (strategy_map_after_levels lively_frame (Fin 5) (Fin (15 # 10)) (Fin 4)
               true "ORB" ∅ _ _ _ _ Hready Ha Hfit eq_refl 20000%Z).
    vm_compute. reflexivity.
  - rewrite (strategy_map_after_levels lively_frame (Fin 5) (Fin (15 # 10)) (Fin 4)
               true "ORB" ∅ _ _ _ _ Hready Ha Hfit eq_refl 19999%Z).
    vm_compute. reflexivity.
Defined.

(** The theorem on the first bar of the lively session, whose ATR is
    still missing: entries at 154 and 94, a stop distance of 30. *)
Lemma wide_day_levels_witness :
  exists smap' out,
    assigned lively_frame true "ORB" = (smap', Ok out) /\
    cell_at out "orb_long_entry" 0 = Some (Num (Fin 154)) /\
    cell_at out "orb_short_entry" 0 = Some (Num (Fin 94)) /\
    cell_at out "orb_sl" 0 = Some (Num (Fin (300 # 10))).
Proof.
  destruct lively_frame_fit as (Hready & Ha & Hfit).
  destruct (wide_day_levels lively_frame (Fin 5) (Fin (15 # 10)) (Fin 4)
              true "ORB" ∅ _ _ _ _ 0%nat
              (ist (20000 * day_seconds + dt_time 9 15)) NaN
              Hready Ha Hfit eq_refl eq_refl
              ltac:(vm_compute; reflexivity) ltac:(vm_compute; reflexivity)
              ltac:(vm_compute; reflexivity))
    as (smap' & out & Hrun & Hlev).
  assert (E : String.eqb
                (choose_strategy
                   (date_of (ist (20000 * day_seconds + dt_time 9 15)))
                   (bar_dates lively_frame) (series lively_frame "high")
                   (series lively_frame "low") true "ORB") "ORB" = true)
    by (vm_compute; reflexivity).
  rewrite E in Hlev. destruct Hlev as (H1 & H2 & H3 & _).
  exists smap', out. split; [exact Hrun|].
  rewrite H1, H2, H3. repeat split; vm_compute; reflexivity.
Defined.

Lemma np_maximum_floor (x : fl) :
  isna x = false -> fle (Fin 20) (np_maximum (Fin 20) x) = true.
Proof.
  intros Hx. unfold np_maximum. cbn [isna orb]. rewrite Hx.
  destruct x as [| |x|]; cbn in *; try reflexivity; try discriminate.
  destruct (Qlt_bool 20 x) eqn:E; cbn; q_reflect; lra.
Qed.

Lemma fmul_pos_not_nan (a : fl) (q : Q) :
  isna a = false -> (0 < q)%Q -> isna (a * Fin q)%fl = false.
Proof.
  intros Ha Hq.
  assert (Hz : Qsgn_zero q = false) by (q_reflect; lra).
  destruct a; cbn in *; try discriminate; try reflexivity;
    unfold inf_scaled; rewrite Hz; destruct (Bool.eqb _ _); reflexivity.
Qed.

(** X23.  With a positive finite stop factor, the stop distance
    [assign_strategy_levels] gives a bar of a breakout day is a number
    and is at least 20, whatever the ATR of the bar is (missing,
    infinite or negative), and the target distance is that distance
    times the target factor. *)
Theorem breakout_stop_floor (df : DataFrame) (eb tf : fl) (q : Q)
    (adaptive : bool) (active : string) (smap : gmap Z string)
    (dates : list Timestamp) (high low atr : list fl)
    (i : nat) (t : Timestamp) (a : fl) :
  frame_ready df dates high low -> numcol df "ATR" = Ok atr ->
  levels_fit (length dates) df ->
  adaptive || String.eqb active "ORB" = true ->
  String.eqb active "VWAP_REV" = false ->
  dates !! i = Some t -> atr !! i = Some a ->
  flt (morning_span (date_of t) dates high low) (Fin 25) = false ->
  choose_strategy (date_of t) dates high low adaptive active = "ORB" ->
  (0 < q)%Q ->
  exists smap' out stop,
    assign_strategy_levels df eb (Fin q) tf adaptive active smap = (smap', Ok out) /\
    cell_at out "orb_sl" i = Some (Num stop) /\
    fle (Fin 20) stop = true /\
    cell_at out "orb_target" i = Some (Num (stop * tf)%fl).
Proof.
  intros Hready Ha Hfit Hloop Hactive Ht Hai Hwide Hchoice Hq.
  destruct (assign_levels_run df eb (Fin q) tf adaptive active smap dates high low
              atr Hready Ha Hfit Hloop) as (smap' & mid & Hrun & _ & Hlev).
  rewrite Hactive in Hrun.
  specialize (Hlev i t a Ht Hai Hwide). rewrite Hchoice in Hlev.
  cbn [String.eqb Ascii.eqb Bool.eqb] in Hlev.
  destruct Hlev as (_ & _ & Hsl & Htarget).
  eexists _, _, _. split; [exact Hrun|].
  rewrite !dropcol_cell by discriminate.
  split; [exact Hsl|]. split; [|exact Htarget].
  apply np_maximum_floor, fmul_pos_not_nan; [|exact Hq].
  destruct a; reflexivity.
Qed.

Lemma breakout_stop_floor_witness :
  exists smap' out stop,
    assigned lively_frame true "ORB" = (smap', Ok out) /\
    cell_at out "orb_sl" 13 = Some (Num stop) /\
    fle (Fin 20) stop = true.
Proof.
  destruct lively_frame_fit as (Hready & Ha & Hfit).
  destruct (breakout_stop_floor lively_frame (Fin 5) (Fin 4) (15 # 10)
              true "ORB" ∅ _ _ _ _ 13%nat
              (ist (20000 * day_seconds + dt_time 9 15 + 300 * 13)) (Fin (280 # 14))
              Hready Ha Hfit eq_refl eq_refl
              ltac:(vm_compute; reflexivity) ltac:(vm_compute; reflexivity)
              ltac:(vm_compute; reflexivity) ltac:(vm_compute; reflexivity)
              ltac:(reflexivity))
    as (smap' & out & stop & Hrun & Hsl & Hfloor & _).
  exists smap', out, stop. auto.
Defined.

End LevelsMore.

(* ===================================================================== *)
(** * The warm-up of the indicators *)
(* ===================================================================== *)

Module Warmup.
Import Indicators.

(** When [add_technical_indicators] returns, the four price columns
    were numeric and the result is [indicator_frame]. *)
Lemma add_technical_indicators_inv (df out : DataFrame) :
  add_technical_indicators df = Ok out ->
  exists open high low close,
    numcol df "open" = Ok open /\ numcol df "high" = Ok high /\
    numcol df "low" = Ok low /\ numcol df "close" = Ok close /\
    out = indicator_frame df open high low close.
Proof.
  intros H.
  destruct (numcol df "open") as [open|e] eqn:Ho.
  2:{ unfold add_technical_indicators in H. rewrite Ho in H. discriminate H. }
  destruct (numcol df "close") as [close|e] eqn:Hc.
  2:{ unfold add_technical_indicators in H.
      rewrite Ho in H. cbn [rbind] in H.
      rewrite numcol_setnum_ne in H by discriminate.
      rewrite Hc in H. discriminate H. }
  destruct (numcol df "high") as [high|e] eqn:Hh.
  2:{ unfold add_technical_indicators in H.
      repeat (rewrite ?numcol_setnum_ne in H by discriminate;
              rewrite ?Ho, ?Hc, ?Hh in H; cbn [rbind] in H).
      discriminate H. }
  destruct (numcol df "low") as [low|e] eqn:Hl.
  2:{ unfold add_technical_indicators in H.
      repeat (rewrite ?numcol_setnum_ne in H by discriminate;
              rewrite ?Ho, ?Hc, ?Hh, ?Hl in H; cbn [rbind] in H).
      discriminate H. }
  rewrite (add_technical_indicators_eq df open high low close Ho Hh Hl Hc) in H.
  injection H as <-. exists open, high, low, close. auto.
Qed.

(** The rolling mean over 14 bars has nothing to say on the first 13. *)
Lemma rolling_mean_warmup (l : list fl) (i : nat) (x : fl) :
  (i < 13)%nat -> rolling_mean 14 l !! i = Some x -> x = NaN.
Proof.
  intros Hi. unfold rolling_mean.
  change (map ?f ?s) with (f <$> s). rewrite list_lookup_fmap.
  destruct (seq 0 (length l) !! i) as [j|] eqn:E; [|discriminate].
  apply lookup_seq in E as [-> _]. cbn [fmap option_fmap option_map].
  intros [= <-]. unfold rolling_mean_at. change (0 + i)%nat with i.
  destruct (Nat.ltb_spec (i + 1) 14); [reflexivity|lia].
Qed.

(** The ATR cell of a row among the first 13 of a frame with its
    indicators: missing, or NaN. *)
Lemma warmup_atr (df out final : DataFrame) (row : Row) (i : nat) :
  add_technical_indicators df = Ok out ->
  columns final !! "ATR" = columns out !! "ATR" ->
  (i < 13)%nat -> iloc final i = Ok row ->
  getcell row "ATR" = Ok (Num NaN) \/ getcell row "ATR" = Raise (KeyError "ATR").
Proof.
  intros Hrun Hsame Hi Hrow.
  destruct (add_technical_indicators_inv df out Hrun)
    as (open & high & low & close & _ & _ & _ & _ & ->).
  unfold iloc in Hrow. destruct (index _ !! i); [|discriminate Hrow].
  injection Hrow as <-. unfold getcell. cbn [cells].
  rewrite lookup_omap, Hsame, indicator_frame_columns.
  rewrite lookup_insert_ne by discriminate.
  rewrite lookup_insert_ne by discriminate.
  rewrite lookup_insert_ne by discriminate.
  rewrite lookup_insert_eq. cbn.
  rewrite list_lookup_fmap.
  destruct (ATR_of high low !! i) as [x|] eqn:E; cbn; [|right; reflexivity].
  left. unfold ATR_of in E. apply rolling_mean_warmup in E; [|exact Hi].
  rewrite E. reflexivity.
Qed.

Lemma vwap_signal_rejection (s : VWAPStrategy) (row : Row) (r : TradeDecision) :
  vwap_signal s row = Ok (inl r) -> d_valid r = false.
Proof.
  unfold vwap_signal, vwap_long_cond, vwap_short_cond. intros H.
  repeat first
    [ discriminate H
    | injection H as <-; reflexivity
    | match type of H with
      | context [rbind ?m _] =>
          let E := fresh "E" in destruct m eqn:E; cbn [rbind] in H
      | context [if ?b then _ else _] =>
          let E := fresh "E" in destruct b eqn:E; cbn [rbind] in H
      end ].
Qed.

(** X24.  No bar among the first 13 of a frame can be traded: the ATR
    of [add_technical_indicators] is a 14-bar rolling mean, so on each
    of these rows it is NaN, and on a row of any frame that carries that
    ATR column (the frame itself, or the frame with its strategy levels)
    both evaluators return a decision that is not valid, whatever the
    prices, the levels and the parameters of the reversion strategy. *)
Theorem warmup_bars_rejected (df out final : DataFrame) (row : Row) (i : nat)
    (s : VWAPStrategy) :
  add_technical_indicators df = Ok out ->
  columns final !! "ATR" = columns out !! "ATR" ->
  (i < 13)%nat -> iloc final i = Ok row ->
  d_valid (ORB_evaluate row) = false /\ d_valid (VWAP_evaluate s row) = false.
Proof.
  intros Hrun Hsame Hi Hrow.
  pose proof (warmup_atr df out final row i Hrun Hsame Hi Hrow) as Hatr. split.
  - unfold ORB_evaluate, ORB_body.
    destruct Hatr as [-> | ->];
      repeat first
        [ reflexivity
        | progress cbn [rbind on_exception cell_isna isna as_num]
        | match goal with
          | |- context [rbind ?m _] =>
              let E := fresh "E" in destruct m eqn:E; cbn [rbind on_exception]
          | |- context [if ?b then _ else _] =>
              let E := fresh "E" in destruct b eqn:E; cbn [rbind on_exception]
          end ].
  - unfold VWAP_evaluate, VWAP_body.
    destruct (vwap_signal s row) as [[r | [side entry]] | e] eqn:E;
      cbn [rbind on_exception].
    + apply (vwap_signal_rejection s row r E).
    + destruct (Evaluators.vwap_signal_inv s row side entry E)
        as (open & high & low & atr & vwap & prev & ema
            & _ & _ & _ & _ & Ha & _ & _ & _ & _ & Hge & _).
      unfold getnum in Ha.
      destruct Hatr as [Hnan | Hmiss].
      * rewrite Hnan in Ha. cbn in Ha. injection Ha as <-. discriminate Hge.
      * rewrite Hmiss in Ha. discriminate Ha.
    + reflexivity.
Qed.

Lemma warmup_bars_rejected_witness :
  d_valid (ORB_evaluate (row_of lively_levels 5)) = false /\
  d_valid (VWAP_evaluate example_vwap (row_of lively_levels 5)) = false.
Proof.
  apply (warmup_bars_rejected
           (frame_of_bars (imap (trend_bar 20 10) (replicate 15 100%Q)))
           lively_frame lively_levels (row_of lively_levels 5) 5 example_vwap);
    [vm_compute; reflexivity | vm_compute; reflexivity | lia
    | vm_compute; reflexivity].
Defined.

End Warmup.

(* ===================================================================== *)
(** * From the strategy map to the evaluator *)
(* ===================================================================== *)

Module Routing.
Import Levels LevelsMore.

Lemma choose_strategy_adaptive (d : Z) (dates : list Timestamp)
    (high low : list fl) (active : string) :
  choose_strategy d dates high low true active = "ORB" \/
  choose_strategy d dates high low true active = "VWAP_REV".
Proof.
  unfold choose_strategy. cbn [negb].
  destruct (truthy _ && fgt _ (Fin 15)); auto.
Qed.

Lemma quiet_frame_fit :
  frame_ready quiet_frame (bar_dates quiet_frame)
    (series quiet_frame "high") (series quiet_frame "low") /\
  numcol quiet_frame "ATR" = Ok (series quiet_frame "ATR") /\
  levels_fit (length (bar_dates quiet_frame)) quiet_frame.
Proof.
  split; [|split].
  - unfold frame_ready. repeat split; try (vm_compute; reflexivity).
    eexists. vm_compute. reflexivity.
  - vm_compute. reflexivity.
  - split; [vm_compute; reflexivity|].
    intros c col Hc Hcol. apply ORB_COLS_elem in Hc.
    destruct Hc as [-> | [-> | [-> | ->]]]; vm_compute in Hcol; discriminate Hcol.
Qed.

(** X25.  Adaptive mode end to end, on a [MarketData] object whose
    reversion parameters were never set (its constructor does not set
    them): with the strategy map that [assign_strategy_levels] fills
    from an empty one, a row is handed to the breakout evaluator, and
    then to the filter chain if the decision is valid, exactly when its
    day is a day of the frame with an opening-range span of at least 25
    for which [choose_strategy] returned ORB.  For a row of any other
    day (a narrow day, a day chosen for reversion, a day the frame does
    not have) [decide_trade_from_row] raises [AttributeError]. *)
Theorem adaptive_routing (c : Config) (st : TradeState) (sl tg : fl)
    (recent : option DataFrame) (df : DataFrame) (eb sf tf : fl) (active : string)
    (dates : list Timestamp) (high low atr : list fl) (row : Row) (t : Timestamp) :
  frame_ready df dates high low -> numcol df "ATR" = Ok atr ->
  levels_fit (length dates) df ->
  String.eqb (strategy_mode c) "adaptive" = true ->
  getcell row "date" = Ok (TS t) ->
  let md := mkMD c st sl tg recent
                 (fst (assign_strategy_levels df eb sf tf true active ∅))
                 None None None None in
  decide_trade_from_row md row
  = if bool_decide (date_of t ∈ map date_of dates)
       && negb (flt (morning_span (date_of t) dates high low) (Fin 25))
       && String.eqb (choose_strategy (date_of t) dates high low true active) "ORB"
    then (if negb (d_valid (ORB_evaluate row)) then Ok (ORB_evaluate row)
          else apply_filters md row (ORB_evaluate row))
    else Raise (AttributeError "vwap_dev").
Proof.
  intros Hready Ha Hfit Hmode Hdate md.
  unfold decide_trade_from_row. cbn [config md]. rewrite Hmode, Hdate.
  cbn [rbind as_ts daily_strategy_map md].
  rewrite (assign_levels_map df eb sf tf true active ∅ dates high low atr
             (date_of t) Hready Ha Hfit eq_refl).
  destruct (bool_decide _ && negb _); cbn [andb].
  - cbn [default].
    destruct (choose_strategy_adaptive (date_of t) dates high low active)
      as [-> | ->]; reflexivity.
  - rewrite lookup_empty. reflexivity.
Qed.

(** The theorem on the quiet session: its only day is narrow, so the
    decision for any of its bars ends in the exception. *)
Lemma adaptive_routing_witness :
  decide_trade_from_row
    (mkMD example_config TradeState_init (Fin (15 # 10)) (Fin 4) (Some quiet_frame)
          (fst (assigned quiet_frame true "ORB")) None None None None)
    quiet_row
  = Raise (AttributeError "vwap_dev").
Proof.
  destruct quiet_frame_fit as (Hready & Ha & Hfit).
  unfold assigned.
  rewrite (adaptive_routing example_config TradeState_init (Fin (15 # 10)) (Fin 4)
             (Some quiet_frame) quiet_frame (Fin 5) (Fin (15 # 10)) (Fin 4) "ORB"
             _ _ _ _ quiet_row
             (ist (20000 * day_seconds + dt_time 9 15 + 300 * 5))
             Hready Ha Hfit eq_refl ltac:(vm_compute; reflexivity)).
  vm_compute. reflexivity.
Defined.

End Routing.

(* ===================================================================== *)
(** * Retrying a fetch *)
(* ===================================================================== *)

Module RetryFacts.
Import Retry.

Lemma retry_from_fails {A} (func : nat -> result A) (backoff : Z)
    (attempt remaining : nat) :
  (forall j, (attempt <= j < attempt + remaining)%nat -> exists e, func j = Raise e) ->
  retry_from func backoff attempt remaining
  = (None, map (fun j => (backoff ^ Z.of_nat j)%Z) (seq attempt remaining)).
Proof.
  revert attempt. induction remaining as [|n IH]; intros attempt Hfail.
  - reflexivity.
  - cbn [retry_from seq map].
    destruct (Hfail attempt ltac:(lia)) as [e ->].
    rewrite IH; [reflexivity|].
    intros j Hj. apply Hfail. lia.
Qed.

Lemma retry_from_succeeds {A} (func : nat -> result A) (backoff : Z)
    (attempt remaining k : nat) (a : A) :
  (forall j, (attempt <= j < attempt + k)%nat -> exists e, func j = Raise e) ->
  func (attempt + k)%nat = Ok a -> (k < remaining)%nat ->
  retry_from func backoff attempt remaining
  = (Some a, map (fun j => (backoff ^ Z.of_nat j)%Z) (seq attempt k)).
Proof.
  revert attempt remaining. induction k as [|k IH]; intros attempt remaining Hfail Hok Hk.
  - destruct remaining as [|n]; [lia|]. cbn [retry_from seq map].
    rewrite Nat.add_0_r in Hok. rewrite Hok. reflexivity.
  - destruct remaining as [|n]; [lia|]. cbn [retry_from seq map].
    destruct (Hfail attempt ltac:(lia)) as [e ->].
    rewrite (IH (S attempt) n); [reflexivity| | |lia].
    + intros j Hj. apply Hfail. lia.
    + replace (S attempt + k)%nat with (attempt + S k)%nat by lia. exact Hok.
Qed.

(** X26.  [retry_with_backoff] returns the value of the first call
    that does not raise, having slept [backoff ** j] seconds after each
    failed call [j] before it; when all [retries] calls raise it returns
    [None], and it has slept after every one of them, the last
    included. *)
Theorem retry_outcome {A} (func : nat -> result A) (backoff : Z)
    (retries k : nat) :
  (forall j, (j < k)%nat -> exists e, func j = Raise e) ->
  (k <= retries)%nat ->
  (k = retries ->
   retry_with_backoff retries backoff func
   = (None, map (fun j => (backoff ^ Z.of_nat j)%Z) (seq 0 retries))) /\
  (forall a, (k < retries)%nat -> func k = Ok a ->
   retry_with_backoff retries backoff func
   = (Some a, map (fun j => (backoff ^ Z.of_nat j)%Z) (seq 0 k))).
Proof.
  intros Hfail Hk. unfold retry_with_backoff. split.
  - intros ->. apply retry_from_fails. intros j Hj. apply Hfail. lia.
  - intros a Hlt Hok. apply retry_from_succeeds; [|exact Hok|exact Hlt].
    intros j Hj. apply Hfail. lia.
Qed.

Lemma retry_outcome_witness :
  retry_with_backoff 10 3
    (fun j => if (j <? 2)%nat then Raise (ValueError "no data") else Ok j)
  = (Some 2%nat, [1; 3]%Z) /\
  snd (retry_with_backoff 3 3
         (fun _ => Raise (ValueError "no data") : result nat))
  = [1; 3; 9]%Z.
Proof.
  split.
  - apply (proj2 (retry_outcome
                    (fun j => if (j <? 2)%nat then Raise (ValueError "no data")
                              else Ok j) 3 10 2
                    ltac:(intros [|[|j]] Hj; [eexists; reflexivity..|lia])
                    ltac:(lia)) 2%nat ltac:(lia) eq_refl).
  - rewrite (proj1 (retry_outcome
                      (fun _ => Raise (ValueError "no data") : result nat) 3 3 3
                      ltac:(intros j _; eexists; reflexivity) ltac:(lia)) eq_refl).
    reflexivity.
Defined.

End RetryFacts.

(* ===================================================================== *)
(** * Watching an open trade *)
(* ===================================================================== *)

Module MonitorFacts.
Import TradeExecutor Exit Monitor.

Lemma with_state_same (ex : t) : with_state ex (state ex) = ex.
Proof. destruct ex. reflexivity. Qed.

(** A call of [check_trailing_sl] that returns has changed nothing. *)
Lemma check_trailing_sl_quiet (ex : t) (trade_date : option Timestamp)
    (price : fl) :
  snd (check_trailing_sl ex trade_date price) = Ok tt ->
  check_trailing_sl ex trade_date price = (ex, Ok tt).
Proof.
  unfold check_trailing_sl.
  destruct (negb (default false (open_trade (state ex)))); [reflexivity|].
  cbn [snd]. intros Hok.
  destruct (TrailingMore.check_and_update_sl_outcome (state ex) trade_date price
              (atr ex)) as [(Hst & _) | (old & new & _ & _ & Heq)].
  - rewrite Hst, Hok, with_state_same. reflexivity.
  - rewrite Heq in Hok. discriminate Hok.
Qed.

(** X27.  A tick that moves the trailing stop ends the monitoring of
    the trade: [check_and_update_sl] has written the new stop and the
    time of the update when [_maybe_update_sl] raises, the handler of
    [monitor_trade] logs the exception and returns, and the trade is
    left open with the new stop, nothing booked and nothing recorded,
    whatever the price is compared with that stop. *)
Theorem moved_stop_ends_monitoring (ex : t) (trade_date : option Timestamp)
    (price : fl) (now : Timestamp) (refetched : result (option DataFrame)) :
  default false (open_trade (state ex)) = true ->
  fst (SLManager.check_and_update_sl (state ex) trade_date price (atr ex))
  <> state ex ->
  exists old new,
    stop_loss (state ex) = Some old /\
    flt (fabs (new - old)) (Fin (1 # 100)) = false /\
    monitor_step ex trade_date price now refetched
    = (mk (config ex)
          (SLManager.set_last_sl_update_time
             (SLManager.set_stop_loss (state ex) (Some new)) trade_date)
          (atr ex) (atr_history ex) (margins ex) (lots ex) (events ex),
       Return SLManager.TradeWinUtils_no_config).
Proof.
  intros Hopen Hmoved.
  destruct (TrailingMore.check_and_update_sl_outcome (state ex) trade_date price
              (atr ex)) as [(Hst & _) | (old & new & Hold & Hstep & Heq)];
    [contradiction|].
  exists old, new. split; [exact Hold|]. split; [exact Hstep|].
  unfold monitor_step, check_trailing_sl. rewrite Hopen. cbn [negb].
  rewrite Heq. reflexivity.
Qed.

Lemma moved_stop_ends_monitoring_witness :
  exists new,
    monitor_step example_executor profit_tick_time (Fin 22050) (ist 600) (Ok None)
    = (with_state example_executor
         (SLManager.set_last_sl_update_time
            (SLManager.set_stop_loss example_long_state (Some new))
            profit_tick_time),
       Return SLManager.TradeWinUtils_no_config).
Proof.
  destruct (moved_stop_ends_monitoring example_executor profit_tick_time
              (Fin 22050) (ist 600) (Ok None) eq_refl
              ltac:(vm_compute; discriminate))
    as (old & new & _ & _ & Hstep).
  exists new. exact Hstep.
Defined.

(** X28.  A tick on which the stop is hit (the price strictly below the
    stop of a long, strictly above the stop of a short) and the trailing
    manager has nothing to do closes the trade at the current price: the
    net P&L is added to the margins, one exited trade is recorded with
    the rounded entry price and stop, the record is reset with the exit
    price and time, and the loop is left.  The reset record holds 0.0 as
    stop, entry and target price. *)
Theorem stop_hit_closes_trade (ex : t) (trade_date : option Timestamp)
    (price : fl) (now : Timestamp) (refetched : result (option DataFrame))
    (side : Side) (stop entry : fl) :
  snd (check_trailing_sl ex trade_date price) = Ok tt ->
  trade_direction (state ex) = Some side ->
  stop_loss (state ex) = Some stop ->
  entry_price (state ex) = Some entry ->
  match side with BUY => flt price stop | SELL => fgt price stop end = true ->
  exists pnl,
    _calculate_pnl ex price = Ok pnl /\
    monitor_step ex trade_date price now refetched
    = (mk (config ex)
          (mkState (Some (Fin 0)) None None (Some now) (Some price) None None
                   (Some false) None (Some (Fin 0)) (Some (Fin 0)) None None 0
                   None false)
          (atr ex) (atr_history ex) (margins ex + pnl)%fl (lots ex)
          (events ex ++ [RecordTrade (trade_id (state ex)) (position (state ex))
                                     (round2 entry) (round2 stop) true
                                     (strategy (state ex))]),
       Break).
Proof.
  intros Hquiet Hside Hstop Hentry Hhit.
  assert (Hpnl : exists pnl, _calculate_pnl ex price = Ok pnl).
  { unfold _calculate_pnl. rewrite Hentry. cbn [need_num rbind]. eauto. }
  destruct Hpnl as [pnl Hpnl]. exists pnl. split; [exact Hpnl|].
  unfold monitor_step.
  rewrite (check_trailing_sl_quiet ex trade_date price Hquiet).
  rewrite Hside, Hstop. cbn [need_num rbind].
  assert (Hexit : stop_hit_exit ex now price
                  = (mk (config ex)
                        (mkState (Some (Fin 0)) None None (Some now) (Some price)
                                 None None (Some false) None (Some (Fin 0))
                                 (Some (Fin 0)) None None 0 None false)
                        (atr ex) (atr_history ex) (margins ex + pnl)%fl (lots ex)
                        (events ex ++ [RecordTrade (trade_id (state ex))
                                         (position (state ex)) (round2 entry)
                                         (round2 stop) true (strategy (state ex))]),
                     Break)).
  { unfold stop_hit_exit. rewrite Hpnl. unfold record_exit, add_margin.
    cbn [state config atr atr_history margins lots events].
    rewrite Hentry, Hstop.
    cbn [need_num rbind emit with_state state config atr atr_history margins
         lots events].
    reflexivity. }
  destruct side; cbn [is_side Side_eqb].
  - rewrite Hhit. exact Hexit.
  - rewrite Hhit. exact Hexit.
Qed.

Lemma stop_hit_closes_trade_witness :
  exists pnl,
    snd (monitor_step example_executor early_tick_time (Fin 21950) (ist 60) (Ok None))
    = Break /\
    margins (fst (monitor_step example_executor early_tick_time (Fin 21950)
                    (ist 60) (Ok None)))
    = (Fin 250000 + pnl)%fl.
Proof.
  destruct (stop_hit_closes_trade example_executor early_tick_time (Fin 21950)
              (ist 60) (Ok None) BUY (Fin 21960) (Fin 22000)
              ltac:(vm_compute; reflexivity) eq_refl eq_refl eq_refl
              ltac:(vm_compute; reflexivity))
    as (pnl & _ & Hstep).
  exists pnl. rewrite Hstep. split; reflexivity.
Defined.

(** X29.  The early exit after a failed health check is booked at the
    entry price, not at the current price: when the stop is not hit, the
    trailing manager has nothing to do and the check of the refetched
    frame answers "valid" and not passed, the iteration closes the trade
    with [last_exit_price] the entry price and the loop is left.  For a
    non-negative entry price and quantity the margins never grow by it:
    the P&L booked is the costs of the round trip, whatever the current
    price. *)
Theorem early_exit_books_entry_price (ex : t) (trade_date : option Timestamp)
    (price : fl) (now : Timestamp) (df : DataFrame) (entered : Timestamp)
    (side : Side) (stop : fl) (entry : Q) :
  snd (check_trailing_sl ex trade_date price) = Ok tt ->
  default false (open_trade (state ex)) = true ->
  trade_direction (state ex) = Some side ->
  stop_loss (state ex) = Some stop ->
  match side with BUY => flt price stop | SELL => fgt price stop end = false ->
  entry_time (state ex) = Some entered ->
  checked_post_entry (state ex) = false ->
  (5 < nrows df)%nat ->
  post_entry_health_check df entered 3 (Fin (15 # 100)) = Ok ("valid", false) ->
  entry_price (state ex) = Some (Fin entry) ->
  (0 <= entry)%Q -> (0 <= qty (state ex))%Z ->
  exists net : Q,
    (net <= 0)%Q /\
    monitor_step ex trade_date price now (Ok (Some df))
    = (mk (config ex) (exited_state now (Fin entry)) (atr ex) (atr_history ex)
          (margins ex + Fin net)%fl (lots ex)
          (events ex ++ [RecordTrade (trade_id (state ex)) (position (state ex))
                                     (round2 (Fin entry)) (round2 stop) true
                                     (strategy (state ex))]),
       Break).
Proof.
  intros Hquiet Hopen Hside Hstop Hmiss Hentered Hunchecked Hrows Hcheck
         Hentry Hpos Hqty.
  destruct (Lifecycle.net_pnl_bounds ex entry entry Hentry Hpos Hpos Hqty)
    as (net & Hpnl & _ & Hloss).
  exists net. split; [apply Hloss; reflexivity|].
  unfold monitor_step.
  rewrite (check_trailing_sl_quiet ex trade_date price Hquiet).
  rewrite Hside, Hstop, Hentered, Hunchecked. cbn [need_num rbind].
  assert (Hno : (if is_side (Some side) SELL then Ok (fgt price stop) else Ok false)
                = Ok false /\
                (if is_side (Some side) BUY then Ok (flt price stop) else Ok false)
                = Ok false).
  { destruct side; cbn [is_side Side_eqb]; rewrite ?Hmiss; auto. }
  destruct Hno as (-> & ->).
  apply Nat.ltb_lt in Hrows. rewrite Hrows, Hcheck.
  cbn [String.eqb Ascii.eqb Bool.eqb andb negb].
  unfold early_exit. cbn [with_state state]. cbn [set_checked_post_entry entry_price].
  rewrite Hentry.
  set (ex' := with_state ex (set_checked_post_entry (state ex) true)).
  destruct (Lifecycle.exit_trade_open ex' now (Fin entry) (Fin entry) stop)
    as (pnl & Hpnl' & Hexit); [exact Hentry|exact Hstop|exact Hopen|].
  assert (Hsame : _calculate_pnl ex' (Fin entry) = _calculate_pnl ex (Fin entry))
    by reflexivity.
  rewrite Hsame, Hpnl in Hpnl'. injection Hpnl' as <-.
  rewrite Hexit. reflexivity.
Qed.

Lemma early_exit_books_entry_price_witness :
  exists net : Q,
    (net <= 0)%Q /\
    margins (fst (monitor_step stalled_executor stalled_watch_time (Fin 100)
                    (ist 0) (Ok (Some quiet_frame))))
    = (Fin 250000 + Fin net)%fl /\
    last_exit_price
      (state (fst (monitor_step stalled_executor stalled_watch_time (Fin 100)
                     (ist 0) (Ok (Some quiet_frame)))))
    = Some (Fin 101).
Proof.
  destruct (early_exit_books_entry_price stalled_executor stalled_watch_time
              (Fin 100) (ist 0) quiet_frame stalled_entry_time BUY (Fin 90) 101
              ltac:(vm_compute; reflexivity) eq_refl eq_refl eq_refl
              ltac:(vm_compute; reflexivity) eq_refl eq_refl
              ltac:(vm_compute; lia) ltac:(vm_compute; reflexivity) eq_refl
              ltac:(vm_compute; discriminate) ltac:(vm_compute; discriminate))
    as (net & Hnet & Hstep).
  exists net. rewrite Hstep. repeat split. exact Hnet.
Defined.

End MonitorFacts.
